(** * VCTT-AGI engine: the core modules, the orchestrator and the agents

    A shallow embedding of the signal-processing core of the engine
    (modules SIM, CAM, CTM, SRE, RIL and [VCTTOrchestrator.process]), of
    what the three agents compute around their model calls, and the
    properties that were checked against it.

    Modelling conventions.
    - Python [float] scores are exact rationals ([Q]); [min], [max] and the
      comparisons are the Python ones, written out below.  Statements about
      scores use [==], [<=] and [<] of [Q].
    - Python [str] is [string]; [lower], [isupper], [split], [strip] and
      [count] are written for the ASCII range.
    - A [dict] read with [.get] is a record whose fields are [option]s
      ([None]: the key is absent), with a flag for keys the core never reads,
      so that the truth value of the dict ([if analyst_output:]) is kept.
    - A [dict] that is iterated ([edges.items()]) is an insertion-ordered
      association list ([PyDict]).
    - An exception is a value of [Exn]; code that may raise returns
      [Exn + A].
    - A call of the language model is what it gives to the agent that makes
      it: the content of the reply, or an exception. *)

From Stdlib Require Import QArith Qminmax Lqa ZArith Lia.
From Stdlib Require Import String Ascii List Bool Arith DecimalString.
Import ListNotations.

Local Open Scope Q_scope.

(** ** Numbers *)

Module PyNum.

Definition Qgtb (x y : Q) : bool := negb (Qle_bool x y).
Definition Qltb (x y : Q) : bool := negb (Qle_bool y x).
Definition Qgeb (x y : Q) : bool := Qle_bool y x.

(** [min(a, b)]: the first argument unless the second is smaller. *)
Definition py_min (a b : Q) : Q := if Qltb b a then b else a.

(** [max(a, b)]: the first argument unless the second is larger. *)
Definition py_max (a b : Q) : Q := if Qgtb b a then b else a.

(** [float(n)] for a length or a count. *)
Definition of_nat (n : nat) : Q := inject_Z (Z.of_nat n).

(** [sum(...)] over floats, left to right from [0]. *)
Definition py_sum (l : list Q) : Q := fold_left Qplus l 0.

End PyNum.
Import PyNum.

(** ** Strings *)

Module PyStr.

Local Open Scope char_scope.
Local Open Scope nat_scope.

Definition is_ascii_upper (c : ascii) : bool :=
  let n := nat_of_ascii c in (65 <=? n) && (n <=? 90).

Definition is_ascii_lower (c : ascii) : bool :=
  let n := nat_of_ascii c in (97 <=? n) && (n <=? 122).

Definition lower_char (c : ascii) : ascii :=
  if is_ascii_upper c then ascii_of_nat (nat_of_ascii c + 32) else c.

(** [s.lower()] *)
Fixpoint lower (s : string) : string :=
  match s with
  | EmptyString => EmptyString
  | String c r => String (lower_char c) (lower r)
  end.

(** [sub in s] *)
Fixpoint contains (sub s : string) : bool :=
  if prefix sub s then true
  else match s with
       | EmptyString => false
       | String _ r => contains sub r
       end.

(** [s.count(sub)] for a non-empty [sub]: occurrences that do not
    overlap, found from the left.  [skip] is the number of characters of
    the last occurrence still to be passed. *)
Fixpoint count_from (sub s : string) (skip : nat) : nat :=
  match s with
  | EmptyString => 0
  | String _ r =>
      match skip with
      | S k => count_from sub r k
      | O => if prefix sub s
             then S (count_from sub r (String.length sub - 1))
             else count_from sub r 0
      end
  end.

Definition count (s sub : string) : nat := count_from sub s 0.

(** The characters [str.split()] splits at. *)
Definition is_space (c : ascii) : bool :=
  let n := nat_of_ascii c in
  ((9 <=? n) && (n <=? 13)) || ((28 <=? n) && (n <=? 32)).

(** [s.split()]: [cur] is the word being read, reversed. *)
Fixpoint split_from (s : string) (cur : list ascii) : list string :=
  let flush (k : list string) :=
    match cur with
    | [] => k
    | _ => string_of_list_ascii (rev cur) :: k
    end in
  match s with
  | EmptyString => flush []
  | String c r =>
      if is_space c then flush (split_from r [])
      else split_from r (c :: cur)
  end.

Definition split (s : string) : list string := split_from s [].

(** [s.isupper()]: at least one cased character and no lowercase one. *)
Definition isupper (s : string) : bool :=
  let cs := list_ascii_of_string s in
  existsb is_ascii_upper cs && negb (existsb is_ascii_lower cs).

(** [sum(1 for x in l if p(x))] *)
Definition count_if {A} (p : A -> bool) (l : list A) : nat :=
  List.length (filter p l).

End PyStr.

(** ** Dictionaries that keep insertion order *)

Module PyDict.
Section Dict.
Context {K V : Type}.
Variable eqb : K -> K -> bool.

Definition t := list (K * V).

(** [d.get(k)] *)
Fixpoint get (k : K) (d : t) : option V :=
  match d with
  | [] => None
  | (k', v) :: r => if eqb k k' then Some v else get k r
  end.

(** [d[k] = v]: a key already present keeps its place. *)
Fixpoint set (k : K) (v : V) (d : t) : t :=
  match d with
  | [] => [(k, v)]
  | (k', v') :: r =>
      if eqb k k' then (k', v) :: r else (k', v') :: set k v r
  end.

(** [k in d] *)
Definition mem (k : K) (d : t) : bool :=
  match get k d with Some _ => true | None => false end.

(** [d.get(k, dflt)] *)
Definition get_default (k : K) (dflt : V) (d : t) : V :=
  match get k d with Some v => v | None => dflt end.

End Dict.
End PyDict.

(** ** Records exchanged with the producers *)

Module Data.

(** [structure]: [{type, validity, soundness, ...}] *)
Record Structure := mkStructure {
  st_validity : option string;
  st_soundness : option string;
  st_other : bool
}.

(** one entry of [fallacies] *)
Record Fallacy := mkFallacy {
  f_type : option string;
  f_other : bool
}.

(** [strength]: [{score, rating, ...}] *)
Record Strength := mkStrength {
  sg_score : option Q;
  sg_rating : option string;
  sg_other : bool
}.

(** [analyst_output["result"]] *)
Record AnalystResult := mkAnalystResult {
  ar_structure : option Structure;
  ar_fallacies : option (list Fallacy);
  ar_strength : option Strength;
  ar_other : bool
}.

(** [analyst_output] as the modules read it *)
Record AnalystDict := mkAnalystDict {
  ad_result : option AnalystResult;
  ad_confidence : option Q;
  ad_other : bool
}.

(** one entry of [concepts] *)
Record Concept := mkConcept {
  c_id : option string;
  c_name : option string;
  c_importance : option Q
}.

(** one entry of [relationships] *)
Record Relationship := mkRelationship {
  r_source : option string;
  r_target : option string;
  r_type : option string;
  r_description : option string
}.

Record GraphMetrics := mkGraphMetrics {
  gm_node_count : option Z;
  gm_edge_count : option Z;
  gm_density : option Q;
  gm_other : bool
}.

(** [relational_output["result"]] *)
Record RelationalResult := mkRelationalResult {
  rr_concepts : option (list Concept);
  rr_relationships : option (list Relationship);
  rr_graph_metrics : option GraphMetrics;
  rr_other : bool
}.

(** [relational_output] as the modules read it *)
Record RelationalDict := mkRelationalDict {
  rd_result : option RelationalResult;
  rd_confidence : option Q;
  rd_other : bool
}.

(** [sim_metrics] as CTM and SRE read it *)
Record SimDict := mkSimDict {
  sd_tension : option Q;
  sd_uncertainty : option Q;
  sd_emotional_intensity : option Q;
  sd_other : bool
}.

Definition is_some {A} (o : option A) : bool :=
  match o with Some _ => true | None => false end.

(** Truth value of a dict: it has a key. *)
Definition structure_truthy (d : Structure) : bool :=
  is_some (st_validity d) || is_some (st_soundness d) || st_other d.
Definition strength_truthy (d : Strength) : bool :=
  is_some (sg_score d) || is_some (sg_rating d) || sg_other d.
Definition analyst_result_truthy (d : AnalystResult) : bool :=
  is_some (ar_structure d) || is_some (ar_fallacies d)
  || is_some (ar_strength d) || ar_other d.
Definition analyst_truthy (d : AnalystDict) : bool :=
  is_some (ad_result d) || is_some (ad_confidence d) || ad_other d.
Definition relational_truthy (d : RelationalDict) : bool :=
  is_some (rd_result d) || is_some (rd_confidence d) || rd_other d.
Definition sim_truthy (d : SimDict) : bool :=
  is_some (sd_tension d) || is_some (sd_uncertainty d)
  || is_some (sd_emotional_intensity d) || sd_other d.

(** The empty dict [{}], the default of [.get("...", {})]. *)
Definition empty_structure := mkStructure None None false.
Definition empty_strength := mkStrength None None false.
Definition empty_analyst_result := mkAnalystResult None None None false.
Definition empty_graph_metrics := mkGraphMetrics None None None false.
Definition empty_relational_result :=
  mkRelationalResult None None None false.

(** [o == "lit"] for a value read with [.get] *)
Definition opt_is (o : option string) (lit : string) : bool :=
  match o with Some s => String.eqb s lit | None => false end.

Definition opt_string_eqb (a b : option string) : bool :=
  match a, b with
  | Some x, Some y => String.eqb x y
  | None, None => true
  | _, _ => false
  end.

(** [str(x)] inside an f-string, for a value read with [.get] *)
Definition fmt_opt (o : option string) : string :=
  match o with Some s => s | None => "None" end.

Definition fmt_nat (n : nat) : string :=
  NilZero.string_of_uint (Nat.to_uint n).

End Data.
Import Data.

(** ** SIM: situational interpretation (sim.py) *)

Module SIM.

Record Metrics := mkMetrics {
  tension : Q;
  uncertainty : Q;
  emotional_intensity : Q
}.

(** [self.metrics] after [__init__] *)
Definition init : Metrics := mkMetrics 0 0 0.

Definition conflict_words : list string :=
  ["but"; "however"; "conflict"; "disagree"; "oppose"; "against";
   "dispute"]%string.

Definition uncertainty_words : list string :=
  ["maybe"; "perhaps"; "possibly"; "might"; "could"; "uncertain";
   "unclear"; "ambiguous"; "questionable"; "doubt"]%string.

Definition emotional_words : list string :=
  ["love"; "hate"; "fear"; "anger"; "joy"; "sad"; "happy"; "terrible";
   "wonderful"; "awful"; "amazing"; "horrific"; "fantastic"]%string.

(** [analyst_output and analyst_output.get("result")]: the result dict
    when both are truthy. *)
Definition truthy_result (analyst_output : option AnalystDict)
  : option AnalystResult :=
  match analyst_output with
  | Some ao =>
      if analyst_truthy ao then
        match ad_result ao with
        | Some r => if analyst_result_truthy r then Some r else None
        | None => None
        end
      else None
  | None => None
  end.

Definition _calculate_tension (text : string)
    (analyst_output : option AnalystDict) : Q :=
  let tension := 0 in
  let conflict_count :=
    PyStr.count_if (fun word => PyStr.contains word (PyStr.lower text))
                   conflict_words in
  let tension := tension + py_min (of_nat conflict_count * (1#10)) (5#10) in
  let tension :=
    match truthy_result analyst_output with
    | Some result =>
        let fallacy_count :=
          List.length (match ar_fallacies result with
                       | Some l => l | None => [] end) in
        tension + py_min (of_nat fallacy_count * (15#100)) (4#10)
    | None => tension
    end in
  let exclamation_count := PyStr.count text "!" in
  let tension :=
    tension + py_min (of_nat exclamation_count * (5#100)) (1#10) in
  py_min tension 1.

Definition _calculate_uncertainty (text : string)
    (analyst_output : option AnalystDict) : Q :=
  let uncertainty := 0 in
  let uncertainty_count :=
    PyStr.count_if (fun word => PyStr.contains word (PyStr.lower text))
                   uncertainty_words in
  let uncertainty :=
    uncertainty + py_min (of_nat uncertainty_count * (1#10)) (5#10) in
  let uncertainty :=
    match truthy_result analyst_output with
    | Some result =>
        let strength :=
          match ar_strength result with
          | Some s => s | None => empty_strength end in
        if opt_is (sg_rating strength) "weak" then uncertainty + (3#10)
        else if opt_is (sg_rating strength) "moderate"
             then uncertainty + (15#100)
             else uncertainty
    | None => uncertainty
    end in
  let question_count := PyStr.count text "?" in
  let uncertainty :=
    uncertainty + py_min (of_nat question_count * (8#100)) (2#10) in
  py_min uncertainty 1.

Definition _calculate_emotional_intensity (text : string) : Q :=
  let intensity := 0 in
  let emotional_count :=
    PyStr.count_if (fun word => PyStr.contains word (PyStr.lower text))
                   emotional_words in
  let intensity :=
    intensity + py_min (of_nat emotional_count * (15#100)) (6#10) in
  let upper_words :=
    PyStr.count_if
      (fun word => PyStr.isupper word && (1 <? String.length word)%nat)
      (PyStr.split text) in
  let intensity := intensity + py_min (of_nat upper_words * (1#10)) (2#10) in
  let multiple_punct :=
    (PyStr.count text "!!!" + PyStr.count text "???")%nat in
  let intensity :=
    intensity + py_min (of_nat multiple_punct * (1#10)) (2#10) in
  py_min intensity 1.

(** [analyze]: the new [self.metrics]; the value returned is a copy of
    it. *)
Definition analyze (text : string) (analyst_output : option AnalystDict)
    (self : Metrics) : Metrics * Metrics :=
  let m := mkMetrics (_calculate_tension text analyst_output)
                     (_calculate_uncertainty text analyst_output)
                     (_calculate_emotional_intensity text) in
  (m, m).

Definition get_metrics (self : Metrics) : Metrics := self.

(** The metrics dict as a later module reads it with [.get]. *)
Definition to_dict (m : Metrics) : SimDict :=
  mkSimDict (Some (tension m)) (Some (uncertainty m))
            (Some (emotional_intensity m)) false.

End SIM.

(** ** CAM: contradiction analysis (cam.py) *)

Module CAM.

Record ContradictionRecord := mkRecord {
  cr_type : string;
  cr_description : string;
  cr_severity : Q
}.

Record State := mkState {
  contradiction_score : Q;
  detected_contradictions : list ContradictionRecord
}.

Definition init : State := mkState 0 [].

Definition patterns : list (string * string) :=
  [("not", "but"); ("never", "always"); ("none", "all");
   ("impossible", "possible")]%string.

Definition _detect_text_contradictions (text : string)
  : list ContradictionRecord :=
  let contradictions := [] in
  let text_lower := PyStr.lower text in
  let contradictions :=
    fold_left
      (fun contradictions '(neg, pos) =>
         if PyStr.contains neg text_lower && PyStr.contains pos text_lower
         then contradictions ++
              [mkRecord "textual"
                 ("Potential contradiction: text contains both '" ++ neg
                  ++ "' and '" ++ pos ++ "'")
                 (5#10)]
         else contradictions)
      patterns contradictions in
  let but_count := PyStr.count text_lower " but " in
  if (2 <? but_count)%nat
  then contradictions ++
       [mkRecord "textual"
          ("Multiple contrasting statements detected ("
           ++ fmt_nat but_count ++ " instances)")
          (py_min (of_nat but_count * (15#100)) (8#10))]
  else contradictions.

Definition contradiction_fallacies : list string :=
  ["circular reasoning"; "contradiction"; "inconsistent"]%string.

Definition _detect_logical_contradictions (analyst_output : AnalystDict)
  : list ContradictionRecord :=
  let contradictions := [] in
  let result :=
    match ad_result analyst_output with
    | Some r => r | None => empty_analyst_result end in
  let structure :=
    match ar_structure result with
    | Some s => s | None => empty_structure end in
  let contradictions :=
    if opt_is (st_validity structure) "invalid"
    then contradictions ++
         [mkRecord "logical" "Invalid argument structure detected" (7#10)]
    else contradictions in
  let contradictions :=
    if opt_is (st_soundness structure) "unsound"
    then contradictions ++
         [mkRecord "logical" "Unsound argument detected" (6#10)]
    else contradictions in
  let fallacies :=
    match ar_fallacies result with Some l => l | None => [] end in
  fold_left
    (fun contradictions fallacy =>
       let ty :=
         match f_type fallacy with Some t => t | None => ""%string end in
       if existsb (fun cf => PyStr.contains cf (PyStr.lower ty))
                  contradiction_fallacies
       then contradictions ++
            [mkRecord "logical_fallacy"
               ("Contradiction-related fallacy: "
                ++ fmt_opt (f_type fallacy))
               (65#100)]
       else contradictions)
    fallacies contradictions.

(** Keys of [concept_pairs]: the tuple [(rel.get("source"),
    rel.get("target"))]. *)
Definition pair_eqb (p q : option string * option string) : bool :=
  opt_string_eqb (fst p) (fst q) && opt_string_eqb (snd p) (snd q).

(** One turn of the loop over [relationships]. *)
Definition relational_step
    (acc : PyDict.t (K := option string * option string)
                    (V := option string)
           * list ContradictionRecord)
    (rel : Relationship) :=
  let '(concept_pairs, contradictions) := acc in
  let pair := (r_source rel, r_target rel) in
  let contradictions :=
    match PyDict.get pair_eqb pair concept_pairs with
    | Some seen =>
        if negb (opt_string_eqb seen (r_type rel))
        then contradictions ++
             [mkRecord "relational"
                ("Conflicting relationship types for concepts "
                 ++ fmt_opt (fst pair) ++ " and " ++ fmt_opt (snd pair))
                (5#10)]
        else contradictions
    | None => contradictions
    end in
  (PyDict.set pair_eqb pair (r_type rel) concept_pairs, contradictions).

Definition _detect_relational_contradictions
    (relational_output : RelationalDict) : list ContradictionRecord :=
  let result :=
    match rd_result relational_output with
    | Some r => r | None => empty_relational_result end in
  let relationships :=
    match rr_relationships result with Some l => l | None => [] end in
  snd (fold_left relational_step relationships ([], [])).

(** [_calculate_score]: every record of the batch was built by this module
    with a "severity", so [c.get("severity", 0.5)] reads it. *)
Definition _calculate_score (detected : list ContradictionRecord) : Q :=
  match detected with
  | [] => 0
  | _ =>
      let total_severity := py_sum (map cr_severity detected) in
      let count := List.length detected in
      let base_score :=
        if (0 <? count)%nat then total_severity / of_nat count else 0 in
      let multiplier :=
        py_min (1 + inject_Z (Z.of_nat count - 1) * (1#10)) (15#10) in
      py_min (base_score * multiplier) 1
  end.

Record Result := mkResult {
  res_contradiction_score : Q;
  res_contradictions : list ContradictionRecord
}.

Definition analyze (text : string)
    (analyst_output : option AnalystDict)
    (relational_output : option RelationalDict)
    (self : State) : Result * State :=
  let detected := [] in
  let detected := detected ++ _detect_text_contradictions text in
  let detected :=
    match analyst_output with
    | Some ao =>
        if analyst_truthy ao
        then detected ++ _detect_logical_contradictions ao
        else detected
    | None => detected
    end in
  let detected :=
    match relational_output with
    | Some ro =>
        if relational_truthy ro
        then detected ++ _detect_relational_contradictions ro
        else detected
    | None => detected
    end in
  let score := _calculate_score detected in
  (mkResult score detected, mkState score detected).

Definition get_score (self : State) : Q := contradiction_score self.
Definition get_contradictions (self : State) := detected_contradictions self.

End CAM.

(** ** CTM: contextual trust (ctm.py) *)

Module CTM.

Definition Factors := PyDict.t (K := string) (V := Q).

Record HistoryEntry := mkEntry {
  he_score : Q;
  he_timestamp : string;
  he_factors : Factors
}.

Record State := mkState {
  trust_score : Q;
  trust_history : list HistoryEntry
}.

(** Neutral trust at start. *)
Definition init : State := mkState (5#10) [].

Definition clamp01 (x : Q) : Q := py_max 0 (py_min 1 x).

Definition _calculate_analyst_trust (analyst_output : AnalystDict) : Q :=
  let result :=
    match ad_result analyst_output with
    | Some r => r | None => empty_analyst_result end in
  let trust :=
    match ad_confidence analyst_output with
    | Some c => c | None => 5#10 end in
  let strength :=
    match ar_strength result with
    | Some s => s | None => empty_strength end in
  let strength_score :=
    match sg_score strength with Some s => s | None => 5#10 end in
  let trust := (trust + strength_score) / 2 in
  let fallacy_count :=
    List.length
      (match ar_fallacies result with Some l => l | None => [] end) in
  let trust := trust - py_min (of_nat fallacy_count * (1#10)) (3#10) in
  let structure :=
    match ar_structure result with
    | Some s => s | None => empty_structure end in
  let trust :=
    if opt_is (st_validity structure) "valid"
    then trust + (1#10) else trust in
  clamp01 trust.

Definition _calculate_relational_trust
    (relational_output : RelationalDict) : Q :=
  let result :=
    match rd_result relational_output with
    | Some r => r | None => empty_relational_result end in
  let trust :=
    match rd_confidence relational_output with
    | Some c => c | None => 5#10 end in
  let graph_metrics :=
    match rr_graph_metrics result with
    | Some g => g | None => empty_graph_metrics end in
  let node_count :=
    match gm_node_count graph_metrics with
    | Some n => n | None => 0%Z end in
  let edge_count :=
    match gm_edge_count graph_metrics with
    | Some n => n | None => 0%Z end in
  let trust := if (3 <=? node_count)%Z then trust + (1#10) else trust in
  let trust := if (2 <=? edge_count)%Z then trust + (1#10) else trust in
  let density :=
    match gm_density graph_metrics with Some d => d | None => 0 end in
  let trust :=
    if Qle_bool (2#10) density && Qle_bool density (7#10)
    then trust + (1#10) else trust in
  clamp01 trust.

Definition _calculate_situational_trust (sim_metrics : SimDict) : Q :=
  let tension :=
    match sd_tension sim_metrics with Some x => x | None => 0 end in
  let uncertainty :=
    match sd_uncertainty sim_metrics with Some x => x | None => 0 end in
  let emotional_intensity :=
    match sd_emotional_intensity sim_metrics with
    | Some x => x | None => 0 end in
  let trust := 6#10 in
  let trust := trust - tension * (3#10) in
  let trust := trust - uncertainty * (4#10) in
  let trust :=
    if Qgtb emotional_intensity (7#10) || Qltb emotional_intensity (1#10)
    then trust - (15#100) else trust in
  clamp01 trust.

Definition _calculate_trend (history : list HistoryEntry) : string :=
  match rev history with
  | recent :: previous :: _ =>
      let diff := he_score recent - he_score previous in
      if Qgtb diff (1#10) then "increasing"
      else if Qltb diff (-(1#10)) then "decreasing"
      else "stable"
  | _ => "stable"
  end.

Definition weights : list (string * Q) :=
  [("analyst"%string, 35#100); ("relational"%string, 25#100);
   ("situational"%string, 25#100)].

Record Result := mkResult {
  res_trust_score : Q;
  res_factors : Factors;
  res_trend : string
}.

(** [now] is what [datetime.utcnow().isoformat()] gives at the call. *)
Definition calculate_trust (now : string)
    (analyst_output : option AnalystDict)
    (relational_output : option RelationalDict)
    (sim_metrics : option SimDict)
    (contradiction_score : Q)
    (self : State) : Result * State :=
  let factors : Factors := [] in
  let factors :=
    match analyst_output with
    | Some ao =>
        if analyst_truthy ao
        then PyDict.set String.eqb "analyst"%string
               (_calculate_analyst_trust ao) factors
        else factors
    | None => factors
    end in
  let factors :=
    match relational_output with
    | Some ro =>
        if relational_truthy ro
        then PyDict.set String.eqb "relational"%string
               (_calculate_relational_trust ro) factors
        else factors
    | None => factors
    end in
  let factors :=
    match sim_metrics with
    | Some sm =>
        if sim_truthy sm
        then PyDict.set String.eqb "situational"%string
               (_calculate_situational_trust sm) factors
        else factors
    | None => factors
    end in
  let contradiction_penalty := contradiction_score * (5#10) in
  let factors :=
    PyDict.set String.eqb "contradiction_penalty"%string
      (- contradiction_penalty) factors in
  let weighted_sum :=
    py_sum (map (fun '(k, v) =>
                   PyDict.get_default String.eqb k (5#10) factors * v)
                weights) in
  let score := py_max 0 (py_min 1 (weighted_sum - contradiction_penalty)) in
  let history := trust_history self ++ [mkEntry score now factors] in
  (mkResult score factors (_calculate_trend history),
   mkState score history).

Definition get_trust_score (self : State) : Q := trust_score self.
Definition get_history (self : State) := trust_history self.

End CTM.

(** ** SRE: self regulation (sre.py) *)

Module SRE.

(** [RegulationMode = Literal["normal", "clarify", "slow_down"]] *)
Inductive RegulationMode := normal | clarify | slow_down.

Definition mode_name (m : RegulationMode) : string :=
  match m with
  | normal => "normal"
  | clarify => "clarify"
  | slow_down => "slow_down"
  end.

Definition mode_eqb (a b : RegulationMode) : bool :=
  match a, b with
  | normal, normal | clarify, clarify | slow_down, slow_down => true
  | _, _ => false
  end.

(** One entry of [mode_history]. *)
Record Transition := mkTransition {
  tr_from : RegulationMode;
  tr_to : RegulationMode;
  tr_reason : string
}.

Record State := mkState {
  mode : RegulationMode;
  mode_history : list Transition
}.

Definition init : State := mkState normal [].

Definition get_or_zero (o : option Q) : Q :=
  match o with Some x => x | None => 0 end.

Definition _determine_mode (sim_metrics : SimDict)
    (contradiction_score trust_score : Q) : RegulationMode :=
  let uncertainty := get_or_zero (sd_uncertainty sim_metrics) in
  let tension := get_or_zero (sd_tension sim_metrics) in
  let emotional_intensity :=
    get_or_zero (sd_emotional_intensity sim_metrics) in
  if Qgtb uncertainty (7#10) || Qgtb contradiction_score (6#10)
     || Qgtb emotional_intensity (8#10) || Qltb trust_score (3#10)
  then slow_down
  else if Qgtb uncertainty (5#10) || Qgtb contradiction_score (4#10)
          || Qltb trust_score (5#10) || Qgtb tension (6#10)
  then clarify
  else normal.

Definition _get_mode_change_reason (sim_metrics : SimDict)
    (contradiction_score trust_score : Q) : string :=
  let reasons : list string := [] in
  let reasons :=
    if Qgtb (get_or_zero (sd_uncertainty sim_metrics)) (6#10)
    then reasons ++ ["high uncertainty"%string] else reasons in
  let reasons :=
    if Qgtb contradiction_score (5#10)
    then reasons ++ ["contradictions detected"%string] else reasons in
  let reasons :=
    if Qltb trust_score (4#10)
    then reasons ++ ["low trust"%string] else reasons in
  let reasons :=
    if Qgtb (get_or_zero (sd_tension sim_metrics)) (7#10)
    then reasons ++ ["high tension"%string] else reasons in
  let reasons :=
    if Qgtb (get_or_zero (sd_emotional_intensity sim_metrics)) (7#10)
    then reasons ++ ["high emotional intensity"%string] else reasons in
  match reasons with
  | [] => "metrics stabilized"
  | _ => String.concat ", " reasons
  end.

Definition _get_mode_rationale (m : RegulationMode) : string :=
  match m with
  | slow_down =>
      "Processing complexity requires careful consideration. Taking additional time to analyze."
  | clarify =>
      "Ambiguity or inconsistencies detected. Seeking clarification to improve understanding."
  | normal => "Conditions are stable. Proceeding with normal processing."
  end.

Record Result := mkResult {
  res_mode : RegulationMode;
  res_previous_mode : RegulationMode;
  res_mode_changed : bool;
  res_rationale : string
}.

Definition regulate (sim_metrics : SimDict)
    (contradiction_score trust_score : Q) (self : State)
  : Result * State :=
  let previous_mode := mode self in
  let new_mode :=
    _determine_mode sim_metrics contradiction_score trust_score in
  let history :=
    if negb (mode_eqb new_mode previous_mode)
    then mode_history self ++
         [mkTransition previous_mode new_mode
            (_get_mode_change_reason sim_metrics contradiction_score
               trust_score)]
    else mode_history self in
  (mkResult new_mode previous_mode
     (negb (mode_eqb new_mode previous_mode))
     (_get_mode_rationale new_mode),
   mkState new_mode history).

Definition get_mode (self : State) : RegulationMode := mode self.
Definition get_history (self : State) := mode_history self.

End SRE.

(** ** Exceptions *)

Module Py.

(** An exception: [type(e).__name__] and [str(e)]. *)
Record Exn := mkExn { exn_type : string; exn_message : string }.

(** [d[k]] on a dict that has no key [k]. *)
Definition KeyError (k : string) : Exn :=
  mkExn "KeyError" ("'" ++ k ++ "'").

Inductive Outcome (A : Type) : Type :=
| Return (a : A)
| Raise (e : Exn).
Arguments Return {A} a.
Arguments Raise {A} e.

Definition bind {A B} (m : Outcome A) (k : A -> Outcome B) : Outcome B :=
  match m with
  | Return a => k a
  | Raise e => Raise e
  end.

(** [d[k]] for a field read without a default. *)
Definition index {A} (k : string) (o : option A) : Outcome A :=
  match o with
  | Some a => Return a
  | None => Raise (KeyError k)
  end.

(** A [for] loop whose body may raise: the state is threaded through the
    turns and the first exception ends the loop. *)
Fixpoint for_each {A S} (l : list A) (body : S -> A -> Outcome S) (s : S)
  : Outcome S :=
  match l with
  | [] => Return s
  | a :: r => bind (body s a) (for_each r body)
  end.

Definition returned {A} (m : Outcome A) : bool :=
  match m with Return _ => true | Raise _ => false end.

End Py.
Import Py.

Declare Scope py_scope.
Notation "x <- m ;; k" := (Py.bind m (fun x => k))
  (at level 61, m at next level, right associativity) : py_scope.

(** ** RIL: relational inference (ril.py) *)

Module RIL.

Local Open Scope py_scope.

(** A relationship stored in an adjacency list.  [_build_graph] has read
    [rel["source"]] and [rel["target"]] of every relationship it stores,
    so the later reads [edge["target"]] find the key: the edge keeps the
    two strings next to the record. *)
Record Edge := mkEdge {
  e_source : string;
  e_target : string;
  e_rel : Relationship
}.

(** A concept stored in [graph["nodes"]] under its id. *)
Definition Nodes := PyDict.t (K := string) (V := Concept).
Definition Adjacency := PyDict.t (K := string) (V := list Edge).

Record Graph := mkGraph {
  nodes : Nodes;
  edges : Adjacency;
  reverse_edges : Adjacency
}.

(** [if k not in adj: adj[k] = []] then [adj[k].append(e)] *)
Definition adj_append (k : string) (e : Edge) (adj : Adjacency)
  : Adjacency :=
  let adj :=
    if negb (PyDict.mem String.eqb k adj)
    then PyDict.set String.eqb k [] adj else adj in
  PyDict.set String.eqb k
    (PyDict.get_default String.eqb k [] adj ++ [e]) adj.

(** The body of the comprehension [{c["id"]: c for c in concepts}]. *)
Definition add_node (nodes : Nodes) (c : Concept) : Outcome Nodes :=
  id <- index "id" (c_id c) ;;
  Return (PyDict.set String.eqb id c nodes).

(** The body of the loop over [relationships]. *)
Definition add_relationship (acc : Adjacency * Adjacency)
    (rel : Relationship) : Outcome (Adjacency * Adjacency) :=
  source <- index "source" (r_source rel) ;;
  target <- index "target" (r_target rel) ;;
  let e := mkEdge source target rel in
  Return (adj_append source e (fst acc), adj_append target e (snd acc)).

Definition _build_graph (concepts : list Concept)
    (relationships : list Relationship) : Outcome Graph :=
  nodes <- for_each concepts add_node [] ;;
  adj <- for_each relationships add_relationship ([], []) ;;
  Return (mkGraph nodes (fst adj) (snd adj)).

(** One entry of [inferred_relationships]. *)
Record Inferred := mkInferred {
  i_source : string;
  i_target : string;
  i_type : string;
  i_path : list string;
  i_confidence : Q
}.

(** The body of the loop over [edges[intermediate]]. *)
Definition transitive_inner (source : string) (source_edges : list Edge)
    (intermediate : string) (inferred : list Inferred) (next_edge : Edge)
  : list Inferred :=
  let target := e_target next_edge in
  if negb (String.eqb target source) then
    let direct_exists :=
      existsb (fun e => String.eqb (e_target e) target) source_edges in
    if negb direct_exists
    then inferred ++
         [mkInferred source target "transitive"
            [source; intermediate; target] (6#10)]
    else inferred
  else inferred.

(** The body of the loop over [source_edges]. *)
Definition transitive_edge (edges : Adjacency) (source : string)
    (source_edges : list Edge) (inferred : list Inferred) (edge : Edge)
  : list Inferred :=
  let intermediate := e_target edge in
  match PyDict.get String.eqb intermediate edges with
  | Some next_edges =>
      fold_left (transitive_inner source source_edges intermediate)
                next_edges inferred
  | None => inferred
  end.

(** The body of the loop over [edges.items()]. *)
Definition transitive_source (edges : Adjacency)
    (inferred : list Inferred) (item : string * list Edge)
  : list Inferred :=
  let '(source, source_edges) := item in
  fold_left (transitive_edge edges source source_edges)
            source_edges inferred.

Definition _infer_transitive (graph : Graph) : list Inferred :=
  let inferred := [] in
  let edges := edges graph in
  let inferred := fold_left (transitive_source edges) edges inferred in
  firstn 10 inferred.

(** *** Path search *)

Inductive SearchOutcome :=
| Found (path : list string)
| NotFound
| OutOfFuel.

(** The loop over [edges[node]] inside the search: either the path
    returned, or the queue after the loop. *)
Fixpoint scan_edges (node_edges : list Edge) (end_ : string)
    (visited : list string) (path : list string)
    (queue : list (string * list string))
  : list string + list (string * list string) :=
  match node_edges with
  | [] => inr queue
  | edge :: rest =>
      let target := e_target edge in
      if String.eqb target end_ then inl (path ++ [target])
      else if negb (existsb (String.eqb target) visited)
           then scan_edges rest end_ visited path
                  (queue ++ [(target, path ++ [target])])
           else scan_edges rest end_ visited path queue
  end.

(** [while queue: ...]; each turn uses one unit of [fuel]. *)
Fixpoint search_loop (fuel : nat) (edges : Adjacency) (end_ : string)
    (max_depth : nat) (visited : list string)
    (queue : list (string * list string)) : SearchOutcome :=
  match fuel with
  | O => OutOfFuel
  | S fuel =>
      match queue with
      | [] => NotFound
      | (node, path) :: queue =>
          if (max_depth <? List.length path)%nat
          then search_loop fuel edges end_ max_depth visited queue
          else if existsb (String.eqb node) visited
          then search_loop fuel edges end_ max_depth visited queue
          else
            let visited := node :: visited in
            match PyDict.get String.eqb node edges with
            | Some node_edges =>
                match scan_edges node_edges end_ visited path queue with
                | inl found => Found found
                | inr queue =>
                    search_loop fuel edges end_ max_depth visited queue
                end
            | None => search_loop fuel edges end_ max_depth visited queue
            end
      end
  end.

(** Turns the loop can take at most: every turn removes a queue entry,
    and entries are added only when a node is visited for the first time,
    one per outgoing edge at most. *)
Definition weight (visited : list string) (edges : Adjacency) : nat :=
  fold_right
    (fun '(k, es) n =>
       if existsb (String.eqb k) visited then n
       else (S (List.length es) + n)%nat)
    O edges.

Definition search_fuel (edges : Adjacency) : nat :=
  S (S (weight [] edges)).

Definition search (edges : Adjacency) (start end_ : string)
    (max_depth : nat) : SearchOutcome :=
  search_loop (search_fuel edges) edges end_ max_depth []
              [(start, [start])].

(** [_find_path]: [None] when the queue empties.  The loop never stops for
    lack of fuel (lemma [search_ends] below), so the last branch is never
    taken. *)
Definition _find_path (graph : Graph) (start end_ : string)
    (max_depth : nat) : option (list string) :=
  if String.eqb start end_ then Some [start]
  else
    match search (edges graph) start end_ max_depth with
    | Found path => Some path
    | NotFound => None
    | OutOfFuel => None
    end.

Record ReasoningPath := mkReasoningPath {
  rp_start : string;
  rp_end : string;
  rp_path : list string;
  rp_length : nat
}.

(** [enumerate(l)] *)
Definition enumerate {A} (l : list A) : list (nat * A) :=
  combine (seq 0 (List.length l)) l.

(** The body of the loop over [concepts[i+1:i+3]]. *)
Definition try_pair (graph : Graph) (start_concept : Concept)
    (paths : list ReasoningPath) (end_concept : Concept)
  : Outcome (list ReasoningPath) :=
  start_id <- index "id" (c_id start_concept) ;;
  end_id <- index "id" (c_id end_concept) ;;
  match _find_path graph start_id end_id 3 with
  | Some path =>
      start_name <- index "name" (c_name start_concept) ;;
      end_name <- index "name" (c_name end_concept) ;;
      Return (paths ++
              [mkReasoningPath start_name end_name path (List.length path)])
  | None => Return paths
  end.

(** The body of the loop over [enumerate(concepts[:3])]. *)
Definition paths_from (graph : Graph) (concepts : list Concept)
    (paths : list ReasoningPath) (item : nat * Concept)
  : Outcome (list ReasoningPath) :=
  for_each (firstn 2 (skipn (fst item + 1) concepts))
           (try_pair graph (snd item)) paths.

Definition _find_reasoning_paths (graph : Graph)
    (concepts : list Concept) : Outcome (list ReasoningPath) :=
  let paths := [] in
  if (List.length concepts <? 2)%nat then Return paths
  else for_each (enumerate (firstn 3 concepts)) (paths_from graph concepts)
                paths.

(** *** Key nodes *)

Record KeyNode := mkKeyNode {
  k_id : string;
  k_name : string;
  k_degree : nat;
  k_importance : Q
}.

(** [l.sort(key=lambda x: x["degree"], reverse=True)]: a stable sort,
    largest degree first. *)
Fixpoint insert_by_degree (x : KeyNode) (l : list KeyNode) : list KeyNode :=
  match l with
  | [] => [x]
  | y :: r =>
      if (k_degree x <? k_degree y)%nat
      then y :: insert_by_degree x r
      else x :: y :: r
  end.

Definition sort_by_degree (l : list KeyNode) : list KeyNode :=
  fold_right insert_by_degree [] l.

(** The body of the loop over [nodes.items()]. *)
Definition add_key_node (edges reverse_edges : Adjacency)
    (key_nodes : list KeyNode) (item : string * Concept)
  : Outcome (list KeyNode) :=
  let node_id := fst item in
  let node := snd item in
  let out_degree :=
    List.length (PyDict.get_default String.eqb node_id [] edges) in
  let in_degree :=
    List.length (PyDict.get_default String.eqb node_id [] reverse_edges) in
  let total_degree := (out_degree + in_degree)%nat in
  if (0 <? total_degree)%nat then
    name <- index "name" (c_name node) ;;
    Return (key_nodes ++
            [mkKeyNode node_id name total_degree
               (py_min (of_nat total_degree / 5) 1)])
  else Return key_nodes.

Definition _identify_key_nodes (graph : Graph) : Outcome (list KeyNode) :=
  key_nodes <-
    for_each (nodes graph)
             (add_key_node (edges graph) (reverse_edges graph)) [] ;;
  Return (firstn 5 (sort_by_degree key_nodes)).

Record GraphStructure := mkGraphStructure {
  gs_nodes : nat;
  gs_edges : nat;
  gs_inferred_edges : nat
}.

Record Result := mkResult {
  inferred_relationships : list Inferred;
  reasoning_paths : list ReasoningPath;
  key_concepts : list KeyNode;
  graph_structure : GraphStructure
}.

Definition infer (concepts : list Concept)
    (relationships : list Relationship) : Outcome Result :=
  graph <- _build_graph concepts relationships ;;
  let transitive := _infer_transitive graph in
  paths <- _find_reasoning_paths graph concepts ;;
  key_nodes <- _identify_key_nodes graph ;;
  Return (mkResult transitive paths key_nodes
            (mkGraphStructure (List.length concepts)
               (List.length relationships) (List.length transitive))).

End RIL.

(** ** The orchestrator (pipeline.py) *)

Module Orchestrator.

(** [self.internal_state] *)
Record InternalState := mkInternalState {
  is_sim : SIM.Metrics;
  is_contradiction : Q;
  is_regulation_mode : SRE.RegulationMode;
  is_trust : Q
}.

Definition _init_internal_state : InternalState :=
  mkInternalState (SIM.mkMetrics 0 0 0) 0 SRE.normal (5#10).

(** [AgentOutput] (agents/base.py); [metadata] is not read by the core. *)
Record AgentOutput (R : Type) := mkAgentOutput {
  agent_type : string;
  result : R;
  confidence : Q;
  timestamp : string
}.
Arguments mkAgentOutput {R} _ _ _ _.
Arguments agent_type {R} _.
Arguments result {R} _.
Arguments confidence {R} _.
Arguments timestamp {R} _.

(** [AgentOutput.to_dict()]: all five keys are present. *)
Definition analyst_to_dict (o : AgentOutput AnalystResult) : AnalystDict :=
  mkAnalystDict (Some (result o)) (Some (confidence o)) true.

Definition relational_to_dict (o : AgentOutput RelationalResult)
  : RelationalDict :=
  mkRelationalDict (Some (result o)) (Some (confidence o)) true.

(** The synthesis record is not read by the core. *)
Record Synthesis := mkSynthesis {
  narrative : string;
  summary : string
}.

(** [AgentInput] with the keys of [context] the pipeline fills in. *)
Record AgentInput := mkAgentInput {
  ai_text : string;
  ai_session_id : option string;
  ctx_user_id : option string;
  ctx_analyst_output : option AnalystDict;
  ctx_relational_output : option RelationalDict;
  ctx_module_state : option InternalState
}.

(** The three producers and the clock, as one run meets them: a producer
    call returns an output or raises an [Exception]. *)
Record Env := mkEnv {
  analyst_process : AgentInput -> Outcome (AgentOutput AnalystResult);
  relational_process :
    AgentInput -> Outcome (AgentOutput RelationalResult);
  synthesiser_process : AgentInput -> Outcome (AgentOutput Synthesis);
  utcnow : string;          (* the clock when CTM appends to its history *)
  utcnow_end : string;      (* the clock when the result is built *)
  elapsed_ms : Z
}.

(** The modules and the state a [VCTTOrchestrator] owns. *)
Record VCTTOrchestrator := mkOrchestrator {
  sim : SIM.Metrics;
  cam : CAM.State;
  sre : SRE.State;
  ctm : CTM.State;
  model : string;
  internal_state : InternalState
}.

(** [__init__] *)
Definition new (model : string) : VCTTOrchestrator :=
  mkOrchestrator SIM.init CAM.init SRE.init CTM.init model
                 _init_internal_state.

Record ModuleDetails := mkModuleDetails {
  md_sim : SIM.Metrics;
  md_cam : CAM.Result;
  md_sre : SRE.Result;
  md_ctm : CTM.Result;
  md_ril : RIL.Result
}.

Record Data := mkData {
  d_session_id : option string;
  d_analyst_output : AnalystDict;
  d_relational_output : RelationalDict;
  d_synthesis : AgentOutput Synthesis;
  d_internal_state : InternalState;
  d_module_details : ModuleDetails;
  d_processing_time_ms : Z;
  d_model : string;
  d_timestamp : string
}.

(** [{"status": "success", "data": ...}] or
    [{"status": "error", "error": {"message": ..., "type": ...}}] *)
Inductive ProcessResult :=
| Success (data : Data)
| Error (message : string) (type : string).

(** The [except Exception as e] branch. *)
Definition error_result (e : Exn) : ProcessResult :=
  Error (exn_message e) (exn_type e).

Definition set_sim (m : SIM.Metrics) (s : InternalState) :=
  mkInternalState m (is_contradiction s) (is_regulation_mode s)
                  (is_trust s).
Definition set_contradiction (c : Q) (s : InternalState) :=
  mkInternalState (is_sim s) c (is_regulation_mode s) (is_trust s).
Definition set_trust (t : Q) (s : InternalState) :=
  mkInternalState (is_sim s) (is_contradiction s) (is_regulation_mode s) t.
Definition set_regulation (m : SRE.RegulationMode) (s : InternalState) :=
  mkInternalState (is_sim s) (is_contradiction s) m (is_trust s).

Definition process (env : Env) (text : string)
    (user_id session_id : option string) (self : VCTTOrchestrator)
  : ProcessResult * VCTTOrchestrator :=
  (* Stage 1: Analyst Agent *)
  let analyst_input :=
    mkAgentInput text session_id user_id None None None in
  match analyst_process env analyst_input with
  | Raise e => (error_result e, self)
  | Return analyst_output =>
      let ao := analyst_to_dict analyst_output in
      (* Stage 2: VCTT Modules *)
      let '(sim_metrics, sim') := SIM.analyze text (Some ao) (sim self) in
      let st := set_sim sim_metrics (internal_state self) in
      let '(cam_result, cam') :=
        CAM.analyze text (Some ao) None (cam self) in
      let st :=
        set_contradiction (CAM.res_contradiction_score cam_result) st in
      let '(ctm_result, ctm') :=
        CTM.calculate_trust (utcnow env) (Some ao) None
          (Some (SIM.to_dict sim_metrics))
          (CAM.res_contradiction_score cam_result) (ctm self) in
      let st := set_trust (CTM.res_trust_score ctm_result) st in
      let '(sre_result, sre') :=
        SRE.regulate (SIM.to_dict sim_metrics)
          (CAM.res_contradiction_score cam_result)
          (CTM.res_trust_score ctm_result) (sre self) in
      let st := set_regulation (SRE.res_mode sre_result) st in
      let self := mkOrchestrator sim' cam' sre' ctm' (model self) st in
      (* Stage 3: Relational Agent *)
      let relational_input :=
        mkAgentInput text session_id user_id (Some ao) None None in
      match relational_process env relational_input with
      | Raise e => (error_result e, self)
      | Return relational_output =>
          let ro := relational_to_dict relational_output in
          let relational_result := result relational_output in
          match RIL.infer
                  (match rr_concepts relational_result with
                   | Some l => l | None => [] end)
                  (match rr_relationships relational_result with
                   | Some l => l | None => [] end)
          with
          | Raise e => (error_result e, self)
          | Return ril_result =>
              (* Stage 4: Synthesiser Agent *)
              let synthesiser_input :=
                mkAgentInput text session_id user_id (Some ao) (Some ro)
                             (Some (internal_state self)) in
              match synthesiser_process env synthesiser_input with
              | Raise e => (error_result e, self)
              | Return synthesiser_output =>
                  (Success
                     (mkData session_id ao ro synthesiser_output
                        (internal_state self)
                        (mkModuleDetails sim_metrics cam_result sre_result
                           ctm_result ril_result)
                        (elapsed_ms env) (model self) (utcnow_end env)),
                   self)
              end
          end
      end
  end.

Definition get_internal_state (self : VCTTOrchestrator) : InternalState :=
  internal_state self.

Definition reset_state (self : VCTTOrchestrator) : VCTTOrchestrator :=
  mkOrchestrator (sim self) (cam self) (sre self) (ctm self) (model self)
                 _init_internal_state.

Definition is_error (r : ProcessResult) : bool :=
  match r with Error _ _ => true | Success _ => false end.

End Orchestrator.

(** * Notions used to state the properties *)

(** ** Scores *)

(** Every record CAM emits has a severity between 0.45 and 0.8. *)
Definition severity_ok (r : CAM.ContradictionRecord) : Prop :=
  45#100 <= CAM.cr_severity r /\ CAM.cr_severity r <= 8#10.

(** [x] lies in the closed interval [[0, 1]]. *)
Definition unit_interval (x : Q) : Prop := 0 <= x /\ x <= 1.

(** ** The relational pass of CAM, read off the list of relationships *)

Definition rel_pair (rel : Relationship) : option string * option string :=
  (r_source rel, r_target rel).

Definition relational_record (pair : option string * option string)
  : CAM.ContradictionRecord :=
  CAM.mkRecord "relational"
    ("Conflicting relationship types for concepts "
     ++ fmt_opt (fst pair) ++ " and " ++ fmt_opt (snd pair))
    (5#10).

(** The type of the first relationship on [pair] in [earlier]. *)
Fixpoint first_seen_type (pair : option string * option string)
    (earlier : list Relationship) : option (option string) :=
  match earlier with
  | [] => None
  | r :: rest =>
      if CAM.pair_eqb (rel_pair r) pair then Some (r_type r)
      else first_seen_type pair rest
  end.

(** The type of the last relationship on [pair] in [earlier]. *)
Fixpoint last_seen_type (pair : option string * option string)
    (earlier : list Relationship) : option (option string) :=
  match earlier with
  | [] => None
  | r :: rest =>
      match last_seen_type pair rest with
      | Some t => Some t
      | None =>
          if CAM.pair_eqb (rel_pair r) pair then Some (r_type r) else None
      end
  end.

(** A pass that emits one record for each relationship whose pair occurs
    among the earlier ones with a type, picked by [seen], that differs from
    its own. *)
Fixpoint relational_pass
    (seen : option string * option string -> list Relationship
            -> option (option string))
    (earlier rels : list Relationship) : list CAM.ContradictionRecord :=
  match rels with
  | [] => []
  | rel :: rest =>
      (match seen (rel_pair rel) earlier with
       | Some t =>
           if negb (opt_string_eqb t (r_type rel))
           then [relational_record (rel_pair rel)] else []
       | None => []
       end)
      ++ relational_pass seen (earlier ++ [rel]) rest
  end.

(** The specification's reading: compare with the type first seen. *)
Definition relational_first_seen_spec (rels : list Relationship) :=
  relational_pass first_seen_type [] rels.

(** The relationships a [relational_output] carries, [[]] by default. *)
Definition relationships_of (ro : RelationalDict) : list Relationship :=
  match rd_result ro with
  | Some r => match rr_relationships r with Some l => l | None => [] end
  | None => []
  end.

(** [relational_output] holding just a list of relationships. *)
Definition relational_of (rels : list Relationship) : RelationalDict :=
  mkRelationalDict
    (Some (mkRelationalResult None (Some rels) None false)) None false.

(** Three relationships on the pair (a, b) with types X, Y, X. *)
Definition xyx : list Relationship :=
  [mkRelationship (Some "a") (Some "b") (Some "X") None;
   mkRelationship (Some "a") (Some "b") (Some "Y") None;
   mkRelationship (Some "a") (Some "b") (Some "X") None]%string.

(** ** The transitive pass of RIL, in the specification's words *)

(** For every A with an outgoing edge to B and every outgoing edge from B
    to C with C <> A, if no edge of A's own adjacency list points at C, one
    inferred edge A -> C with path [A; B; C] and confidence 0.6. *)
Definition transitive_candidates (edges : RIL.Adjacency)
  : list RIL.Inferred :=
  flat_map
    (fun '(a, a_edges) =>
       flat_map
         (fun ab : RIL.Edge =>
            flat_map
              (fun bc : RIL.Edge =>
                 let c := RIL.e_target bc in
                 if negb (String.eqb c a)
                    && negb (existsb
                               (fun e => String.eqb (RIL.e_target e) c)
                               a_edges)
                 then [RIL.mkInferred a c "transitive"
                         [a; RIL.e_target ab; c] (6#10)]
                 else [])
              (PyDict.get_default String.eqb (RIL.e_target ab) [] edges))
         a_edges)
    edges.

(** The relationships that leave [a], as stored edges, in input order. *)
Definition outgoing (a : string) (rels : list Relationship)
  : list RIL.Edge :=
  flat_map
    (fun r =>
       match r_source r, r_target r with
       | Some s, Some t =>
           if String.eqb s a then [RIL.mkEdge s t r] else []
       | _, _ => []
       end)
    rels.

(** The sources of the relationships, each at its first occurrence. *)
Definition add_key (keys : list string) (k : string) : list string :=
  if existsb (String.eqb k) keys then keys else keys ++ [k].

Definition sources (rels : list Relationship) : list string :=
  fold_left
    (fun keys r =>
       match r_source r with Some s => add_key keys s | None => keys end)
    rels [].

(** What [edges.get(a)] gives for the list of edges that leave [a]. *)
Definition as_option (l : list RIL.Edge) : option (list RIL.Edge) :=
  match l with [] => None | _ => Some l end.

(** The forward adjacency after the relationships [done]. *)
Definition adjacency_of (done : list Relationship) (edges : RIL.Adjacency)
  : Prop :=
  map fst edges = sources done
  /\ forall a, PyDict.get String.eqb a edges = as_option (outgoing a done).

Definition concept (id : string) : Concept :=
  mkConcept (Some id) (Some id) None.

Definition rel (source target : string) : Relationship :=
  mkRelationship (Some source) (Some target) (Some "related_to"%string) None.

(** The inferred relationships of [infer], or [[]] when it raises. *)
Definition inferred_of (o : Outcome RIL.Result) : list RIL.Inferred :=
  match o with
  | Return r => RIL.inferred_relationships r
  | Raise _ => []
  end.

(** A -> B_i -> C for eleven intermediates B_1 .. B_11, then Z -> B_1. *)
Definition many_intermediates : list Relationship :=
  let bs := ["B1"; "B2"; "B3"; "B4"; "B5"; "B6"; "B7"; "B8"; "B9"; "B10";
             "B11"]%string in
  map (fun b => rel "A" b) bs ++ map (fun b => rel b "C") bs
  ++ [rel "Z" "B1"].

(** ** Records that carry the fields RIL indexes *)

Definition concept_complete (c : Concept) : bool :=
  is_some (c_id c) && is_some (c_name c).

Definition relationship_complete (r : Relationship) : bool :=
  is_some (r_source r) && is_some (r_target r).

(** Every concept stored in the node map carries its id and name. *)
Definition nodes_complete (nodes : RIL.Nodes) : Prop :=
  forall k c, In (k, c) nodes -> concept_complete c = true.

(** ** Runs of SRE *)

(** The arguments of one [regulate] call. *)
Definition Call : Type := SimDict * Q * Q.

Definition computed_mode (c : Call) : SRE.RegulationMode :=
  let '(sm, cs, ts) := c in SRE._determine_mode sm cs ts.

(** The engine after the calls of [calls], in order. *)
Definition regulate_all (calls : list Call) (self : SRE.State) : SRE.State :=
  fold_left (fun self '(sm, cs, ts) => snd (SRE.regulate sm cs ts self))
            calls self.

(** The changes in a sequence of modes that starts from [prev]. *)
Fixpoint changes (prev : SRE.RegulationMode) (ms : list SRE.RegulationMode)
  : list (SRE.RegulationMode * SRE.RegulationMode) :=
  match ms with
  | [] => []
  | m :: rest =>
      (if SRE.mode_eqb m prev then [] else [(prev, m)]) ++ changes m rest
  end.

Definition ends (t : SRE.Transition) : SRE.RegulationMode * SRE.RegulationMode :=
  (SRE.tr_from t, SRE.tr_to t).

(** A metric of [sim_metrics] as the rules speak of it: the number under
    its key, and 0 when the dict has no such key. *)
Definition metric (value : option Q) : Q :=
  match value with
  | Some x => x
  | None => 0
  end.

(** The two rules of the specification, on the metrics of [sm], the
    contradiction score [cs] and the trust score [ts]. *)
Definition slow_down_rule (sm : SimDict) (cs ts : Q) : Prop :=
  7#10 < metric (sd_uncertainty sm) \/ 6#10 < cs
  \/ 8#10 < metric (sd_emotional_intensity sm) \/ ts < 3#10.

Definition clarify_rule (sm : SimDict) (cs ts : Q) : Prop :=
  5#10 < metric (sd_uncertainty sm) \/ 4#10 < cs
  \/ ts < 5#10 \/ 6#10 < metric (sd_tension sm).

(** ** Runs of the orchestrator *)

(** An analyst output: structure validity "invalid", one fallacy. *)
Definition invalid_analysis : Orchestrator.AgentOutput AnalystResult :=
  Orchestrator.mkAgentOutput "analyst"
    (mkAnalystResult
       (Some (mkStructure (Some "invalid") (Some "uncertain") true))
       (Some [mkFallacy (Some "strawman") true])
       (Some (mkStrength (Some (4#10)) (Some "weak") true))
       true)%string
    (7#10) "t0".

(** Producers of a run in which the relationship producer raises. *)
Definition relational_fails : Orchestrator.Env :=
  Orchestrator.mkEnv
    (fun _ => Return invalid_analysis)
    (fun _ => Raise (mkExn "RuntimeError" "relational agent failed"))
    (fun _ => Return (Orchestrator.mkAgentOutput "synthesiser"
                        (Orchestrator.mkSynthesis "" "") (8#10) "t2"))
    "t1" "t3" 0.

(** ** The stages of a run *)

(** The input of the analyst producer in a run. *)
Definition analyst_input (text : string) (user_id session_id : option string)
  : Orchestrator.AgentInput :=
  Orchestrator.mkAgentInput text session_id user_id None None None.

(** The input of the relationship producer in a run whose analyst producer
    returned [analyst_output]. *)
Definition relational_input (text : string)
    (user_id session_id : option string)
    (analyst_output : Orchestrator.AgentOutput AnalystResult)
  : Orchestrator.AgentInput :=
  Orchestrator.mkAgentInput text session_id user_id
    (Some (Orchestrator.analyst_to_dict analyst_output)) None None.

(** The orchestrator after stage 2 of such a run: the modules hold what
    they computed, and the internal state shows it. *)
Definition after_modules (env : Orchestrator.Env) (text : string)
    (self : Orchestrator.VCTTOrchestrator)
    (analyst_output : Orchestrator.AgentOutput AnalystResult)
  : Orchestrator.VCTTOrchestrator :=
  let ao := Orchestrator.analyst_to_dict analyst_output in
  let sim_run := SIM.analyze text (Some ao) (Orchestrator.sim self) in
  let cam_run := CAM.analyze text (Some ao) None (Orchestrator.cam self) in
  let c := CAM.res_contradiction_score (fst cam_run) in
  let ctm_run :=
    CTM.calculate_trust (Orchestrator.utcnow env) (Some ao) None
      (Some (SIM.to_dict (fst sim_run))) c (Orchestrator.ctm self) in
  let t := CTM.res_trust_score (fst ctm_run) in
  let sre_run :=
    SRE.regulate (SIM.to_dict (fst sim_run)) c t (Orchestrator.sre self) in
  Orchestrator.mkOrchestrator (snd sim_run) (snd cam_run) (snd sre_run)
    (snd ctm_run) (Orchestrator.model self)
    (Orchestrator.mkInternalState (fst sim_run) c
       (SRE.res_mode (fst sre_run)) t).

(** The call of RIL on the output of the relationship producer. *)
Definition ril_run
    (relational_output : Orchestrator.AgentOutput RelationalResult)
  : Outcome RIL.Result :=
  RIL.infer
    (match rr_concepts (Orchestrator.result relational_output) with
     | Some l => l | None => [] end)
    (match rr_relationships (Orchestrator.result relational_output) with
     | Some l => l | None => [] end).

(** The input of the synthesis producer. *)
Definition synthesiser_input (env : Orchestrator.Env) (text : string)
    (user_id session_id : option string)
    (self : Orchestrator.VCTTOrchestrator)
    (analyst_output : Orchestrator.AgentOutput AnalystResult)
    (relational_output : Orchestrator.AgentOutput RelationalResult)
  : Orchestrator.AgentInput :=
  Orchestrator.mkAgentInput text session_id user_id
    (Some (Orchestrator.analyst_to_dict analyst_output))
    (Some (Orchestrator.relational_to_dict relational_output))
    (Some (Orchestrator.internal_state
             (after_modules env text self analyst_output))).


(** * The agents: what they compute around the model calls *)

(** More of [str]. *)
Module PyStrMore.

(** [s.split(sep)] for a one-character [sep]: every occurrence splits, and
    empty pieces are kept.  [cur] is the piece being read, reversed. *)
Fixpoint split_on_from (sep : ascii) (s : string) (cur : list ascii)
  : list string :=
  match s with
  | EmptyString => [string_of_list_ascii (rev cur)]
  | String c r =>
      if Ascii.eqb c sep
      then string_of_list_ascii (rev cur) :: split_on_from sep r []
      else split_on_from sep r (c :: cur)
  end.

Definition split_on (sep : ascii) (s : string) : list string :=
  split_on_from sep s [].

Fixpoint lstrip (s : string) : string :=
  match s with
  | EmptyString => EmptyString
  | String c r => if PyStr.is_space c then lstrip r else s
  end.

Definition reverse (s : string) : string :=
  string_of_list_ascii (rev (list_ascii_of_string s)).

(** [s.strip()] *)
Definition strip (s : string) : string :=
  reverse (lstrip (reverse (lstrip s))).

(** [s.strip(chars)]: [p] tells the characters of [chars]. *)
Fixpoint lstrip_chars (p : ascii -> bool) (s : string) : string :=
  match s with
  | EmptyString => EmptyString
  | String c r => if p c then lstrip_chars p r else s
  end.

Definition strip_chars (p : ascii -> bool) (s : string) : string :=
  reverse (lstrip_chars p (reverse (lstrip_chars p s))).

(** [c in chars] *)
Definition one_of (chars : string) (c : ascii) : bool :=
  existsb (Ascii.eqb c) (list_ascii_of_string chars).

(** [s.split(sep)] for a non-empty string [sep]: the occurrences of
    [sep] are found from the left and do not overlap.  [skip] is the
    number of characters of the last occurrence still to be passed and
    [cur] the piece being read, reversed. *)
Fixpoint split_sep_from (sep s : string) (skip : nat) (cur : list ascii)
  : list string :=
  match s with
  | EmptyString => [string_of_list_ascii (rev cur)]
  | String c r =>
      match skip with
      | S k => split_sep_from sep r k cur
      | O =>
          if prefix sep s
          then string_of_list_ascii (rev cur)
               :: split_sep_from sep r (String.length sep - 1) []
          else split_sep_from sep r 0 (c :: cur)
      end
  end.

Definition split_sep (sep s : string) : list string :=
  split_sep_from sep s 0 [].

(** The number of maximal runs of characters that satisfy [p]; [inside]
    tells whether the character before was one. *)
Fixpoint count_runs (p : ascii -> bool) (s : string) (inside : bool) : nat :=
  match s with
  | EmptyString => 0
  | String c r =>
      if p c then (if inside then count_runs p r true
                   else S (count_runs p r true))
      else count_runs p r false
  end.

End PyStrMore.

(** agents/base.py *)
Module Base.

(** [_create_output]: the confidence is [min(max(confidence, 0.0), 1.0)];
    [now] is [datetime.utcnow()]. *)
Definition _create_output {R : Type} (agent_type : string) (result : R)
    (confidence : Q) (now : string) : Orchestrator.AgentOutput R :=
  Orchestrator.mkAgentOutput agent_type result
    (py_min (py_max confidence 0) 1) now.

End Base.

(** agents/analyst.py.  A call of the language model is what it gives:
    the content of the reply, or an exception. *)
Module Analyst.

(** The dict [_analyze_structure] returns. *)
Record Structure := mkStructure {
  s_type : string;
  s_validity : string;
  s_soundness : string;
  s_raw_analysis : option string;
  s_error : option string
}.

(** An entry of the list [_detect_fallacies] returns. *)
Record Fallacy := mkFallacy {
  f_type : string;
  f_description : string
}.

(** The dict [_assess_strength] returns. *)
Record Strength := mkStrength {
  g_score : Q;
  g_rating : string;
  g_structure_valid : bool;
  g_fallacy_count : nat
}.

(** The [result] dict of [process]. *)
Record Result := mkResult {
  structure : Structure;
  fallacies : list Fallacy;
  premises : list string;
  conclusions : list string;
  strength : Strength;
  word_count : nat;
  sentence_count : nat
}.

Definition _extract_argument_type (text : string) : string :=
  let text_lower := PyStr.lower text in
  if PyStr.contains "deductive" text_lower then "deductive"
  else if PyStr.contains "inductive" text_lower then "inductive"
  else if PyStr.contains "abductive" text_lower then "abductive"
  else "unknown".

Definition _analyze_structure (response : Outcome string) : Structure :=
  match response with
  | Return content =>
      mkStructure
        (_extract_argument_type content)
        (if PyStr.contains "valid" (PyStr.lower content)
         then "valid" else "uncertain")
        (if PyStr.contains "sound" (PyStr.lower content)
         then "sound" else "uncertain")
        (Some content) None
  | Raise e =>
      mkStructure "unknown" "uncertain" "uncertain" None
                  (Some (exn_message e))
  end.

Definition common_fallacies : list string :=
  ["ad hominem"; "strawman"; "false dilemma"; "slippery slope";
   "circular reasoning"; "hasty generalization"; "appeal to authority"
  ]%string.

Definition _detect_fallacies (response : Outcome string) : list Fallacy :=
  match response with
  | Return content =>
      fold_left
        (fun fallacies fallacy =>
           if PyStr.contains fallacy (PyStr.lower content)
           then fallacies ++
                [mkFallacy fallacy
                   ("Detected " ++ fallacy ++ " in text")]
           else fallacies)
        common_fallacies []
  | Raise _ => []
  end.

(** [[s.strip() for s in content.split('\n') if word in s.lower()]] *)
Definition lines_with (word content : string) : list string :=
  map PyStrMore.strip
      (filter (fun s => PyStr.contains word (PyStr.lower s))
              (PyStrMore.split_on "010"%char content)).

Definition _extract_premises_conclusions (response : Outcome string)
  : list string * list string :=
  match response with
  | Return content =>
      (firstn 5 (lines_with "premise" content),
       firstn 3 (lines_with "conclusion" content))
  | Raise _ => ([], [])
  end.

Definition _assess_strength (structure : Structure)
    (fallacies : list Fallacy) : Strength :=
  let score := 5#10 in
  let score :=
    if String.eqb (s_validity structure) "valid"
    then score + (2#10) else score in
  let score := score - of_nat (List.length fallacies) * (1#10) in
  let score := py_max 0 (py_min 1 score) in
  mkStrength score
    (if Qgtb score (7#10) then "strong"
     else if Qgtb score (4#10) then "moderate" else "weak")
    (String.eqb (s_validity structure) "valid")
    (List.length fallacies).

Definition is_empty {A : Type} (l : list A) : bool :=
  match l with [] => true | _ => false end.

Definition _calculate_confidence (result : Result) : Q :=
  let confidence := 7#10 in
  let confidence :=
    if negb (String.eqb (s_type (structure result)) "unknown")
    then confidence + (1#10) else confidence in
  let confidence :=
    if negb (is_empty (premises result))
       || negb (is_empty (conclusions result))
    then confidence + (1#10) else confidence in
  let confidence :=
    if is_some (s_error (structure result))
    then confidence - (2#10) else confidence in
  py_max 0 (py_min 1 confidence).

Definition is_terminator (c : ascii) : bool :=
  Ascii.eqb c "."%char || Ascii.eqb c "!"%char || Ascii.eqb c "?"%char.

(** The replies of the three model calls of one [process]. *)
Record Replies := mkReplies {
  structure_reply : Outcome string;
  fallacies_reply : Outcome string;
  premises_reply : Outcome string
}.

Definition process (replies : Replies) (now : string) (text : string)
  : Orchestrator.AgentOutput Result :=
  let structure := _analyze_structure (structure_reply replies) in
  let fallacies := _detect_fallacies (fallacies_reply replies) in
  let premises_conclusions :=
    _extract_premises_conclusions (premises_reply replies) in
  let strength := _assess_strength structure fallacies in
  let result :=
    mkResult structure fallacies (fst premises_conclusions)
      (snd premises_conclusions) strength
      (List.length (PyStr.split text))
      (S (PyStrMore.count_runs is_terminator text false)) in
  let confidence := _calculate_confidence result in
  Base._create_output "analyst" result confidence now.

(** The result as the modules read it, a dict with all its keys. *)
Definition structure_dict (s : Structure) : Data.Structure :=
  Data.mkStructure (Some (s_validity s)) (Some (s_soundness s)) true.

Definition fallacy_dict (f : Fallacy) : Data.Fallacy :=
  Data.mkFallacy (Some (f_type f)) true.

Definition strength_dict (g : Strength) : Data.Strength :=
  Data.mkStrength (Some (g_score g)) (Some (g_rating g)) true.

Definition result_dict (r : Result) : AnalystResult :=
  mkAnalystResult (Some (structure_dict (structure r)))
                  (Some (map fallacy_dict (fallacies r)))
                  (Some (strength_dict (strength r))) true.

(** [AgentOutput.to_dict()] of the output of [process]. *)
Definition to_dict (o : Orchestrator.AgentOutput Result) : AnalystDict :=
  mkAnalystDict (Some (result_dict (Orchestrator.result o)))
                (Some (Orchestrator.confidence o)) true.

End Analyst.

(** agents/relational.py.  The concepts are made from a [set] of words,
    which [list(...)] gives in an order the program does not choose: the
    listing is an argument, [unique_words]. *)
Module Relational.

Local Open Scope py_scope.

(** An entry of [concepts]. *)
Record Concept := mkConcept {
  n_id : string;
  n_name : string;
  n_type : string;
  n_importance : Q
}.

(** An entry of [relationships]. *)
Record Link := mkLink {
  l_source : string;
  l_target : string;
  l_type : string;
  l_description : string
}.

(** An entry of [implicit_relationships]. *)
Record Implicit := mkImplicit {
  m_source : string;
  m_target : string;
  m_type : string;
  m_confidence : Q;
  m_description : string
}.

(** An edge of the knowledge graph: [{**rel, "strength": ...}]. *)
Record GraphEdge := mkGraphEdge {
  ge_rel : Link;
  ge_strength : Q
}.

Record KnowledgeGraph := mkKnowledgeGraph {
  kg_nodes : list Concept;
  kg_edges : list GraphEdge
}.

Record Metrics := mkMetrics {
  node_count : nat;
  edge_count : nat;
  density : Q
}.

(** The [result] dict of [process]. *)
Record Result := mkResult {
  concepts : list Concept;
  relationships : list Link;
  connection_strengths : PyDict.t (K := string) (V := Q);
  knowledge_graph : KnowledgeGraph;
  implicit_relationships : list Implicit;
  graph_metrics : Metrics
}.

(** The elements of
    [set([w.lower().strip('.,!?;:') for w in words if len(w) > 4])],
    in the order of the text and with their repetitions. *)
Definition words (text : string) : list string :=
  map (fun w => PyStrMore.strip_chars (PyStrMore.one_of ".,!?;:")
                                      (PyStr.lower w))
      (filter (fun w => (4 <? String.length w)%nat) (PyStr.split text)).

(** The body of the loop over [enumerate(list(unique_words)[:10])]. *)
Definition concept_of (entry : nat * string) : Concept :=
  mkConcept ("c_" ++ fmt_nat (fst entry)) (snd entry) "concept"
            (py_min 1 (of_nat (String.length (snd entry)) / 15)).

Definition _extract_concepts (response : Outcome string)
    (unique_words : list string) : list Concept :=
  match response with
  | Return content =>
      map concept_of (RIL.enumerate (firstn 10 unique_words))
  | Raise _ => []
  end.

Definition IndexError : Exn := mkExn "IndexError" "list index out of range".

(** [l[i]] *)
Definition item {A : Type} (l : list A) (i : nat) : Outcome A :=
  match nth_error l i with
  | Some a => Return a
  | None => Raise IndexError
  end.

Definition link (a b : Concept) : Link :=
  mkLink (n_id a) (n_id b) "related_to"
         (n_name a ++ " relates to " ++ n_name b).

(** The body of the loop over [range(min(len(concepts) - 1, 5))]. *)
Definition add_link (concepts : list Concept) (relationships : list Link)
    (i : nat) : Outcome (list Link) :=
  a <- item concepts i ;;
  b <- item concepts (i + 1) ;;
  Return (relationships ++ [link a b]).

(** [_map_relationships]: the [try] block, then what [except Exception]
    makes of it. *)
Definition _map_relationships (concepts : list Concept)
    (response : Outcome string) : list Link :=
  let attempt :=
    if (List.length concepts <? 2)%nat then Return []
    else
      _ <- response ;;
      for_each (seq 0 (Nat.min (List.length concepts - 1) 5))
               (add_link concepts) [] in
  match attempt with
  | Return relationships => relationships
  | Raise _ => []
  end.

Definition strength_key (rel : Link) : string :=
  l_source rel ++ "-" ++ l_target rel.

Definition _calculate_connection_strengths (relationships : list Link)
  : PyDict.t (K := string) (V := Q) :=
  fold_left
    (fun strengths entry =>
       PyDict.set String.eqb (strength_key (snd entry))
         ((5#10) + (5#10) * of_nat (fst entry mod 3) / 3) strengths)
    (RIL.enumerate relationships) [].

Definition _build_knowledge_graph (concepts : list Concept)
    (relationships : list Link)
    (strengths : PyDict.t (K := string) (V := Q)) : KnowledgeGraph :=
  mkKnowledgeGraph concepts
    (map (fun rel =>
            mkGraphEdge rel
              (PyDict.get_default String.eqb (strength_key rel) (5#10)
                                  strengths))
         relationships).

(** [(a, b) in explicit_pairs] *)
Definition is_explicit (explicit_relations : list Link) (a b : string)
  : bool :=
  existsb (fun r => String.eqb (l_source r) a && String.eqb (l_target r) b)
          explicit_relations.

(** The body of the inner loop of [_identify_implicit_relationships]; the
    state is [inl] once the function has returned. *)
Definition implicit_inner (explicit_relations : list Link) (c1 : Concept)
    (state : list Implicit + list Implicit) (c2 : Concept)
  : list Implicit + list Implicit :=
  match state with
  | inl done => inl done
  | inr implicit =>
      if negb (is_explicit explicit_relations (n_id c1) (n_id c2)) then
        let implicit :=
          implicit ++
          [mkImplicit (n_id c1) (n_id c2) "implicit" (4#10)
             ("Implicit connection between " ++ n_name c1 ++ " and "
              ++ n_name c2)] in
        if (3 <=? List.length implicit)%nat then inl implicit
        else inr implicit
      else inr implicit
  end.

(** The body of the loop over [enumerate(concepts)]. *)
Definition implicit_outer (explicit_relations : list Link)
    (concepts : list Concept) (state : list Implicit + list Implicit)
    (entry : nat * Concept) : list Implicit + list Implicit :=
  fold_left (implicit_inner explicit_relations (snd entry))
            (skipn (fst entry + 1) concepts) state.

Definition _identify_implicit_relationships (concepts : list Concept)
    (explicit_relations : list Link) : list Implicit :=
  match fold_left (implicit_outer explicit_relations concepts)
                  (RIL.enumerate concepts) (inr []) with
  | inl done => done
  | inr implicit => implicit
  end.

Definition _calculate_graph_density (node_count edge_count : nat) : Q :=
  if (node_count <? 2)%nat then 0
  else
    let max_edges :=
      inject_Z (Z.of_nat node_count * (Z.of_nat node_count - 1)) / 2 in
    if Qgtb max_edges 0 then of_nat edge_count / max_edges else 0.

Definition _calculate_confidence (result : Result) : Q :=
  let confidence := 6#10 in
  let confidence :=
    if negb (Analyst.is_empty (concepts result))
    then confidence + (15#100) else confidence in
  let confidence :=
    if negb (Analyst.is_empty (relationships result))
    then confidence + (15#100) else confidence in
  let confidence :=
    if negb (Analyst.is_empty (implicit_relationships result))
    then confidence + (1#10) else confidence in
  py_min 1 confidence.

(** The replies of the two model calls of one [process]; the second call
    is made only when there are two concepts or more. *)
Record Replies := mkReplies {
  concepts_reply : Outcome string;
  relationships_reply : Outcome string
}.

Definition process (replies : Replies) (unique_words : list string)
    (now : string) : Orchestrator.AgentOutput Result :=
  let concepts := _extract_concepts (concepts_reply replies) unique_words in
  let relationships :=
    _map_relationships concepts (relationships_reply replies) in
  let strengths := _calculate_connection_strengths relationships in
  let knowledge_graph :=
    _build_knowledge_graph concepts relationships strengths in
  let implicit_relations :=
    _identify_implicit_relationships concepts relationships in
  let result :=
    mkResult concepts relationships strengths knowledge_graph
      implicit_relations
      (mkMetrics (List.length concepts) (List.length relationships)
         (_calculate_graph_density (List.length concepts)
                                   (List.length relationships))) in
  let confidence := _calculate_confidence result in
  Base._create_output "relational" result confidence now.

(** The result as the modules read it, a dict with all its keys. *)
Definition concept_dict (c : Concept) : Data.Concept :=
  Data.mkConcept (Some (n_id c)) (Some (n_name c)) (Some (n_importance c)).

Definition link_dict (l : Link) : Data.Relationship :=
  Data.mkRelationship (Some (l_source l)) (Some (l_target l))
                      (Some (l_type l)) (Some (l_description l)).

Definition metrics_dict (m : Metrics) : GraphMetrics :=
  mkGraphMetrics (Some (Z.of_nat (node_count m)))
                 (Some (Z.of_nat (edge_count m))) (Some (density m)) false.

Definition result_dict (r : Result) : RelationalResult :=
  mkRelationalResult (Some (map concept_dict (concepts r)))
                     (Some (map link_dict (relationships r)))
                     (Some (metrics_dict (graph_metrics r))) true.

(** [AgentOutput.to_dict()] of the output of [process]. *)
Definition to_dict (o : Orchestrator.AgentOutput Result) : RelationalDict :=
  mkRelationalDict (Some (result_dict (Orchestrator.result o)))
                   (Some (Orchestrator.confidence o)) true.

End Relational.

(** agents/synthesiser.py.  The agent reads the outputs of the two other
    agents and the internal state of the orchestrator from the context of
    its input. *)
Module Synthesiser.

Local Open Scope string_scope.
Local Open Scope list_scope.

(** The dict [_synthesize_information] returns. *)
Record Information := mkInformation {
  y_text : string;
  y_sources : list string;
  y_key_points : list string
}.

(** The text of an insight.  [ArgumentIs rating score] stands for the
    f-string that says the argument is [rating], with a strength score of
    [score] printed with two decimals: the score is kept as it is, not as
    the decimals printed. *)
Inductive InsightText :=
| ArgumentIs (rating : string) (score : Q)
| Sentence (s : string).

Record Insight := mkInsight {
  i_type : string;
  i_insight : InsightText;
  i_confidence : Q
}.

(** An entry of [contradiction_resolution]. *)
Record Resolution := mkResolution {
  c_type : string;
  c_description : string;
  c_severity : Q;
  c_resolution : string
}.

(** The [result] dict of [process]; [narrative] is [None] when the model
    replies without content. *)
Record Result := mkResult {
  synthesis : Information;
  insights : list Insight;
  narrative : option string;
  contradiction_resolution : list Resolution;
  summary : string;
  recommendations : list string
}.

(** [context.get("analyst_output", {})] and the like. *)
Definition analyst_or_empty (o : option AnalystDict) : AnalystDict :=
  match o with Some d => d | None => mkAnalystDict None None false end.

Definition relational_or_empty (o : option RelationalDict)
  : RelationalDict :=
  match o with
  | Some d => d
  | None => mkRelationalDict None None false
  end.

Definition _extract_key_points (text : string) : list string :=
  let sentences := PyStrMore.split_sep ". " text in
  firstn 5
    (map (fun s => (PyStrMore.strip s ++ ".")%string)
         (filter (fun s => (20 <? String.length (PyStrMore.strip s))%nat)
                 sentences)).

(** [_synthesize_information]: a reply without content ends in the
    [except] branch like a failed call, since [None] has no [split]. *)
Definition _synthesize_information (response : Outcome string)
  : Information :=
  match response with
  | Return synthesis_text =>
      mkInformation synthesis_text
        ["analyst"; "relational"; "original_text"]
        (_extract_key_points synthesis_text)
  | Raise _ =>
      mkInformation "Synthesis unavailable due to processing error." [] []
  end.

Definition _generate_insights (analyst_output : AnalystDict)
    (relational_output : RelationalDict)
    (module_state : option Orchestrator.InternalState) : list Insight :=
  let insights := [] in
  let analyst_result :=
    match ad_result analyst_output with
    | Some r => r | None => empty_analyst_result end in
  let strength :=
    match ar_strength analyst_result with
    | Some s => s | None => empty_strength end in
  let insights :=
    if strength_truthy strength
    then insights ++
         [mkInsight "argument_quality"
            (ArgumentIs
               (match sg_rating strength with
                | Some r => r | None => "moderate" end)
               (match sg_score strength with
                | Some x => x | None => 5#10 end))
            (8#10)]
    else insights in
  let relational_result :=
    match rd_result relational_output with
    | Some r => r | None => empty_relational_result end in
  let insights :=
    match rr_concepts relational_result with
    | Some (c :: rest) =>
        let concept_count := List.length (c :: rest) in
        insights ++
        [mkInsight "conceptual_complexity"
           (Sentence
              ("The text involves " ++ fmt_nat concept_count
               ++ " key concepts with interconnected relationships")%string)
           (75#100)]
    | _ => insights
    end in
  match module_state with
  | Some state =>
      if Qgtb (SIM.tension (Orchestrator.is_sim state)) (6#10)
      then insights ++
           [mkInsight "tension_detection"
              (Sentence
                 "High tension detected in the situational interpretation")
              (85#100)]
      else insights
  | None => insights
  end.

Definition _create_narrative (response : Outcome (option string))
  : option string :=
  match response with
  | Return content => content
  | Raise _ => Some "Narrative generation unavailable."
  end.

Definition _resolve_contradictions
    (module_state : option Orchestrator.InternalState) : list Resolution :=
  let contradictions := [] in
  let contradiction_score :=
    match module_state with
    | Some state => Orchestrator.is_contradiction state
    | None => 0
    end in
  if Qgtb contradiction_score (5#10)
  then contradictions ++
       [mkResolution "logical_contradiction"
          "Contradictions detected in argument structure"
          contradiction_score
          "Further clarification needed to resolve logical inconsistencies"]
  else contradictions.

Definition _create_summary (synthesis : Information)
    (insights : list Insight) : string :=
  let insight_count := List.length insights in
  ("Analysis complete with " ++ fmt_nat insight_count ++ " key insights. "
   ++ substring 0 150 (y_text synthesis) ++ "...")%string.

Definition _generate_recommendations
    (module_state : option Orchestrator.InternalState) : list string :=
  let recommendations := [] in
  let recommendations :=
    match module_state with
    | Some state =>
        match Orchestrator.is_regulation_mode state with
        | SRE.clarify =>
            recommendations ++
            ["Consider providing additional clarification to reduce uncertainty"]
        | SRE.slow_down =>
            recommendations ++
            ["Take time to process complex information carefully"]
        | SRE.normal => recommendations
        end
    | None => recommendations
    end in
  let trust :=
    match module_state with
    | Some state => Orchestrator.is_trust state
    | None => 5#10
    end in
  if Qltb trust (5#10)
  then recommendations ++
       ["Build trust through transparent reasoning and evidence"]
  else recommendations.

(** [bool(narrative)] *)
Definition narrative_truthy (narrative : option string) : bool :=
  match narrative with
  | Some (String _ _) => true
  | _ => false
  end.

Definition _calculate_confidence (result : Result)
    (module_state : option Orchestrator.InternalState) : Q :=
  let confidence := 7#10 in
  let confidence :=
    if negb (Analyst.is_empty (insights result))
    then confidence + (1#10) else confidence in
  let confidence :=
    if narrative_truthy (narrative result)
    then confidence + (1#10) else confidence in
  let trust :=
    match module_state with
    | Some state => Orchestrator.is_trust state
    | None => 5#10
    end in
  let confidence := (confidence + trust) / 2 in
  py_min 1 confidence.

(** The replies of the two model calls of one [process]. *)
Record Replies := mkReplies {
  synthesis_reply : Outcome string;
  narrative_reply : Outcome (option string)
}.

Definition process (replies : Replies) (now : string)
    (input_data : Orchestrator.AgentInput)
  : Orchestrator.AgentOutput Result :=
  let analyst_output :=
    analyst_or_empty (Orchestrator.ctx_analyst_output input_data) in
  let relational_output :=
    relational_or_empty (Orchestrator.ctx_relational_output input_data) in
  let module_state := Orchestrator.ctx_module_state input_data in
  let synthesis := _synthesize_information (synthesis_reply replies) in
  let insights :=
    _generate_insights analyst_output relational_output module_state in
  let narrative := _create_narrative (narrative_reply replies) in
  let contradictions := _resolve_contradictions module_state in
  let result :=
    mkResult synthesis insights narrative contradictions
      (_create_summary synthesis insights)
      (_generate_recommendations module_state) in
  let confidence := _calculate_confidence result module_state in
  Base._create_output "synthesiser" result confidence now.

End Synthesiser.


(** * More notions *)

(** ** CAM *)

(** The record of the textual pass for a pair of words both found. *)
Definition textual_record (neg pos : string) : CAM.ContradictionRecord :=
  CAM.mkRecord "textual"
    ("Potential contradiction: text contains both '" ++ neg ++ "' and '"
     ++ pos ++ "'")
    (5#10).

(** ** SRE *)

(** A history that leads from the mode [from] to the mode [to]: every
    transition starts where the one before it ended and changes the
    mode. *)
Fixpoint linked (from : SRE.RegulationMode) (h : list SRE.Transition)
    (to : SRE.RegulationMode) : Prop :=
  match h with
  | [] => from = to
  | t :: rest =>
      SRE.tr_from t = from /\ SRE.tr_from t <> SRE.tr_to t
      /\ linked (SRE.tr_to t) rest to
  end.

(** How far a mode is from normal. *)
Definition rank (m : SRE.RegulationMode) : nat :=
  match m with
  | SRE.normal => 0
  | SRE.clarify => 1
  | SRE.slow_down => 2
  end.

(** The inputs [sm', cs', ts'] are at least as bad as [sm, cs, ts]: no
    less uncertainty, tension, emotional intensity and contradiction, no
    more trust. *)
Definition no_better (sm : SimDict) (cs ts : Q) (sm' : SimDict)
    (cs' ts' : Q) : Prop :=
  metric (sd_uncertainty sm) <= metric (sd_uncertainty sm')
  /\ metric (sd_tension sm) <= metric (sd_tension sm')
  /\ metric (sd_emotional_intensity sm)
     <= metric (sd_emotional_intensity sm')
  /\ cs <= cs' /\ ts' <= ts.

(** ** RIL *)

(** An edge of [a]'s adjacency list points at [b]. *)
Definition has_edge (edges : RIL.Adjacency) (a b : string) : Prop :=
  exists es e,
    PyDict.get String.eqb a edges = Some es /\ In e es
    /\ RIL.e_target e = b.

(** Every node of [p] but the last has an edge to the next one. *)
Fixpoint is_path (edges : RIL.Adjacency) (p : list string) : Prop :=
  match p with
  | a :: rest =>
      match rest with
      | b :: _ => has_edge edges a b /\ is_path edges rest
      | [] => True
      end
  | [] => True
  end.

(** A queue entry of the search from [start]: a path from [start] to its
    node. *)
Definition entry_ok (edges : RIL.Adjacency) (start : string)
    (entry : string * list string) : Prop :=
  hd_error (snd entry) = Some start
  /\ last (snd entry) start = fst entry
  /\ is_path edges (snd entry).

(** A graph with the single edge A -> B. *)
Definition one_edge : RIL.Graph :=
  RIL.mkGraph [] [("A", [RIL.mkEdge "A" "B" (rel "A" "B")])]%string
              [("B", [RIL.mkEdge "A" "B" (rel "A" "B")])]%string.

(** The relationships that arrive at [a], as stored edges, in input
    order. *)
Definition incoming (a : string) (rels : list Relationship)
  : list RIL.Edge :=
  flat_map
    (fun r =>
       match r_source r, r_target r with
       | Some s, Some t =>
           if String.eqb t a then [RIL.mkEdge s t r] else []
       | _, _ => []
       end)
    rels.

(** The reverse adjacency after the relationships [done]. *)
Definition reverse_of (done : list Relationship) (rev : RIL.Adjacency)
  : Prop :=
  forall a, PyDict.get String.eqb a rev = as_option (incoming a done).

(** A relationship of [rels] runs from [a] to [b]. *)
Definition related (rels : list Relationship) (a b : string) : Prop :=
  exists r, In r rels /\ r_source r = Some a /\ r_target r = Some b.

(** Every node of [p] but the last is related to the next one. *)
Fixpoint follows (rels : list Relationship) (p : list string) : Prop :=
  match p with
  | a :: rest =>
      match rest with
      | b :: _ => related rels a b /\ follows rels rest
      | [] => True
      end
  | [] => True
  end.

(** Key nodes in order of degree, largest first. *)
Fixpoint descending (l : list RIL.KeyNode) : Prop :=
  match l with
  | [] => True
  | x :: rest =>
      Forall (fun y => (RIL.k_degree y <= RIL.k_degree x)%nat) rest
      /\ descending rest
  end.

(** What [_identify_key_nodes] records for a node of the graph built from
    [concepts] and [rels]. *)
Definition key_node_ok (concepts : list Concept)
    (rels : list Relationship) (k : RIL.KeyNode) : Prop :=
  (exists c,
      In c concepts /\ c_id c = Some (RIL.k_id k)
      /\ c_name c = Some (RIL.k_name k))
  /\ RIL.k_degree k
     = (List.length (outgoing (RIL.k_id k) rels)
        + List.length (incoming (RIL.k_id k) rels))%nat
  /\ (1 <= RIL.k_degree k)%nat
  /\ RIL.k_importance k = py_min (of_nat (RIL.k_degree k) / 5) 1.

(** What [_find_reasoning_paths] records for a pair of concepts joined by
    a path. *)
Definition reasoning_path_ok (concepts : list Concept)
    (rels : list Relationship) (p : RIL.ReasoningPath) : Prop :=
  RIL.rp_length p = List.length (RIL.rp_path p)
  /\ (1 <= RIL.rp_length p <= 4)%nat
  /\ follows rels (RIL.rp_path p)
  /\ exists c1 c2 id2,
      In c1 concepts /\ In c2 concepts
      /\ c_name c1 = Some (RIL.rp_start p)
      /\ c_name c2 = Some (RIL.rp_end p)
      /\ hd_error (RIL.rp_path p) = c_id c1
      /\ c_id c2 = Some id2
      /\ last (RIL.rp_path p) id2 = id2.

(** ** the orchestrator *)

(** The internal state shows what the modules hold. *)
Definition in_sync (o : Orchestrator.VCTTOrchestrator) : Prop :=
  Orchestrator.is_sim (Orchestrator.internal_state o)
  = SIM.get_metrics (Orchestrator.sim o)
  /\ Orchestrator.is_contradiction (Orchestrator.internal_state o)
     = CAM.get_score (Orchestrator.cam o)
  /\ Orchestrator.is_trust (Orchestrator.internal_state o)
     = CTM.get_trust_score (Orchestrator.ctm o)
  /\ Orchestrator.is_regulation_mode (Orchestrator.internal_state o)
     = SRE.get_mode (Orchestrator.sre o).

(** Producers of a run in which every stage succeeds. *)
Definition all_succeed : Orchestrator.Env :=
  Orchestrator.mkEnv
    (fun _ => Return invalid_analysis)
    (fun _ =>
       Return
         (Orchestrator.mkAgentOutput "relational"
            (mkRelationalResult
               (Some [concept "A"; concept "B"])
               (Some [rel "A" "B"; rel "A" "B"])
               (Some (mkGraphMetrics (Some 2%Z) (Some 2%Z) (Some 1) false))
               true)
            (9#10) "t2"))
    (fun _ => Return (Orchestrator.mkAgentOutput "synthesiser"
                        (Orchestrator.mkSynthesis "n" "s") (8#10) "t3"))
    "t1" "t4" 5.

(** The types of the records of the textual and the logical pass. *)
Definition not_relational (c : CAM.ContradictionRecord) : Prop :=
  CAM.cr_type c = "textual"%string \/ CAM.cr_type c = "logical"%string
  \/ CAM.cr_type c = "logical_fallacy"%string.

(** ** the relational agent *)

(** [listed] is a listing of the set of the words of [text]. *)
Definition lists (listed : list string) (text : string) : Prop :=
  NoDup listed /\ forall w, In w listed <-> In w (Relational.words text).

(** The id of the concept made from the word at place [i]. *)
Definition concept_id (i : nat) : string := "c_" ++ fmt_nat i.

(** The concept at place [i]. *)
Definition concept_at (concepts : list Relational.Concept) (i : nat)
  : Relational.Concept :=
  nth i concepts (Relational.mkConcept "" "" "" 0).

(** The chain that links each of the first concepts to the next one. *)
Definition chain (concepts : list Relational.Concept) (n : nat)
  : list Relational.Link :=
  map (fun i => Relational.link (concept_at concepts i)
                                (concept_at concepts (i + 1)))
      (seq 0 n).

(** The two-step shortcuts of a chain of [n] relationships, as
    [_infer_transitive] records them. *)
Definition shortcuts (n : nat) : list RIL.Inferred :=
  map (fun i =>
         RIL.mkInferred (concept_id i) (concept_id (i + 2)) "transitive"
           [concept_id i; concept_id (i + 1); concept_id (i + 2)] (6#10))
      (seq 0 (n - 1)).

(** The implicit relationship of a pair of concepts. *)
Definition implicit_entry (c1 c2 : Relational.Concept)
  : Relational.Implicit :=
  Relational.mkImplicit (Relational.n_id c1) (Relational.n_id c2)
    "implicit" (4#10)
    ("Implicit connection between " ++ Relational.n_name c1 ++ " and "
     ++ Relational.n_name c2).

(** No explicit relationship goes from [a] to [b]. *)
Definition unjoined (explicit : list Relational.Link) (a b : string)
  : Prop :=
  forall r,
    In r explicit ->
    ~ (Relational.l_source r = a /\ Relational.l_target r = b).

(** Some explicit relationship goes from [a] to [b]. *)
Definition joins (explicit : list Relational.Link) (a b : string) : bool :=
  existsb (fun r => String.eqb (Relational.l_source r) a
                    && String.eqb (Relational.l_target r) b)
          explicit.

(** What a pair of concepts adds to the implicit relationships. *)
Definition emit (explicit : list Relational.Link)
    (c1 c2 : Relational.Concept) : list Relational.Implicit :=
  if joins explicit (Relational.n_id c1) (Relational.n_id c2)
  then [] else [implicit_entry c1 c2].

(** The pairs of concepts, the first before the second, that no explicit
    relationship joins, in the order of the two loops. *)
Definition implicit_candidates (concepts : list Relational.Concept)
    (explicit : list Relational.Link) : list Relational.Implicit :=
  flat_map
    (fun entry =>
       flat_map (emit explicit (snd entry))
                (skipn (fst entry + 1) concepts))
    (RIL.enumerate concepts).

(** The state of the loops after the entries [acc]. *)
Definition loop_state (acc : list Relational.Implicit)
  : list Relational.Implicit + list Relational.Implicit :=
  if (3 <=? List.length acc)%nat then inl (firstn 3 acc) else inr acc.

(** ** runs with the agents of the repository *)

(** What the model, the listing of the sets and the clock give to the
    three agents. *)
Record Calls := mkCalls {
  analyst_replies : Analyst.Replies;
  relational_replies : Relational.Replies;
  listing : string -> list string;
  synthesiser_replies : Synthesiser.Replies;
  analyst_now : string;
  relational_now : string;
  synthesiser_now : string
}.

Definition analyst_agent (calls : Calls) (input : Orchestrator.AgentInput)
  : Outcome (Orchestrator.AgentOutput AnalystResult) :=
  let out :=
    Analyst.process (analyst_replies calls) (analyst_now calls)
                    (Orchestrator.ai_text input) in
  Return (Orchestrator.mkAgentOutput (Orchestrator.agent_type out)
            (Analyst.result_dict (Orchestrator.result out))
            (Orchestrator.confidence out) (Orchestrator.timestamp out)).

Definition relational_agent (calls : Calls)
    (input : Orchestrator.AgentInput)
  : Outcome (Orchestrator.AgentOutput RelationalResult) :=
  let out :=
    Relational.process (relational_replies calls)
      (listing calls (Orchestrator.ai_text input)) (relational_now calls) in
  Return (Orchestrator.mkAgentOutput (Orchestrator.agent_type out)
            (Relational.result_dict (Orchestrator.result out))
            (Orchestrator.confidence out) (Orchestrator.timestamp out)).

Definition synthesiser_agent (calls : Calls)
    (input : Orchestrator.AgentInput)
  : Outcome (Orchestrator.AgentOutput Orchestrator.Synthesis) :=
  let out :=
    Synthesiser.process (synthesiser_replies calls) (synthesiser_now calls)
                        input in
  Return (Orchestrator.mkAgentOutput (Orchestrator.agent_type out)
            (Orchestrator.mkSynthesis
               (fmt_opt (Synthesiser.narrative (Orchestrator.result out)))
               (Synthesiser.summary (Orchestrator.result out)))
            (Orchestrator.confidence out) (Orchestrator.timestamp out)).

(** The producers of a run are the three agents of the repository. *)
Definition repository_env (calls : Calls) (utcnow utcnow_end : string)
    (elapsed_ms : Z) : Orchestrator.Env :=
  Orchestrator.mkEnv (analyst_agent calls) (relational_agent calls)
    (synthesiser_agent calls) utcnow utcnow_end elapsed_ms.

(** A record of the textual pass or of a fallacy. *)
Definition textual_or_fallacy (c : CAM.ContradictionRecord) : Prop :=
  CAM.cr_type c = "textual"%string
  \/ CAM.cr_type c = "logical_fallacy"%string.

(** The mode of the internal state is the mode SRE computes from the
    other values of the state. *)
Definition regulated (state : Orchestrator.InternalState) : Prop :=
  Orchestrator.is_regulation_mode state
  = SRE._determine_mode (SIM.to_dict (Orchestrator.is_sim state))
      (Orchestrator.is_contradiction state) (Orchestrator.is_trust state).

(** Every model call fails. *)
Definition all_calls_fail : Calls :=
  let e := mkExn "APIError" "no connection" in
  mkCalls (Analyst.mkReplies (Raise e) (Raise e) (Raise e))
          (Relational.mkReplies (Raise e) (Raise e))
          (fun _ => [])
          (Synthesiser.mkReplies (Raise e) (Raise e))
          "t0" "t2" "t3".

(** ** the search of RIL *)

(** [w] is reached from [start] by a walk of [j] edges. *)
Inductive reach (edges : RIL.Adjacency) (start : string)
  : nat -> string -> Prop :=
| reach_start : reach edges start 0 start
| reach_step (j : nat) (u w : string) :
    reach edges start j u -> has_edge edges u w ->
    reach edges start (S j) w.

(** The queue of the search holds paths of [L] nodes, then paths of
    [L + 1] nodes. *)
Definition levels (L : nat) (queue : list (string * list string)) : Prop :=
  exists q1 q2,
    queue = q1 ++ q2
    /\ Forall (fun entry => List.length (snd entry) = L) q1
    /\ Forall (fun entry => List.length (snd entry) = S L) q2.

(** What the search keeps true between two turns of its loop; [lvl]
    gives, for a visited node, the number of nodes of the path it was
    taken from the queue with. *)
Record search_inv (edges : RIL.Adjacency) (start end_ : string)
    (max_depth : nat) (lvl : string -> nat) (visited : list string)
    (queue : list (string * list string)) (L : nat) : Prop :=
  mkSearchInv {
    inv_level : forall v, In v visited -> (lvl v <= L)%nat;
    inv_closed :
      forall v t,
        In v visited -> (lvl v < max_depth)%nat -> has_edge edges v t ->
        (In t visited /\ (lvl t <= S (lvl v))%nat)
        \/ exists p, In (t, p) queue /\ (List.length p <= S (lvl v))%nat;
    inv_no_end :
      forall v t, In v visited -> has_edge edges v t -> t <> end_;
    inv_start :
      (In start visited /\ (lvl start <= 1)%nat)
      \/ In (start, [start]) queue;
    inv_levels : levels L queue
  }.

(** * Properties *)

(** ** The tests of the repository, on the model *)

Section RepositoryTests.

Local Open Scope string_scope.

Example lower_example : PyStr.lower "It's NOT, But" = "it's not, but".
Proof. reflexivity. Qed.

Example count_example : PyStr.count "a!!!!b!!!" "!!!" = 2%nat.
Proof. reflexivity. Qed.

Example split_example :
  PyStr.split " I  LOVE it A " = ["I"; "LOVE"; "it"; "A"].
Proof. reflexivity. Qed.

Example isupper_example :
  map PyStr.isupper ["LOVE"; "Love"; "A1"; "12"; ""]
  = [true; false; true; false; false].
Proof. reflexivity. Qed.

(** test_sim.py *)
Example test_sim_tension_detection :
  SIM.tension
    (fst (SIM.analyze
            "I disagree with this argument. However, there is conflict in the reasoning."
            None SIM.init))
  == 3#10.
Proof. vm_compute. reflexivity. Qed.

Example test_sim_uncertainty_detection :
  SIM.uncertainty
    (fst (SIM.analyze
            "Maybe this is true? Perhaps we should consider that it might be uncertain."
            None SIM.init))
  == 48#100.
Proof. vm_compute. reflexivity. Qed.

Example test_sim_emotional_intensity :
  SIM.emotional_intensity
    (fst (SIM.analyze
            "I love this amazing idea! It's wonderful and fantastic!"
            None SIM.init))
  == 6#10.
Proof. vm_compute. reflexivity. Qed.

Example test_sim_neutral_text :
  let m := fst (SIM.analyze "The system processes data efficiently."
                  None SIM.init) in
  SIM.tension m == 0 /\ SIM.uncertainty m == 0
  /\ SIM.emotional_intensity m == 0.
Proof. vm_compute. repeat split. Qed.

(** test_cam.py *)
Example test_cam_text_contradiction_detection :
  let r := fst (CAM.analyze
                  "This is true, but it's not true. The system works, but it doesn't work."
                  None None CAM.init) in
  CAM.res_contradiction_score r == 5#10
  /\ List.length (CAM.res_contradictions r) = 1%nat.
Proof. vm_compute. repeat split. Qed.

Example test_cam_logical_contradiction :
  let ao :=
    mkAnalystDict
      (Some (mkAnalystResult
               (Some (mkStructure (Some "invalid") None false))
               (Some [mkFallacy (Some "circular reasoning") false])
               None false))
      None false in
  let r := fst (CAM.analyze "Some text" (Some ao) None CAM.init) in
  map CAM.cr_type (CAM.res_contradictions r) = ["logical"; "logical_fallacy"]
  /\ CAM.res_contradiction_score r == 7425#10000.
Proof. vm_compute. repeat split. Qed.

Example test_cam_no_contradictions :
  CAM.res_contradiction_score
    (fst (CAM.analyze "The system is efficient and reliable." None None
            CAM.init))
  == 0.
Proof. vm_compute. reflexivity. Qed.

(** test_ctm.py *)
Example test_ctm_initialization : CTM.get_trust_score CTM.init == 5#10.
Proof. reflexivity. Qed.

Example test_ctm_trust_with_contradictions :
  let ao :=
    mkAnalystDict
      (Some (mkAnalystResult None (Some [])
               (Some (mkStrength (Some (7#10)) None false)) false))
      (Some (8#10)) false in
  CTM.res_trust_score
    (fst (CTM.calculate_trust "t" (Some ao) None None (8#10) CTM.init))
  == 1125#10000.
Proof. vm_compute. reflexivity. Qed.

Example test_ctm_trust_evolution :
  let step self :=
    snd (CTM.calculate_trust "t" None None None (2#10) self) in
  List.length (CTM.get_history (step (step (step CTM.init)))) = 3%nat.
Proof. reflexivity. Qed.

(** test_sre.py *)
Example test_sre_clarify_mode :
  let r := fst (SRE.regulate
                  (mkSimDict (Some (6#10)) (Some (55#100)) (Some (4#10))
                             false)
                  (45#100) (45#100) SRE.init) in
  SRE.res_mode r = SRE.clarify /\ SRE.res_mode_changed r = true.
Proof. split; reflexivity. Qed.

Example test_sre_mode_history :
  let s1 := snd (SRE.regulate
                   (mkSimDict (Some (2#10)) (Some (3#10)) (Some (3#10))
                              false)
                   (2#10) (7#10) SRE.init) in
  let s2 := snd (SRE.regulate
                   (mkSimDict (Some (6#10)) (Some (6#10)) (Some (5#10))
                              false)
                   (5#10) (4#10) s1) in
  SRE.get_history s2
  = [SRE.mkTransition SRE.normal SRE.clarify "metrics stabilized"].
Proof. reflexivity. Qed.

End RepositoryTests.

(** ** Arithmetic of [min], [max] and the comparisons *)

Section NumFacts.

Lemma Qgtb_spec (x y : Q) : reflect (y < x) (Qgtb x y).
Proof.
  unfold Qgtb. destruct (Qle_bool x y) eqn:E; constructor.
  - apply Qle_bool_iff in E. now apply Qle_not_lt.
  - apply Qnot_le_lt. intro H. apply Qle_bool_iff in H. congruence.
Qed.

Lemma Qltb_spec (x y : Q) : reflect (x < y) (Qltb x y).
Proof. exact (Qgtb_spec y x). Qed.

Lemma Qgtb_true (x y : Q) : Qgtb x y = true <-> y < x.
Proof. destruct (Qgtb_spec x y); split; congruence || tauto. Qed.

Lemma Qltb_true (x y : Q) : Qltb x y = true <-> x < y.
Proof. exact (Qgtb_true y x). Qed.

Lemma py_min_le_l (a b : Q) : py_min a b <= a.
Proof.
  unfold py_min. destruct (Qltb_spec b a); [now apply Qlt_le_weak | apply Qle_refl].
Qed.

Lemma py_min_le_r (a b : Q) : py_min a b <= b.
Proof.
  unfold py_min. destruct (Qltb_spec b a); [apply Qle_refl | now apply Qnot_lt_le].
Qed.

Lemma py_min_glb (a b c : Q) : c <= a -> c <= b -> c <= py_min a b.
Proof. unfold py_min. now destruct (Qltb b a). Qed.

Lemma py_max_le_l (a b : Q) : a <= py_max a b.
Proof.
  unfold py_max. destruct (Qgtb_spec b a); [now apply Qlt_le_weak | apply Qle_refl].
Qed.

Lemma py_max_lub (a b c : Q) : a <= c -> b <= c -> py_max a b <= c.
Proof. unfold py_max. now destruct (Qgtb b a). Qed.

Lemma of_nat_nonneg (n : nat) : 0 <= of_nat n.
Proof.
  unfold of_nat. change 0 with (inject_Z 0). rewrite <- Zle_Qle. lia.
Qed.

Lemma of_nat_pos (n : nat) : (0 < n)%nat -> 0 < of_nat n.
Proof.
  intro H. unfold of_nat. change 0 with (inject_Z 0).
  rewrite <- Zlt_Qlt. lia.
Qed.

(** A capped count term, [min(count * w, cap)], lies in [[0, cap]]. *)
Lemma capped_term (n : nat) (w cap : Q) :
  0 <= w -> 0 <= cap ->
  0 <= py_min (of_nat n * w) cap /\ py_min (of_nat n * w) cap <= cap.
Proof.
  intros Hw Hc. split.
  - apply py_min_glb; [| exact Hc].
    apply Qmult_le_0_compat; [apply of_nat_nonneg | exact Hw].
  - apply py_min_le_r.
Qed.

Lemma clamp01_bounds (x : Q) : 0 <= CTM.clamp01 x /\ CTM.clamp01 x <= 1.
Proof.
  unfold CTM.clamp01. split.
  - apply py_max_le_l.
  - apply py_max_lub; [discriminate | apply py_min_le_l].
Qed.

(** [sum] unfolds from the left. *)
Lemma fold_plus_shift (l : list Q) (a : Q) :
  fold_left Qplus l a == a + fold_left Qplus l 0.
Proof.
  revert a. induction l as [| x l IH]; intro a; simpl.
  - lra.
  - rewrite (IH (a + x)), (IH (0 + x)). lra.
Qed.

Lemma py_sum_cons (x : Q) (l : list Q) : py_sum (x :: l) == x + py_sum l.
Proof.
  unfold py_sum. simpl. rewrite fold_plus_shift. lra.
Qed.

(** A sum of terms all at least [c] is at least [c] times their number. *)
Lemma py_sum_lower (c : Q) (l : list Q) :
  Forall (fun x => c <= x) l -> c * of_nat (List.length l) <= py_sum l.
Proof.
  induction 1 as [| x l Hx _ IH].
  - unfold py_sum, of_nat. cbn [List.length fold_left Z.of_nat].
    change (inject_Z 0) with 0. lra.
  - rewrite py_sum_cons.
    assert (E : of_nat (List.length (x :: l)) == 1 + of_nat (List.length l)).
    { unfold of_nat. cbn [List.length]. rewrite Nat2Z.inj_succ.
      unfold Z.succ. rewrite inject_Z_plus. change (inject_Z 1) with 1.
      lra. }
    rewrite E. lra.
Qed.

End NumFacts.

(** ** Loops that append *)

Section LoopFacts.

Context {A B : Type}.

(** An invariant of the accumulator is kept by the whole loop when each
    turn keeps it. *)
Lemma fold_left_invariant (P : B -> Prop) (step : B -> A -> B)
    (l : list A) (b : B) :
  (forall b a, P b -> P (step b a)) -> P b -> P (fold_left step l b).
Proof.
  intro Hstep. revert b.
  induction l as [| a l IH]; intros b Hb; simpl; auto.
Qed.

Lemma Forall_snoc (P : A -> Prop) (l : list A) (a : A) :
  Forall P l -> P a -> Forall P (l ++ [a]).
Proof. intros Hl Ha. apply Forall_app. split; auto. Qed.

End LoopFacts.

(** ** Scores lie in the unit interval *)

Section Bounds.

Ltac name_min H n w cap :=
  let t := fresh "t" in
  pose proof (capped_term n w cap ltac:(discriminate) ltac:(discriminate))
    as H;
  set (t := py_min (of_nat n * w) cap) in *; clearbody t.

Lemma tension_bounds (text : string) (ao : option AnalystDict) :
  0 <= SIM._calculate_tension text ao /\ SIM._calculate_tension text ao <= 1.
Proof.
  unfold SIM._calculate_tension.
  split; [apply py_min_glb; [| discriminate] | apply py_min_le_r].
  match goal with |- context [py_min (of_nat ?n * ?w) (5#10)] =>
    name_min H1 n w (5#10) end.
  match goal with |- context [py_min (of_nat ?n * ?w) (1#10)] =>
    name_min H2 n w (1#10) end.
  destruct (SIM.truthy_result ao).
  - match goal with |- context [py_min (of_nat ?n * ?w) (4#10)] =>
      name_min H3 n w (4#10) end.
    lra.
  - lra.
Qed.

Lemma uncertainty_bounds (text : string) (ao : option AnalystDict) :
  0 <= SIM._calculate_uncertainty text ao
  /\ SIM._calculate_uncertainty text ao <= 1.
Proof.
  unfold SIM._calculate_uncertainty.
  split; [apply py_min_glb; [| discriminate] | apply py_min_le_r].
  match goal with |- context [py_min (of_nat ?n * ?w) (5#10)] =>
    name_min H1 n w (5#10) end.
  match goal with |- context [py_min (of_nat ?n * ?w) (2#10)] =>
    name_min H2 n w (2#10) end.
  destruct (SIM.truthy_result ao) as [r |]; [| lra].
  destruct (opt_is _ "weak"); [lra |].
  destruct (opt_is _ "moderate"); lra.
Qed.

Lemma emotional_intensity_bounds (text : string) :
  0 <= SIM._calculate_emotional_intensity text
  /\ SIM._calculate_emotional_intensity text <= 1.
Proof.
  unfold SIM._calculate_emotional_intensity.
  split; [apply py_min_glb; [| discriminate] | apply py_min_le_r].
  match goal with |- context [py_min (of_nat ?n * ?w) (6#10)] =>
    name_min H1 n w (6#10) end.
  match goal with |- context [py_min (of_nat ?n * ?w) (2#10)] =>
    name_min H2 n w (2#10) end.
  match goal with |- context [py_min (of_nat ?n * ?w) (2#10)] =>
    name_min H3 n w (2#10) end.
  lra.
Qed.

Lemma text_severities (text : string) :
  Forall severity_ok (CAM._detect_text_contradictions text).
Proof.
  unfold CAM._detect_text_contradictions.
  set (base := fold_left _ CAM.patterns []).
  assert (Hbase : Forall severity_ok base).
  { apply fold_left_invariant; [| constructor].
    intros acc [neg pos] Hacc.
    destruct (_ && _); [| exact Hacc].
    apply Forall_snoc; [exact Hacc |]. split; simpl; discriminate. }
  destruct (Nat.ltb_spec 2 (PyStr.count (PyStr.lower text) " but "))
    as [Hn | Hn]; [| exact Hbase].
  apply Forall_snoc; [exact Hbase |].
  split; simpl.
  - apply py_min_glb; [| discriminate].
    assert (3 <= of_nat (PyStr.count (PyStr.lower text) " but ")).
    { unfold of_nat. change 3 with (inject_Z 3). rewrite <- Zle_Qle. lia. }
    lra.
  - apply py_min_le_r.
Qed.

Lemma logical_severities (ao : AnalystDict) :
  Forall severity_ok (CAM._detect_logical_contradictions ao).
Proof.
  unfold CAM._detect_logical_contradictions.
  apply fold_left_invariant.
  - intros acc f Hacc. destruct (existsb _ _); [| exact Hacc].
    apply Forall_snoc; [exact Hacc |]. split; simpl; discriminate.
  - destruct (opt_is _ "invalid"), (opt_is _ "unsound"); simpl;
      repeat constructor; simpl; discriminate.
Qed.

Lemma relational_severities (ro : RelationalDict) :
  Forall severity_ok (CAM._detect_relational_contradictions ro).
Proof.
  unfold CAM._detect_relational_contradictions.
  apply (fold_left_invariant (fun acc => Forall severity_ok (snd acc)));
    [| constructor].
  intros [d acc] rel Hacc. unfold CAM.relational_step. simpl in *.
  destruct (PyDict.get _ _ d); [| exact Hacc].
  destruct (negb _); [| exact Hacc].
  apply Forall_snoc; [exact Hacc |]. split; simpl; discriminate.
Qed.

Lemma analyze_severities (text : string) (ao : option AnalystDict)
    (ro : option RelationalDict) (self : CAM.State) :
  Forall severity_ok
    (CAM.res_contradictions (fst (CAM.analyze text ao ro self))).
Proof.
  unfold CAM.analyze. simpl.
  assert (H1 := text_severities text).
  set (d1 := CAM._detect_text_contradictions text) in *.
  assert (H2 : Forall severity_ok
                 match ao with
                 | Some ao0 =>
                     if analyst_truthy ao0
                     then d1 ++ CAM._detect_logical_contradictions ao0
                     else d1
                 | None => d1
                 end).
  { destruct ao as [ao0 |]; [| exact H1].
    destruct (analyst_truthy ao0); [| exact H1].
    apply Forall_app. split; [exact H1 | apply logical_severities]. }
  destruct ro as [ro0 |]; [| exact H2].
  destruct (relational_truthy ro0); [| exact H2].
  apply Forall_app. split; [exact H2 | apply relational_severities].
Qed.

(** The score of a non-empty batch is at least the least severity, and
    the score of any batch lies in [[0, 1]]. *)
Lemma score_bounds (detected : list CAM.ContradictionRecord) :
  Forall severity_ok detected ->
  0 <= CAM._calculate_score detected
  /\ CAM._calculate_score detected <= 1
  /\ (detected <> [] -> 45#100 <= CAM._calculate_score detected).
Proof.
  intro Hall.
  destruct detected as [| r rest].
  - simpl. repeat split; try discriminate. congruence.
  - unfold CAM._calculate_score. cbv beta iota zeta.
    set (detected := r :: rest) in *.
    set (n := List.length detected).
    assert (Hn : (0 < n)%nat) by (subst n detected; simpl; lia).
    destruct (Nat.ltb_spec 0 n) as [_ | Hc]; [| lia].
    assert (Hsum : (45#100) * of_nat n
                   <= py_sum (map CAM.cr_severity detected)).
    { subst n. rewrite <- (length_map CAM.cr_severity).
      apply py_sum_lower. apply Forall_map.
      eapply Forall_impl; [| exact Hall]. intros a [Ha _]. exact Ha. }
    assert (Hbase : 45#100 <= py_sum (map CAM.cr_severity detected)
                              / of_nat n).
    { apply Qle_shift_div_l; [now apply of_nat_pos | exact Hsum]. }
    set (base := py_sum (map CAM.cr_severity detected) / of_nat n) in *.
    assert (Hmult : 1 <= py_min (1 + inject_Z (Z.of_nat n - 1) * (1#10))
                                (15#10)).
    { apply py_min_glb; [| discriminate].
      assert (0 <= inject_Z (Z.of_nat n - 1)).
      { change 0 with (inject_Z 0). rewrite <- Zle_Qle. lia. }
      lra. }
    set (mult := py_min _ (15#10)) in *.
    assert (Hprod : 45#100 <= base * mult) by nra.
    assert (Hlow : 45#100 <= py_min (base * mult) 1).
    { apply py_min_glb; [exact Hprod | discriminate]. }
    repeat split; [lra | apply py_min_le_r | intros _; exact Hlow].
Qed.

Lemma contradiction_score_bounds (text : string)
    (ao : option AnalystDict) (ro : option RelationalDict)
    (self : CAM.State) :
  let r := fst (CAM.analyze text ao ro self) in
  0 <= CAM.res_contradiction_score r /\ CAM.res_contradiction_score r <= 1.
Proof.
  intro r. pose proof (analyze_severities text ao ro self) as H.
  apply score_bounds in H. subst r. unfold CAM.analyze in *. simpl in *.
  tauto.
Qed.

Lemma trust_score_bounds (now : string) (ao : option AnalystDict)
    (ro : option RelationalDict) (sm : option SimDict) (cs : Q)
    (self : CTM.State) :
  let r := fst (CTM.calculate_trust now ao ro sm cs self) in
  0 <= CTM.res_trust_score r /\ CTM.res_trust_score r <= 1.
Proof.
  intro r. subst r. unfold CTM.calculate_trust. cbn [fst CTM.res_trust_score].
  apply clamp01_bounds.
Qed.

End Bounds.

(** C2: for every text and every upstream record, present or not, the
    three outputs of SIM, the contradiction score of CAM and the trust
    score of CTM lie in the closed interval from 0 to 1. *)
Theorem scores_in_unit_interval :
  forall (text now : string) (ao : option AnalystDict)
         (ro : option RelationalDict) (sm : option SimDict) (cs : Q)
         (sim : SIM.Metrics) (cam : CAM.State) (ctm : CTM.State),
    let m := fst (SIM.analyze text ao sim) in
    unit_interval (SIM.tension m)
    /\ unit_interval (SIM.uncertainty m)
    /\ unit_interval (SIM.emotional_intensity m)
    /\ unit_interval
         (CAM.res_contradiction_score (fst (CAM.analyze text ao ro cam)))
    /\ unit_interval
         (CTM.res_trust_score
            (fst (CTM.calculate_trust now ao ro sm cs ctm))).
Proof.
  intros. subst m. unfold unit_interval, SIM.analyze.
  cbn [fst SIM.tension SIM.uncertainty SIM.emotional_intensity].
  repeat split;
    first [ apply tension_bounds | apply uncertainty_bounds
          | apply emotional_intensity_bounds
          | apply (contradiction_score_bounds text ao ro cam)
          | apply (trust_score_bounds now ao ro sm cs ctm) ].
Qed.

(** ** The regulation rules *)

Section Regulation.

Lemma slow_down_test (sm : SimDict) (cs ts : Q) :
  Qgtb (SRE.get_or_zero (sd_uncertainty sm)) (7#10) || Qgtb cs (6#10)
  || Qgtb (SRE.get_or_zero (sd_emotional_intensity sm)) (8#10)
  || Qltb ts (3#10) = true
  <-> slow_down_rule sm cs ts.
Proof.
  unfold slow_down_rule, metric, SRE.get_or_zero.
  rewrite !orb_true_iff, !Qgtb_true, Qltb_true. tauto.
Qed.

Lemma clarify_test (sm : SimDict) (cs ts : Q) :
  Qgtb (SRE.get_or_zero (sd_uncertainty sm)) (5#10) || Qgtb cs (4#10)
  || Qltb ts (5#10) || Qgtb (SRE.get_or_zero (sd_tension sm)) (6#10) = true
  <-> clarify_rule sm cs ts.
Proof.
  unfold clarify_rule, metric, SRE.get_or_zero.
  rewrite !orb_true_iff, !Qgtb_true, Qltb_true. tauto.
Qed.

Lemma determine_mode_rules (sm : SimDict) (cs ts : Q) :
  let m := SRE._determine_mode sm cs ts in
  (m = SRE.slow_down <-> slow_down_rule sm cs ts)
  /\ (m = SRE.clarify <-> ~ slow_down_rule sm cs ts /\ clarify_rule sm cs ts)
  /\ (m = SRE.normal
      <-> ~ slow_down_rule sm cs ts /\ ~ clarify_rule sm cs ts).
Proof.
  intro m. subst m. unfold SRE._determine_mode.
  pose proof (slow_down_test sm cs ts) as Hs.
  pose proof (clarify_test sm cs ts) as Hc.
  destruct (_ || _ || _ || Qltb ts (3#10)) eqn:Es;
    [| destruct (_ || _ || _ || Qgtb _ (6#10)) eqn:Ec ].
  - assert (slow_down_rule sm cs ts) by (now apply Hs).
    repeat split; intros; try discriminate; tauto.
  - assert (~ slow_down_rule sm cs ts) by (rewrite <- Hs; discriminate).
    assert (clarify_rule sm cs ts) by (now apply Hc).
    repeat split; intros; try discriminate; tauto.
  - assert (~ slow_down_rule sm cs ts) by (rewrite <- Hs; discriminate).
    assert (~ clarify_rule sm cs ts) by (rewrite <- Hc; discriminate).
    repeat split; intros; try discriminate; tauto.
Qed.

End Regulation.

(** C6: [regulate] returns slow_down exactly when uncertainty > 0.7 or
    contradiction_score > 0.6 or emotional_intensity > 0.8 or
    trust_score < 0.3; otherwise clarify exactly when uncertainty > 0.5 or
    contradiction_score > 0.4 or trust_score < 0.5 or tension > 0.6;
    otherwise normal; a metric that [sim_metrics] does not hold counts as
    0.  The two sample inputs of the specification give normal and
    slow_down, and each metric decides alone: with no contradiction and
    full trust, an uncertainty of 0.75 or an emotional intensity of 0.85
    gives slow_down, an uncertainty of 0.55 or a tension of 0.65 gives
    clarify, and no metric gives normal. *)
Theorem regulate_mode_rules :
  (forall (sm : SimDict) (cs ts : Q) (self : SRE.State),
      let m := SRE.res_mode (fst (SRE.regulate sm cs ts self)) in
      (m = SRE.slow_down <-> slow_down_rule sm cs ts)
      /\ (m = SRE.clarify
          <-> ~ slow_down_rule sm cs ts /\ clarify_rule sm cs ts)
      /\ (m = SRE.normal
          <-> ~ slow_down_rule sm cs ts /\ ~ clarify_rule sm cs ts))
  /\ (forall self : SRE.State,
         SRE.res_mode
           (fst (SRE.regulate
                   (mkSimDict (Some (2#10)) (Some (3#10)) (Some (4#10)) false)
                   (2#10) (7#10) self))
         = SRE.normal)
  /\ (forall (tension : option Q) (self : SRE.State),
         SRE.res_mode
           (fst (SRE.regulate
                   (mkSimDict tension (Some (75#100)) (Some (85#100)) false)
                   (65#100) (25#100) self))
         = SRE.slow_down)
  /\ (forall self : SRE.State,
         let mode sm := SRE.res_mode (fst (SRE.regulate sm 0 1 self)) in
         mode (mkSimDict None (Some (75#100)) None false) = SRE.slow_down
         /\ mode (mkSimDict None None (Some (85#100)) false) = SRE.slow_down
         /\ mode (mkSimDict None (Some (55#100)) None false) = SRE.clarify
         /\ mode (mkSimDict (Some (65#100)) None None false) = SRE.clarify
         /\ mode (mkSimDict None None None false) = SRE.normal).
Proof.
  split; [| split; [| split]].
  - intros sm cs ts self. exact (determine_mode_rules sm cs ts).
  - intro self. reflexivity.
  - intros tension self. reflexivity.
  - intro self. repeat split.
Qed.

(** ** The contradiction penalty of CTM *)

Section DictFacts.

Context {K V : Type} (eqb : K -> K -> bool).
Hypothesis eqb_eq : forall a b, eqb a b = true <-> a = b.

Lemma eqb_same (a : K) : eqb a a = true.
Proof. now apply eqb_eq. Qed.

(** Reading a dict after [d[k0] = v]. *)
Lemma get_set (k k0 : K) (v : V) (d : PyDict.t) :
  PyDict.get eqb k (PyDict.set eqb k0 v d)
  = if eqb k k0 then Some v else PyDict.get eqb k d.
Proof.
  induction d as [| [k' v'] d IH]; simpl.
  - reflexivity.
  - destruct (eqb k0 k') eqn:E; simpl.
    + apply eqb_eq in E. subst k'. now destruct (eqb k k0).
    + rewrite IH. destruct (eqb k k') eqn:E'; [| reflexivity].
      apply eqb_eq in E'. subst k'.
      destruct (eqb k k0) eqn:E''; [| reflexivity].
      apply eqb_eq in E''. subst k0. rewrite eqb_same in E. discriminate.
Qed.

Lemma get_set_same (k : K) (v : V) (d : PyDict.t) :
  PyDict.get eqb k (PyDict.set eqb k v d) = Some v.
Proof. now rewrite get_set, eqb_same. Qed.

Lemma get_set_other (k k0 : K) (v : V) (d : PyDict.t) :
  k <> k0 ->
  PyDict.get eqb k (PyDict.set eqb k0 v d) = PyDict.get eqb k d.
Proof.
  intro Hk. rewrite get_set. destruct (eqb k k0) eqn:E; [| reflexivity].
  apply eqb_eq in E. contradiction.
Qed.

End DictFacts.

(** C7: the contradiction penalty, contradiction_score * 0.5, is recorded
    negated in the returned factors and subtracted from the weighted sum of
    the three factors (each 0.5 when absent) before clamping; the three
    factors do not depend on the contradiction score; with the three inputs
    absent, the trust score for contradiction_score 0.8 is strictly less
    than the one for contradiction_score 0. *)
Theorem contradiction_penalty_reported_and_applied :
  (forall (now : string) (ao : option AnalystDict)
          (ro : option RelationalDict) (sm : option SimDict) (cs : Q)
          (self : CTM.State),
      let r := fst (CTM.calculate_trust now ao ro sm cs self) in
      let f := CTM.res_factors r in
      let factor k := PyDict.get_default String.eqb k (5#10) f in
      PyDict.get String.eqb "contradiction_penalty"%string f
      = Some (- (cs * (5#10)))
      /\ CTM.res_trust_score r
         = CTM.clamp01
             (0 + factor "analyst"%string * (35#100)
              + factor "relational"%string * (25#100)
              + factor "situational"%string * (25#100)
              - cs * (5#10))
      /\ (forall k : string,
             In k ["analyst"; "relational"; "situational"]%string ->
             PyDict.get String.eqb k f
             = PyDict.get String.eqb k
                 (CTM.res_factors
                    (fst (CTM.calculate_trust now ao ro sm 0 self)))))
  /\ (forall (now : string) (self : CTM.State),
         CTM.res_trust_score
           (fst (CTM.calculate_trust now None None None (8#10) self))
         < CTM.res_trust_score
             (fst (CTM.calculate_trust now None None None 0 self))).
Proof.
  split.
  - intros now ao ro sm cs self r f factor.
    subst factor f r. unfold CTM.calculate_trust.
    cbn [fst CTM.res_factors CTM.res_trust_score].
    repeat split.
    + apply (get_set_same _ String.eqb_eq).
    + intros k Hk.
      rewrite !(get_set_other _ String.eqb_eq); [reflexivity | |];
        simpl in Hk; intuition (subst; discriminate).
  - intros now self. vm_compute. reflexivity.
Qed.

(** ** The mode history of SRE *)

Section History.

Lemma mode_eqb_spec (a b : SRE.RegulationMode) :
  reflect (a = b) (SRE.mode_eqb a b).
Proof. destruct a, b; constructor; congruence. Qed.

(** One call: the mode held afterwards is the computed one, and the
    history grows by the transition from the mode held before, or not at
    all. *)
Lemma regulate_step (c : Call) (self : SRE.State) :
  let '(sm, cs, ts) := c in
  let self' := snd (SRE.regulate sm cs ts self) in
  SRE.mode self' = computed_mode c
  /\ exists reason,
      SRE.mode_history self'
      = SRE.mode_history self
        ++ (if SRE.mode_eqb (computed_mode c) (SRE.mode self) then []
            else [SRE.mkTransition (SRE.mode self) (computed_mode c)
                    reason]).
Proof.
  destruct c as [[sm cs] ts]. unfold SRE.regulate, computed_mode.
  cbn [snd SRE.mode SRE.mode_history]. split; [reflexivity |].
  eexists.
  destruct (SRE.mode_eqb _ _); cbn [negb]; [now rewrite app_nil_r |].
  reflexivity.
Qed.

Lemma regulate_all_cons (c : Call) (calls : list Call) (self : SRE.State) :
  regulate_all (c :: calls) self
  = regulate_all calls
      (let '(sm, cs, ts) := c in snd (SRE.regulate sm cs ts self)).
Proof. destruct c as [[sm cs] ts]. reflexivity. Qed.

Lemma regulate_all_history (calls : list Call) (self : SRE.State) :
  exists added,
    SRE.mode_history (regulate_all calls self)
    = SRE.mode_history self ++ added
    /\ map ends added = changes (SRE.mode self) (map computed_mode calls)
    /\ Forall (fun t => SRE.tr_from t <> SRE.tr_to t) added.
Proof.
  revert self. induction calls as [| c calls IH]; intro self.
  - exists []. simpl. rewrite app_nil_r. auto.
  - rewrite regulate_all_cons.
    pose proof (regulate_step c self) as Hstep.
    destruct c as [[sm cs] ts].
    set (self1 := snd (SRE.regulate sm cs ts self)) in *.
    destruct Hstep as [Hmode [reason Hhist]].
    destruct (IH self1) as [added [Hadd [Hends Hall]]].
    rewrite Hadd, Hhist, Hmode in *. rewrite <- app_assoc.
    eexists. split; [reflexivity |].
    cbn [map changes]. rewrite map_app, Hends.
    destruct (mode_eqb_spec (computed_mode (sm, cs, ts)) (SRE.mode self))
      as [E | E]; cbn [map app].
    + split; [reflexivity | exact Hall].
    + split; [reflexivity |].
      constructor; [| exact Hall].
      cbn [SRE.tr_from SRE.tr_to]. intro H. apply E. symmetry. exact H.
Qed.

End History.

(** C9: the mode history records only actual changes.  A call whose
    computed mode equals the mode held before appends nothing; a call
    whose computed mode differs appends exactly one transition, from the
    mode held before to the computed mode; over any sequence of calls the
    transitions appended are exactly the changes of the sequence of
    computed modes, in order. *)
Theorem history_records_only_changes :
  (forall (sm : SimDict) (cs ts : Q) (self : SRE.State),
      let m := SRE._determine_mode sm cs ts in
      let self' := snd (SRE.regulate sm cs ts self) in
      SRE.get_mode self' = m
      /\ (m = SRE.get_mode self ->
          SRE.get_history self' = SRE.get_history self)
      /\ (m <> SRE.get_mode self ->
          exists t,
            SRE.get_history self' = SRE.get_history self ++ [t]
            /\ SRE.tr_from t = SRE.get_mode self /\ SRE.tr_to t = m))
  /\ (forall (calls : list Call) (self : SRE.State),
         exists added,
           SRE.get_history (regulate_all calls self)
           = SRE.get_history self ++ added
           /\ map ends added
              = changes (SRE.get_mode self) (map computed_mode calls)
           /\ Forall (fun t => SRE.tr_from t <> SRE.tr_to t) added).
Proof.
  split.
  - intros sm cs ts self m self'.
    destruct (regulate_step (sm, cs, ts) self) as [Hmode [reason Hhist]].
    fold self' in Hmode, Hhist. unfold computed_mode in *. fold m in Hmode, Hhist.
    unfold SRE.get_mode, SRE.get_history.
    split; [exact Hmode | split].
    + intro E. rewrite Hhist.
      destruct (mode_eqb_spec m (SRE.mode self)); [apply app_nil_r | tauto].
    + intro E. rewrite Hhist.
      destruct (mode_eqb_spec m (SRE.mode self)); [tauto |].
      eexists. split; [reflexivity |]. split; reflexivity.
  - intros calls self. apply regulate_all_history.
Qed.

(** ** The relational pass of CAM *)

Section RelationalPass.

Lemma opt_string_eqb_eq (a b : option string) :
  opt_string_eqb a b = true <-> a = b.
Proof.
  destruct a as [x |], b as [y |]; simpl; split; intro H;
    try discriminate; try reflexivity.
  - apply String.eqb_eq in H. now subst.
  - apply String.eqb_eq. congruence.
Qed.

Lemma pair_eqb_eq (p q : option string * option string) :
  CAM.pair_eqb p q = true <-> p = q.
Proof.
  destruct p as [a b], q as [c d]. unfold CAM.pair_eqb. simpl.
  rewrite andb_true_iff, !opt_string_eqb_eq. split.
  - intros [-> ->]. reflexivity.
  - intro H. inversion H. auto.
Qed.

Lemma pair_eqb_sym (p q : option string * option string) :
  CAM.pair_eqb p q = CAM.pair_eqb q p.
Proof.
  destruct (CAM.pair_eqb p q) eqn:E, (CAM.pair_eqb q p) eqn:E'; auto.
  - apply pair_eqb_eq in E. subst q.
    rewrite (eqb_same _ pair_eqb_eq) in E'. discriminate.
  - apply pair_eqb_eq in E'. subst q.
    rewrite (eqb_same _ pair_eqb_eq) in E. discriminate.
Qed.

Lemma last_seen_app (pair : option string * option string)
    (l1 l2 : list Relationship) :
  last_seen_type pair (l1 ++ l2)
  = match last_seen_type pair l2 with
    | Some t => Some t
    | None => last_seen_type pair l1
    end.
Proof.
  induction l1 as [| r l1 IH]; simpl.
  - now destruct (last_seen_type pair l2).
  - rewrite IH. now destruct (last_seen_type pair l2).
Qed.

Lemma last_seen_none (pair : option string * option string)
    (l : list Relationship) :
  last_seen_type pair l = None <-> Forall (fun r => rel_pair r <> pair) l.
Proof.
  induction l as [| r l IH]; simpl.
  - split; auto.
  - destruct (last_seen_type pair l) eqn:E.
    + split; [discriminate |]. intro H. inversion H; subst.
      apply IH in H3. discriminate.
    + destruct (CAM.pair_eqb (rel_pair r) pair) eqn:Ep.
      * split; [discriminate |]. intro H. inversion H; subst.
        apply pair_eqb_eq in Ep. contradiction.
      * split; [| reflexivity]. intros _. constructor.
        -- intro H. apply pair_eqb_eq in H. congruence.
        -- now apply IH.
Qed.

(** [last_seen_type] is the type of the most recent earlier relationship
    on the pair. *)
Lemma last_seen_type_spec (pair : option string * option string)
    (earlier : list Relationship) (t : option string) :
  last_seen_type pair earlier = Some t
  <-> exists before r after,
        earlier = before ++ r :: after
        /\ rel_pair r = pair /\ r_type r = t
        /\ Forall (fun r' => rel_pair r' <> pair) after.
Proof.
  split.
  - revert t. induction earlier as [| r0 rest IH]; intros t H; simpl in H.
    + discriminate.
    + destruct (last_seen_type pair rest) eqn:E.
      * inversion H; subst.
        destruct (IH t eq_refl) as (before & r & after & -> & Hp & Ht & Ha).
        exists (r0 :: before), r, after. auto.
      * destruct (CAM.pair_eqb (rel_pair r0) pair) eqn:Ep; [| discriminate].
        inversion H; subst. exists [], r0, rest.
        repeat split; [now apply pair_eqb_eq | now apply last_seen_none].
  - intros (before & r & after & -> & Hp & Ht & Ha).
    rewrite last_seen_app. simpl.
    apply last_seen_none in Ha. rewrite Ha.
    assert (E : CAM.pair_eqb (rel_pair r) pair = true)
      by now apply pair_eqb_eq.
    rewrite E. now subst.
Qed.

(** The dict [concept_pairs] holds, for each pair, the type of the most
    recent relationship on it; the records are those of the pass that
    compares with that type. *)
Lemma relational_fold (rels earlier : list Relationship)
    (d : PyDict.t) (acc : list CAM.ContradictionRecord) :
  (forall pair, PyDict.get CAM.pair_eqb pair d = last_seen_type pair earlier) ->
  snd (fold_left CAM.relational_step rels (d, acc))
  = acc ++ relational_pass last_seen_type earlier rels.
Proof.
  revert earlier d acc.
  induction rels as [| rel0 rels IH]; intros earlier d acc Hinv.
  - simpl. now rewrite app_nil_r.
  - cbn [fold_left relational_pass].
    unfold CAM.relational_step at 2. fold (rel_pair rel0).
    rewrite (IH (earlier ++ [rel0])).
    + rewrite Hinv. rewrite app_assoc. f_equal.
      destruct (last_seen_type (rel_pair rel0) earlier) as [t |];
        [| now rewrite app_nil_r].
      destruct (negb _); [reflexivity | now rewrite app_nil_r].
    + intro pair. rewrite (get_set _ pair_eqb_eq), last_seen_app. simpl.
      rewrite (pair_eqb_sym (rel_pair rel0) pair).
      destruct (CAM.pair_eqb pair (rel_pair rel0)); [reflexivity | apply Hinv].
Qed.

End RelationalPass.

(** C3 (as the code has it): scanning the relationships in order, keyed by
    the ordered pair (source, target), the relational pass emits one
    relational record of severity 0.5 exactly when a pair reappears with a
    type different from the type of the most recent earlier relationship on
    that pair. *)
Theorem relational_pass_compares_with_last_seen :
  forall ro : RelationalDict,
    CAM._detect_relational_contradictions ro
    = relational_pass last_seen_type [] (relationships_of ro)
    /\ Forall (fun r => CAM.cr_type r = "relational"%string
                        /\ CAM.cr_severity r = 5#10)
              (CAM._detect_relational_contradictions ro)
    /\ (forall pair earlier t,
           last_seen_type pair earlier = Some t
           <-> exists before r after,
                 earlier = before ++ r :: after
                 /\ rel_pair r = pair /\ r_type r = t
                 /\ Forall (fun r' => rel_pair r' <> pair) after).
Proof.
  intro ro.
  assert (E : CAM._detect_relational_contradictions ro
              = relational_pass last_seen_type [] (relationships_of ro)).
  { unfold CAM._detect_relational_contradictions, relationships_of.
    rewrite (relational_fold _ [] [] [] (fun _ => eq_refl)).
    destruct (rd_result ro) as [r |]; reflexivity. }
  split; [exact E | split].
  - rewrite E. generalize (relationships_of ro) as rels.
    generalize (@nil Relationship).
    intros earlier rels. revert earlier.
    induction rels as [| r rels IH]; intro earlier; simpl; [constructor |].
    apply Forall_app. split; [| apply IH].
    destruct (last_seen_type (rel_pair r) earlier); [| constructor].
    destruct (negb _); repeat constructor.
  - apply last_seen_type_spec.
Qed.

(** C3 (as the specification words it) fails: for three relationships on
    one pair with types X, Y, X, comparing with the type first seen gives
    one record, for Y, and the code gives two, for Y and for the second
    X. *)
Lemma relational_pass_first_seen_fails :
  relational_first_seen_spec xyx = [relational_record (Some "a", Some "b")]%string
  /\ CAM._detect_relational_contradictions (relational_of xyx)
     = [relational_record (Some "a", Some "b");
        relational_record (Some "a", Some "b")]%string
  /\ List.length (CAM._detect_relational_contradictions (relational_of xyx))
     = 2%nat.
Proof. repeat split. Qed.

(** ** The transitive pass of RIL *)

Section Transitive.

(** A loop whose every turn appends to the accumulator collects the
    appended pieces in order. *)
Lemma fold_left_append {A B : Type} (step : list B -> A -> list B)
    (piece : A -> list B) (l : list A) (acc : list B) :
  (forall acc a, step acc a = acc ++ piece a) ->
  fold_left step l acc = acc ++ flat_map piece l.
Proof.
  intro Hstep. revert acc.
  induction l as [| a l IH]; intro acc; simpl.
  - now rewrite app_nil_r.
  - now rewrite IH, Hstep, app_assoc.
Qed.

Lemma transitive_inner_appends (source : string)
    (source_edges : list RIL.Edge) (intermediate : string)
    (acc : list RIL.Inferred) (next_edge : RIL.Edge) :
  RIL.transitive_inner source source_edges intermediate acc next_edge
  = acc ++
    (let c := RIL.e_target next_edge in
     if negb (String.eqb c source)
        && negb (existsb (fun e => String.eqb (RIL.e_target e) c)
                         source_edges)
     then [RIL.mkInferred source c "transitive" [source; intermediate; c]
             (6#10)]
     else []).
Proof.
  unfold RIL.transitive_inner. cbv zeta.
  destruct (negb (String.eqb _ source)); cbn [andb];
    [| now rewrite app_nil_r].
  destruct (negb (existsb _ _)); [reflexivity | now rewrite app_nil_r].
Qed.

Lemma infer_transitive_candidates (graph : RIL.Graph) :
  RIL._infer_transitive graph
  = firstn 10 (transitive_candidates (RIL.edges graph)).
Proof.
  unfold RIL._infer_transitive, transitive_candidates. f_equal.
  rewrite (fold_left_append _
             (fun item : string * list RIL.Edge =>
                let '(a, a_edges) := item in
                flat_map
                  (fun ab : RIL.Edge =>
                     flat_map
                       (fun bc : RIL.Edge =>
                          let c := RIL.e_target bc in
                          if negb (String.eqb c a)
                             && negb (existsb
                                        (fun e =>
                                           String.eqb (RIL.e_target e) c)
                                        a_edges)
                          then [RIL.mkInferred a c "transitive"
                                  [a; RIL.e_target ab; c] (6#10)]
                          else [])
                       (PyDict.get_default String.eqb (RIL.e_target ab) []
                          (RIL.edges graph)))
                  a_edges)).
  - reflexivity.
  - intros acc [a a_edges]. unfold RIL.transitive_source.
    apply fold_left_append. intros acc' ab.
    unfold RIL.transitive_edge, PyDict.get_default.
    destruct (PyDict.get String.eqb (RIL.e_target ab) (RIL.edges graph))
      as [next_edges |]; [| now rewrite app_nil_r].
    apply fold_left_append. intros acc'' bc.
    apply transitive_inner_appends.
Qed.

(** What the candidates are. *)
Lemma transitive_candidates_spec (edges : RIL.Adjacency) (x : RIL.Inferred) :
  In x (transitive_candidates edges)
  <-> exists a a_edges ab bc,
        In (a, a_edges) edges /\ In ab a_edges
        /\ In bc (PyDict.get_default String.eqb (RIL.e_target ab) [] edges)
        /\ RIL.e_target bc <> a
        /\ (forall e, In e a_edges -> RIL.e_target e <> RIL.e_target bc)
        /\ x = RIL.mkInferred a (RIL.e_target bc) "transitive"
                 [a; RIL.e_target ab; RIL.e_target bc] (6#10).
Proof.
  unfold transitive_candidates. rewrite in_flat_map. split.
  - intros [[a a_edges] [Ha Hx]]. apply in_flat_map in Hx.
    destruct Hx as [ab [Hab Hx]]. apply in_flat_map in Hx.
    destruct Hx as [bc [Hbc Hx]]. cbv zeta in Hx.
    destruct (negb (String.eqb (RIL.e_target bc) a)) eqn:E1;
      [| destruct Hx].
    destruct (negb (existsb _ a_edges)) eqn:E2; [| destruct Hx].
    destruct Hx as [Hx | []].
    exists a, a_edges, ab, bc. repeat split; auto.
    + apply negb_true_iff, String.eqb_neq in E1. exact E1.
    + intros e He Heq. apply negb_true_iff in E2.
      assert (existsb (fun e0 => String.eqb (RIL.e_target e0)
                                   (RIL.e_target bc)) a_edges = true).
      { apply existsb_exists. exists e. split; [exact He |].
        now apply String.eqb_eq. }
      congruence.
  - intros (a & a_edges & ab & bc & Ha & Hab & Hbc & Hne & Hdirect & ->).
    exists (a, a_edges). split; [exact Ha |].
    apply in_flat_map. exists ab. split; [exact Hab |].
    apply in_flat_map. exists bc. split; [exact Hbc |]. cbv zeta.
    apply String.eqb_neq in Hne. rewrite Hne. cbn [negb andb].
    destruct (existsb _ a_edges) eqn:E; [| now left].
    apply existsb_exists in E. destruct E as [e [He Heq]].
    apply String.eqb_eq in Heq. now apply Hdirect in He.
Qed.

End Transitive.

(** ** The adjacency lists [_build_graph] makes *)

Section Adjacency.

Lemma keys_set {V : Type} (k : string) (v : V)
    (d : PyDict.t (K := string) (V := V)) :
  map fst (PyDict.set String.eqb k v d) = add_key (map fst d) k.
Proof.
  unfold add_key. induction d as [| [k' v'] d IH]; simpl.
  - reflexivity.
  - destruct (String.eqb k k') eqn:E; simpl; [reflexivity |].
    rewrite IH. now destruct (existsb (String.eqb k) (map fst d)).
Qed.

Lemma get_none_keys {V : Type} (k : string)
    (d : PyDict.t (K := string) (V := V)) :
  PyDict.get String.eqb k d = None
  <-> existsb (String.eqb k) (map fst d) = false.
Proof.
  induction d as [| [k' v'] d IH]; simpl; [tauto |].
  destruct (String.eqb k k'); simpl; [split; discriminate | exact IH].
Qed.

Lemma add_key_nodup (keys : list string) (k : string) :
  NoDup keys -> NoDup (add_key keys k).
Proof.
  intro H. unfold add_key.
  destruct (existsb (String.eqb k) keys) eqn:E; [exact H |].
  apply NoDup_app; [exact H | repeat constructor; auto |].
  intros x Hx [-> | []].
  assert (existsb (String.eqb x) keys = true); [| congruence].
  apply existsb_exists. exists x. split; [exact Hx | apply String.eqb_refl].
Qed.

(** With distinct keys, the items of a dict are what [get] finds. *)
Lemma in_get {V : Type} (k : string) (v : V)
    (d : PyDict.t (K := string) (V := V)) :
  NoDup (map fst d) -> (In (k, v) d <-> PyDict.get String.eqb k d = Some v).
Proof.
  induction d as [| [k' v'] d IH]; simpl; intro Hd.
  - split; [tauto | discriminate].
  - inversion Hd as [| ? ? Hnot Hd']; subst.
    destruct (String.eqb k k') eqn:E.
    + apply String.eqb_eq in E. subst k'. split.
      * intros [H | H]; [inversion H; reflexivity |].
        exfalso. apply Hnot. apply (in_map fst) in H. exact H.
      * intro H. inversion H. now left.
    + apply String.eqb_neq in E. rewrite <- (IH Hd'). split.
      * intros [H | H]; [inversion H; congruence | exact H].
      * auto.
Qed.

(** Reading an adjacency map after [adj_append]. *)
Lemma get_adj_append (a k : string) (e : RIL.Edge) (adj : RIL.Adjacency) :
  PyDict.get String.eqb a (RIL.adj_append k e adj)
  = if String.eqb a k
    then Some (PyDict.get_default String.eqb k [] adj ++ [e])
    else PyDict.get String.eqb a adj.
Proof.
  unfold RIL.adj_append, PyDict.mem, PyDict.get_default.
  rewrite (get_set _ String.eqb_eq).
  destruct (PyDict.get String.eqb k adj) as [es |] eqn:Ek; cbn [negb].
  - rewrite Ek. reflexivity.
  - rewrite (get_set_same _ String.eqb_eq).
    destruct (String.eqb a k) eqn:E; [reflexivity |].
    apply String.eqb_neq in E. now rewrite (get_set_other _ String.eqb_eq).
Qed.

Lemma keys_adj_append (k : string) (e : RIL.Edge) (adj : RIL.Adjacency) :
  map fst (RIL.adj_append k e adj) = add_key (map fst adj) k.
Proof.
  unfold RIL.adj_append, PyDict.mem.
  destruct (PyDict.get String.eqb k adj) as [es |] eqn:Ek; cbn [negb];
    rewrite !keys_set; [reflexivity |].
  unfold add_key at 1.
  apply get_none_keys in Ek.
  assert (E : existsb (String.eqb k) (add_key (map fst adj) k) = true).
  { unfold add_key. rewrite Ek. rewrite existsb_app. simpl.
    now rewrite String.eqb_refl, orb_true_r. }
  now rewrite E.
Qed.

Lemma outgoing_snoc (a : string) (done : list Relationship)
    (r : Relationship) :
  outgoing a (done ++ [r]) = outgoing a done ++ outgoing a [r].
Proof. unfold outgoing. now rewrite flat_map_app. Qed.

Lemma sources_snoc (done : list Relationship) (r : Relationship) :
  sources (done ++ [r])
  = match r_source r with
    | Some s => add_key (sources done) s
    | None => sources done
    end.
Proof. unfold sources. now rewrite fold_left_app. Qed.

Lemma add_relationship_adjacency (done : list Relationship)
    (r : Relationship) (acc acc' : RIL.Adjacency * RIL.Adjacency) :
  adjacency_of done (fst acc) ->
  RIL.add_relationship acc r = Return acc' ->
  adjacency_of (done ++ [r]) (fst acc').
Proof.
  intros [Hkeys Hget] H. unfold RIL.add_relationship in H.
  destruct (r_source r) as [s |] eqn:Es; [| discriminate].
  destruct (r_target r) as [t |] eqn:Et; [| discriminate].
  simpl in H. inversion H; subst acc'. cbn [fst]. split.
  - rewrite keys_adj_append, sources_snoc, Es, Hkeys. reflexivity.
  - intro a. rewrite get_adj_append, outgoing_snoc.
    unfold outgoing at 2. cbn [flat_map]. rewrite Es, Et, app_nil_r.
    rewrite (String.eqb_sym s a).
    destruct (String.eqb a s) eqn:E.
    + apply String.eqb_eq in E. subst a.
      unfold PyDict.get_default. rewrite Hget.
      destruct (outgoing s done); reflexivity.
    + rewrite app_nil_r. apply Hget.
Qed.

Lemma for_each_adjacency (rest done : list Relationship)
    (acc acc' : RIL.Adjacency * RIL.Adjacency) :
  adjacency_of done (fst acc) ->
  for_each rest RIL.add_relationship acc = Return acc' ->
  adjacency_of (done ++ rest) (fst acc').
Proof.
  revert done acc. induction rest as [| r rest IH]; intros done acc Hinv H.
  - simpl in H. inversion H; subst. now rewrite app_nil_r.
  - simpl in H.
    destruct (RIL.add_relationship acc r) as [acc1 |] eqn:E1;
      [| discriminate].
    simpl in H. change (r :: rest) with ([r] ++ rest). rewrite app_assoc.
    apply (IH _ acc1); [| exact H].
    eapply add_relationship_adjacency; eauto.
Qed.

Lemma sources_nodup (rels : list Relationship) : NoDup (sources rels).
Proof.
  unfold sources. apply fold_left_invariant; [| constructor].
  intros keys r H. destruct (r_source r); [now apply add_key_nodup | exact H].
Qed.

(** The adjacency lists of the graph built from [relationships]: one
    item per source, in the order the sources first occur, holding the
    relationships that leave it, in input order. *)
Lemma build_graph_adjacency (concepts : list Concept)
    (relationships : list Relationship) (graph : RIL.Graph) :
  RIL._build_graph concepts relationships = Return graph ->
  map fst (RIL.edges graph) = sources relationships
  /\ forall a es,
       In (a, es) (RIL.edges graph)
       <-> es = outgoing a relationships /\ es <> [].
Proof.
  unfold RIL._build_graph. intro H.
  destruct (for_each concepts RIL.add_node []) as [nodes |];
    [| discriminate].
  cbn [bind] in H.
  destruct (for_each relationships RIL.add_relationship ([], []))
    as [adj |] eqn:E; [| discriminate].
  cbn [bind] in H. inversion H; subst graph. cbn [RIL.edges].
  destruct (for_each_adjacency relationships [] ([], []) adj) as [Hk Hg];
    [split; [reflexivity | intro a; reflexivity] | exact E |].
  simpl in Hk, Hg. split; [exact Hk |].
  intros a es. rewrite in_get, Hg by (rewrite Hk; apply sources_nodup).
  unfold as_option. destruct (outgoing a relationships) as [| e l].
  - split; [discriminate | intros [-> Hne]; contradiction].
  - split.
    + intro H'. inversion H'. split; [reflexivity | discriminate].
    + intros [-> _]. reflexivity.
Qed.

End Adjacency.

(** C8: the transitive pass emits, for every A with an outgoing edge to B
    and every outgoing edge from B to C with C <> A such that no edge of
    A's own adjacency list points at C, the inferred edge A -> C of type
    transitive with path [A; B; C] and confidence 0.6, in first-found
    order, and keeps the first 10.  The adjacency list of A holds the
    relationships with source A, in input order, and the sources are
    visited in the order they first occur.  For concepts A, B, C with
    A -> B and B -> C it infers A -> C with path [A; B; C]; with a direct
    A -> C as well it infers nothing. *)
Theorem transitive_pass :
  (forall graph : RIL.Graph,
      RIL._infer_transitive graph
      = firstn 10 (transitive_candidates (RIL.edges graph))
      /\ (List.length (RIL._infer_transitive graph) <= 10)%nat
      /\ (forall x,
             In x (transitive_candidates (RIL.edges graph))
             <-> exists a a_edges ab bc,
                   In (a, a_edges) (RIL.edges graph) /\ In ab a_edges
                   /\ In bc (PyDict.get_default String.eqb (RIL.e_target ab)
                               [] (RIL.edges graph))
                   /\ RIL.e_target bc <> a
                   /\ (forall e, In e a_edges ->
                                 RIL.e_target e <> RIL.e_target bc)
                   /\ x = RIL.mkInferred a (RIL.e_target bc) "transitive"
                            [a; RIL.e_target ab; RIL.e_target bc] (6#10)))
  /\ (forall (concepts : list Concept) (relationships : list Relationship)
             (graph : RIL.Graph),
         RIL._build_graph concepts relationships = Return graph ->
         map fst (RIL.edges graph) = sources relationships
         /\ forall a es,
              In (a, es) (RIL.edges graph)
              <-> es = outgoing a relationships /\ es <> [])
  /\ RIL.infer [concept "A"; concept "B"; concept "C"]
               [rel "A" "B"; rel "B" "C"]
     = Return
         (RIL.mkResult
            [RIL.mkInferred "A" "C" "transitive" ["A"; "B"; "C"]%string
               (6#10)]
            [RIL.mkReasoningPath "A" "B" ["A"; "B"]%string 2;
             RIL.mkReasoningPath "A" "C" ["A"; "B"; "C"]%string 3;
             RIL.mkReasoningPath "B" "C" ["B"; "C"]%string 2]
            [RIL.mkKeyNode "B" "B" 2 (2#5); RIL.mkKeyNode "A" "A" 1 (1#5);
             RIL.mkKeyNode "C" "C" 1 (1#5)]
            (RIL.mkGraphStructure 3 2 1))
  /\ returned (RIL.infer [concept "A"; concept "B"; concept "C"]
                         [rel "A" "B"; rel "B" "C"; rel "A" "C"])
     = true
  /\ inferred_of (RIL.infer [concept "A"; concept "B"; concept "C"]
                            [rel "A" "B"; rel "B" "C"; rel "A" "C"])
     = [].
Proof.
  split; [| split; [| split; [| split]]].
  - intro graph. split; [apply infer_transitive_candidates | split].
    + unfold RIL._infer_transitive. apply firstn_le_length.
    + apply transitive_candidates_spec.
  - apply build_graph_adjacency.
  - vm_compute. reflexivity.
  - vm_compute. reflexivity.
  - vm_compute. reflexivity.
Qed.

(** C10: [infer] may emit several inferred relationships with the same
    ordered pair (source, target): the candidates are one per pair of
    edges A -> B, B -> C, whatever was emitted before; A -> B -> C and
    A -> B' -> C give two inferred edges A -> C; and every duplicate takes
    one of the 10 places: with eleven intermediates between A and C the
    ten edges kept all run from A to C, and the candidate Z -> C found
    after them is dropped. *)
Theorem transitive_pass_repeats_pairs :
  (forall graph : RIL.Graph,
      RIL._infer_transitive graph
      = firstn 10 (transitive_candidates (RIL.edges graph)))
  /\ inferred_of
       (RIL.infer [concept "A"; concept "B"; concept "B'"; concept "C"]
                  [rel "A" "B"; rel "A" "B'"; rel "B" "C"; rel "B'" "C"])
     = [RIL.mkInferred "A" "C" "transitive" ["A"; "B"; "C"]%string (6#10);
        RIL.mkInferred "A" "C" "transitive" ["A"; "B'"; "C"]%string (6#10)]
  /\ map (fun i => (RIL.i_source i, RIL.i_target i))
         (inferred_of (RIL.infer [] many_intermediates))
     = repeat ("A", "C")%string 10
  /\ existsb (fun i => String.eqb (RIL.i_source i) "Z")
             (match RIL._build_graph [] many_intermediates with
              | Return g => transitive_candidates (RIL.edges g)
              | Raise _ => []
              end)
     = true
  /\ existsb (fun i => String.eqb (RIL.i_source i) "Z")
             (inferred_of (RIL.infer [] many_intermediates))
     = false.
Proof.
  split; [exact infer_transitive_candidates |].
  repeat split; vm_compute; reflexivity.
Qed.

(** ** The path search of RIL ends *)

Section SearchEnds.

Lemma weight_visit_le (node : string) (visited : list string)
    (edges : RIL.Adjacency) :
  (RIL.weight (node :: visited) edges <= RIL.weight visited edges)%nat.
Proof.
  induction edges as [| [k es] edges IH]; simpl; [lia |].
  destruct (String.eqb k node); simpl;
    destruct (existsb (String.eqb k) visited); lia.
Qed.

(** Visiting a node for the first time frees its share of the weight. *)
Lemma weight_visit (node : string) (visited : list string)
    (edges : RIL.Adjacency) (es : list RIL.Edge) :
  existsb (String.eqb node) visited = false ->
  PyDict.get String.eqb node edges = Some es ->
  (RIL.weight (node :: visited) edges + S (List.length es)
   <= RIL.weight visited edges)%nat.
Proof.
  intros Hnew. induction edges as [| [k es0] edges IH]; simpl; intro Hget.
  - discriminate.
  - rewrite (String.eqb_sym k node).
    destruct (String.eqb node k) eqn:E.
    + apply String.eqb_eq in E. subst k. inversion Hget; subst es0.
      cbn [orb]. rewrite Hnew.
      pose proof (weight_visit_le node visited edges). lia.
    + cbn [orb]. specialize (IH Hget).
      destruct (existsb (String.eqb k) visited); lia.
Qed.

Lemma scan_edges_queue (node_edges : list RIL.Edge) (end_ : string)
    (visited path : list string) (queue queue' : list (string * list string)) :
  RIL.scan_edges node_edges end_ visited path queue = inr queue' ->
  (List.length queue' <= List.length queue + List.length node_edges)%nat.
Proof.
  revert queue. induction node_edges as [| e es IH]; intros queue H.
  - simpl in H. inversion H. simpl. lia.
  - simpl in H. destruct (String.eqb (RIL.e_target e) end_); [discriminate |].
    destruct (negb _); apply IH in H; simpl;
      [rewrite length_app in H; simpl in H |]; lia.
Qed.

(** With more fuel than queue entries plus weight, the loop ends before
    the fuel does. *)
Lemma search_loop_ends (fuel : nat) (edges : RIL.Adjacency) (end_ : string)
    (max_depth : nat) (visited : list string)
    (queue : list (string * list string)) :
  (List.length queue + RIL.weight visited edges < fuel)%nat ->
  RIL.search_loop fuel edges end_ max_depth visited queue <> RIL.OutOfFuel.
Proof.
  revert visited queue.
  induction fuel as [| fuel IH]; intros visited queue Hfuel; [lia |].
  simpl. destruct queue as [| [node path] queue]; [discriminate |].
  simpl in Hfuel.
  destruct (max_depth <? List.length path)%nat; [apply IH; lia |].
  destruct (existsb (String.eqb node) visited) eqn:Hnew; [apply IH; lia |].
  destruct (PyDict.get String.eqb node edges) as [es |] eqn:Hget.
  - pose proof (weight_visit node visited edges es Hnew Hget) as Hw.
    destruct (RIL.scan_edges es end_ (node :: visited) path queue)
      as [found | queue'] eqn:Hscan; [discriminate |].
    apply scan_edges_queue in Hscan. apply IH. lia.
  - pose proof (weight_visit_le node visited edges). apply IH. lia.
Qed.

Lemma search_ends (edges : RIL.Adjacency) (start end_ : string)
    (max_depth : nat) :
  RIL.search edges start end_ max_depth <> RIL.OutOfFuel.
Proof.
  unfold RIL.search, RIL.search_fuel. apply search_loop_ends. simpl. lia.
Qed.

End SearchEnds.

(** ** Loops that may raise *)

Section ForEach.

Context {A S : Type}.

(** A loop whose every turn returns and keeps [P] returns, with [P]. *)
Lemma for_each_returns (P : S -> Prop) (l : list A)
    (body : S -> A -> Outcome S) (s : S) :
  P s ->
  (forall s a, In a l -> P s -> exists s', body s a = Return s' /\ P s') ->
  exists s', for_each l body s = Return s' /\ P s'.
Proof.
  revert s. induction l as [| a l IH]; intros s Hs Hbody; simpl.
  - eauto.
  - destruct (Hbody s a (or_introl eq_refl) Hs) as [s1 [E H1]].
    rewrite E. simpl. apply IH; [exact H1 |].
    intros s0 a0 Hin. apply Hbody. now right.
Qed.


End ForEach.

(** ** When [infer] returns and when it raises *)

Section InferOutcome.

Lemma in_firstn {A : Type} (x : A) (n : nat) (l : list A) :
  In x (firstn n l) -> In x l.
Proof.
  revert l. induction n as [| n IH]; intros [| a l]; simpl; try tauto.
  intros [H | H]; auto.
Qed.

Lemma in_skipn {A : Type} (x : A) (n : nat) (l : list A) :
  In x (skipn n l) -> In x l.
Proof.
  revert l. induction n as [| n IH]; intros [| a l]; simpl; auto.
Qed.

Lemma in_set_value {V : Type} (k k0 : string) (v v0 : V)
    (d : PyDict.t (K := string) (V := V)) :
  In (k, v) (PyDict.set String.eqb k0 v0 d) -> v = v0 \/ In (k, v) d.
Proof.
  induction d as [| [k' v'] d IH]; simpl.
  - intros [H | []]. inversion H. auto.
  - destruct (String.eqb k0 k'); simpl.
    + intros [H | H]; [inversion H; auto | auto].
    + intros [H | H]; [auto |]. destruct (IH H); auto.
Qed.

Lemma complete_fields (c : Concept) :
  concept_complete c = true ->
  exists id name, c_id c = Some id /\ c_name c = Some name.
Proof.
  unfold concept_complete. destruct (c_id c), (c_name c); simpl;
    try discriminate. eauto.
Qed.

Lemma build_graph_returns (concepts : list Concept)
    (relationships : list Relationship) :
  forallb concept_complete concepts = true ->
  forallb relationship_complete relationships = true ->
  exists graph,
    RIL._build_graph concepts relationships = Return graph
    /\ nodes_complete (RIL.nodes graph).
Proof.
  intros Hc Hr. unfold RIL._build_graph.
  rewrite forallb_forall in Hc, Hr.
  destruct (for_each_returns nodes_complete concepts RIL.add_node [])
    as [nodes [E Hn]].
  - intros k c H. destruct H.
  - intros nodes c Hin Hnodes.
    destruct (complete_fields c (Hc c Hin)) as (id & name & Eid & Ename).
    unfold RIL.add_node. rewrite Eid. simpl.
    eexists. split; [reflexivity |].
    intros k c' Hin'. apply in_set_value in Hin'.
    destruct Hin' as [-> | Hin']; [auto | eauto].
  - rewrite E. cbn [bind].
    destruct (for_each_returns (fun _ => True) relationships
                RIL.add_relationship ([], []) I) as [adj [E' _]].
    + intros acc r Hin _. specialize (Hr r Hin).
      unfold relationship_complete in Hr. unfold RIL.add_relationship.
      destruct (r_source r), (r_target r); try discriminate.
      simpl. eauto.
    + rewrite E'. cbn [bind]. eexists. split; [reflexivity | exact Hn].
Qed.

Lemma find_reasoning_paths_returns (graph : RIL.Graph)
    (concepts : list Concept) :
  forallb concept_complete concepts = true ->
  exists paths, RIL._find_reasoning_paths graph concepts = Return paths.
Proof.
  intro Hc. rewrite forallb_forall in Hc. unfold RIL._find_reasoning_paths.
  destruct (List.length concepts <? 2)%nat; [eauto |].
  destruct (for_each_returns (fun _ => True)
              (RIL.enumerate (firstn 3 concepts))
              (RIL.paths_from graph concepts) [] I) as [paths [E _]];
    [| eauto].
  intros paths [i start_concept] Hin _.
  apply in_combine_r, in_firstn in Hin.
  destruct (complete_fields _ (Hc _ Hin)) as (sid & sname & Esid & Esname).
  unfold RIL.paths_from. cbn [fst snd].
  apply (for_each_returns (fun _ => True)); [exact I |].
  intros paths' end_concept Hin' _.
  apply in_firstn, in_skipn in Hin'.
  destruct (complete_fields _ (Hc _ Hin')) as (eid & ename & Eeid & Eename).
  unfold RIL.try_pair. rewrite Esid, Eeid, Esname, Eename. simpl.
  destruct (RIL._find_path graph sid eid 3); simpl; eauto.
Qed.

Lemma identify_key_nodes_returns (graph : RIL.Graph) :
  nodes_complete (RIL.nodes graph) ->
  exists key_nodes, RIL._identify_key_nodes graph = Return key_nodes.
Proof.
  intro Hn. unfold RIL._identify_key_nodes.
  destruct (for_each_returns (fun _ => True) (RIL.nodes graph)
              (RIL.add_key_node (RIL.edges graph) (RIL.reverse_edges graph))
              [] I) as [key_nodes [E _]].
  - intros key_nodes [node_id node] Hin _.
    destruct (complete_fields _ (Hn _ _ Hin)) as (id & name & _ & Ename).
    unfold RIL.add_key_node. cbn [fst snd]. rewrite Ename.
    destruct (0 <? _)%nat; simpl; eauto.
  - rewrite E. simpl. eauto.
Qed.

Lemma infer_returns (concepts : list Concept)
    (relationships : list Relationship) :
  forallb concept_complete concepts = true ->
  forallb relationship_complete relationships = true ->
  returned (RIL.infer concepts relationships) = true.
Proof.
  intros Hc Hr. unfold RIL.infer.
  destruct (build_graph_returns concepts relationships Hc Hr)
    as [graph [E Hn]].
  rewrite E. cbn [bind].
  destruct (find_reasoning_paths_returns graph concepts Hc) as [paths E1].
  rewrite E1. cbn [bind].
  destruct (identify_key_nodes_returns graph Hn) as [key_nodes E2].
  rewrite E2. reflexivity.
Qed.



End InferOutcome.

(** ** Runs of the orchestrator *)

Section Runs.

Lemma logical_nonempty (ao : AnalystDict) (r : AnalystResult)
    (s : Structure) :
  ad_result ao = Some r -> ar_structure r = Some s ->
  st_validity s = Some "invalid"%string ->
  CAM._detect_logical_contradictions ao <> [].
Proof.
  intros Hr Hs Hv. unfold CAM._detect_logical_contradictions.
  rewrite Hr, Hs, Hv. cbn [opt_is String.eqb Ascii.eqb Bool.eqb andb].
  apply fold_left_invariant.
  - intros acc f Hacc. destruct (existsb _ _); [| exact Hacc].
    destruct acc; discriminate.
  - destruct (opt_is (st_soundness s) "unsound"); discriminate.
Qed.

(** With an analysis whose structure is invalid, the score of CAM is at
    least 0.45. *)
Lemma invalid_analysis_score (text : string) (ao : AnalystDict)
    (r : AnalystResult) (s : Structure) (ro : option RelationalDict)
    (self : CAM.State) :
  analyst_truthy ao = true ->
  ad_result ao = Some r -> ar_structure r = Some s ->
  st_validity s = Some "invalid"%string ->
  45#100 <= CAM.res_contradiction_score
              (fst (CAM.analyze text (Some ao) ro self)).
Proof.
  intros Ht Hr Hs Hv.
  pose proof (analyze_severities text (Some ao) ro self) as Hall.
  apply score_bounds in Hall. destruct Hall as (_ & _ & Hlow).
  unfold CAM.analyze in *. cbn [fst CAM.res_contradiction_score
                                 CAM.res_contradictions] in *.
  apply Hlow. rewrite Ht.
  pose proof (logical_nonempty ao r s Hr Hs Hv) as Hne.
  destruct (CAM._detect_logical_contradictions ao) as [| x l];
    [contradiction |].
  destruct ro as [ro0 |]; [destruct (relational_truthy ro0) |];
    destruct (CAM._detect_text_contradictions text); discriminate.
Qed.

(** A contradiction score above 0.4 keeps SRE out of normal mode. *)
Lemma contradictions_exclude_normal (sm : SimDict) (cs ts : Q) :
  4#10 < cs ->
  SRE._determine_mode sm cs ts = SRE.clarify
  \/ SRE._determine_mode sm cs ts = SRE.slow_down.
Proof.
  intro Hcs. destruct (determine_mode_rules sm cs ts) as (_ & _ & Hn).
  destruct (SRE._determine_mode sm cs ts); auto.
  destruct (proj1 Hn eq_refl) as [_ Hc]. exfalso. apply Hc.
  unfold clarify_rule. auto.
Qed.

End Runs.

(** C1 (as the specification words it) fails: the relationship producer
    raises after SIM, CAM, CTM and SRE have run; [process] returns the
    error result, and [get_internal_state] then shows the contradiction
    score 0.7 and the mode slow_down of the failed run, where it showed 0
    and normal before. *)
Lemma failed_run_exposes_partial_state :
  let self := Orchestrator.new "gpt-4" in
  let run := Orchestrator.process relational_fails "x" None None self in
  let before := Orchestrator.get_internal_state self in
  let after := Orchestrator.get_internal_state (snd run) in
  fst run = Orchestrator.Error "relational agent failed" "RuntimeError"
  /\ Orchestrator.is_contradiction before == 0
  /\ Orchestrator.is_contradiction after == 7#10
  /\ Orchestrator.is_regulation_mode before = SRE.normal
  /\ Orchestrator.is_regulation_mode after = SRE.slow_down
  /\ Orchestrator.is_trust before == 5#10
  /\ Orchestrator.is_trust after < 1#10.
Proof. vm_compute. repeat split. Qed.

(** C5: when the analyst output fed into the pipeline reports structure
    validity "invalid" and one fallacy, the contradiction score of CAM for
    the run is greater than 0 and the mode SRE computes is clarify or
    slow_down, never normal; the internal state and, when the run
    succeeds, the module details of the result show the same. *)
Theorem invalid_analysis_triggers_regulation :
  forall (env : Orchestrator.Env) (text : string)
         (user_id session_id : option string)
         (self : Orchestrator.VCTTOrchestrator)
         (analyst_output : Orchestrator.AgentOutput AnalystResult)
         (s : Structure) (f : Fallacy),
    Orchestrator.analyst_process env
      (Orchestrator.mkAgentInput text session_id user_id None None None)
    = Return analyst_output ->
    ar_structure (Orchestrator.result analyst_output) = Some s ->
    st_validity s = Some "invalid"%string ->
    ar_fallacies (Orchestrator.result analyst_output) = Some [f] ->
    let run := Orchestrator.process env text user_id session_id self in
    let self' := snd run in
    let state := Orchestrator.get_internal_state self' in
    0 < CAM.get_score (Orchestrator.cam self')
    /\ (SRE.get_mode (Orchestrator.sre self') = SRE.clarify
        \/ SRE.get_mode (Orchestrator.sre self') = SRE.slow_down)
    /\ 0 < Orchestrator.is_contradiction state
    /\ (Orchestrator.is_regulation_mode state = SRE.clarify
        \/ Orchestrator.is_regulation_mode state = SRE.slow_down)
    /\ (forall data,
           fst run = Orchestrator.Success data ->
           let details := Orchestrator.d_module_details data in
           0 < CAM.res_contradiction_score (Orchestrator.md_cam details)
           /\ (SRE.res_mode (Orchestrator.md_sre details) = SRE.clarify
               \/ SRE.res_mode (Orchestrator.md_sre details)
                  = SRE.slow_down)).
Proof.
  intros env text user_id session_id self analyst_output s f
         Hanalyst Hs Hv Hf run self' state.
  subst state self' run. unfold Orchestrator.process. rewrite Hanalyst.
  set (ao := Orchestrator.analyst_to_dict analyst_output).
  pose proof (invalid_analysis_score text ao
                (Orchestrator.result analyst_output) s None
                (Orchestrator.cam self) eq_refl eq_refl Hs Hv) as Hscore.
  cbv zeta.
  cbn [SIM.analyze CAM.analyze CTM.calculate_trust SRE.regulate fst snd
       CAM.res_contradiction_score] in *.
  set (score := CAM._calculate_score _) in *.
  assert (Hpos : 0 < score) by lra.
  assert (Hmode : forall sm ts,
             SRE._determine_mode sm score ts = SRE.clarify
             \/ SRE._determine_mode sm score ts = SRE.slow_down).
  { intros sm ts. apply contradictions_exclude_normal. lra. }
  destruct (Orchestrator.relational_process env _)
    as [relational_output | e];
    [destruct (RIL.infer _ _) as [ril_result | e];
     [destruct (Orchestrator.synthesiser_process env _)
        as [synthesiser_output | e] |] |];
    cbn [fst snd Orchestrator.get_internal_state Orchestrator.cam
         Orchestrator.sre Orchestrator.internal_state CAM.get_score
         CAM.contradiction_score SRE.get_mode SRE.mode
         Orchestrator.set_regulation Orchestrator.set_trust
         Orchestrator.set_contradiction Orchestrator.set_sim
         Orchestrator.is_contradiction Orchestrator.is_regulation_mode
         SRE.res_mode CAM.res_contradiction_score];
    (split; [exact Hpos |]); (split; [apply Hmode |]);
    (split; [exact Hpos |]); (split; [apply Hmode |]);
    intros data Hdata; try discriminate.
  inversion Hdata; subst data.
  cbn [Orchestrator.d_module_details Orchestrator.md_cam Orchestrator.md_sre
       SRE.res_mode CAM.res_contradiction_score].
  split; [exact Hpos | apply Hmode].
Qed.

(** The run on the analysis [invalid_analysis]. *)
Lemma invalid_analysis_triggers_regulation_witness :
  Orchestrator.analyst_process relational_fails
    (Orchestrator.mkAgentInput "x" None None None None None)
  = Return invalid_analysis
  /\ 0 < CAM.get_score
           (Orchestrator.cam
              (snd (Orchestrator.process relational_fails "x" None None
                      (Orchestrator.new "gpt-4")))).
Proof.
  split; [reflexivity |].
  apply (invalid_analysis_triggers_regulation relational_fails "x" None None
           (Orchestrator.new "gpt-4") invalid_analysis
           (mkStructure (Some "invalid") (Some "uncertain") true)%string
           (mkFallacy (Some "strawman"%string) true));
    reflexivity.
Defined.

(** * More properties *)

(** ** More on CAM *)

Section MoreCAM.

Lemma fold_left_keeps {A B : Type} (step : list B -> A -> list B)
    (x : B) (l : list A) (acc : list B) :
  (forall acc a, In x acc -> In x (step acc a)) ->
  In x acc -> In x (fold_left step l acc).
Proof.
  intro Hstep. revert acc. induction l as [| a l IH]; intros acc H; simpl; auto.
Qed.

Lemma pattern_loop_found (text neg pos : string)
    (l : list (string * string)) (acc : list CAM.ContradictionRecord) :
  In (neg, pos) l ->
  PyStr.contains neg (PyStr.lower text) = true ->
  PyStr.contains pos (PyStr.lower text) = true ->
  In (textual_record neg pos)
     (fold_left
        (fun contradictions '(neg0, pos0) =>
           if PyStr.contains neg0 (PyStr.lower text)
              && PyStr.contains pos0 (PyStr.lower text)
           then contradictions ++ [textual_record neg0 pos0]
           else contradictions)
        l acc).
Proof.
  intros Hin Hneg Hpos. revert acc.
  induction l as [| [n p] l IH]; intro acc; [destruct Hin |].
  simpl. destruct Hin as [E | Hin].
  - inversion E; subst n p. rewrite Hneg, Hpos. simpl.
    apply fold_left_keeps; [| apply in_or_app; right; now left].
    intros acc0 [n0 p0] H0. destruct (_ && _); [| exact H0].
    apply in_or_app. now left.
  - apply IH. exact Hin.
Qed.

Lemma text_pattern_found (text neg pos : string) :
  In (neg, pos) CAM.patterns ->
  PyStr.contains neg (PyStr.lower text) = true ->
  PyStr.contains pos (PyStr.lower text) = true ->
  In (textual_record neg pos) (CAM._detect_text_contradictions text).
Proof.
  intros Hin Hneg Hpos. unfold CAM._detect_text_contradictions.
  pose proof (pattern_loop_found text neg pos CAM.patterns [] Hin Hneg Hpos)
    as H.
  destruct (2 <? _)%nat; [apply in_or_app; left; exact H | exact H].
Qed.

Lemma contains_unfold (sub s : string) :
  PyStr.contains sub s
  = if prefix sub s then true
    else match s with
         | EmptyString => false
         | String _ r => PyStr.contains sub r
         end.
Proof. destruct s; reflexivity. Qed.

(** A text in which [a ++ b] occurs has [b] in it. *)
Lemma prefix_app_contains (a b s : string) :
  prefix (a ++ b) s = true -> PyStr.contains b s = true.
Proof.
  revert s. induction a as [| c a IH]; intros s H.
  - change ("" ++ b)%string with b in H.
    rewrite contains_unfold, H. reflexivity.
  - destruct s as [| c' s]; [discriminate H |].
    change (String c a ++ b)%string with (String c (a ++ b)) in H.
    cbn [prefix] in H.
    destruct (Ascii.ascii_dec c c'); [| discriminate].
    apply IH in H. rewrite contains_unfold, H.
    now destruct (prefix b (String c' s)).
Qed.

Lemma contains_app_r (a b s : string) :
  PyStr.contains (a ++ b) s = true -> PyStr.contains b s = true.
Proof.
  induction s as [| c s IH]; intro H; rewrite contains_unfold in H.
  - destruct (prefix (a ++ b) "") eqn:E; [| discriminate].
    now apply prefix_app_contains in E.
  - destruct (prefix (a ++ b) (String c s)) eqn:E.
    + now apply prefix_app_contains in E.
    + apply IH in H. rewrite contains_unfold, H.
      now destruct (prefix b (String c s)).
Qed.

End MoreCAM.

(** X1: the contradiction score is 0 exactly when no contradiction was
    detected; as soon as one is detected the score is above 0.4, the
    threshold of SRE for contradictions: whatever the other inputs, the
    mode SRE computes from such a score is not normal but clarify or
    slow_down. *)
Theorem detected_contradiction_leaves_normal_mode :
  forall (text : string) (ao : option AnalystDict)
         (ro : option RelationalDict) (self : CAM.State),
    let r := fst (CAM.analyze text ao ro self) in
    (CAM.res_contradiction_score r == 0 <-> CAM.res_contradictions r = [])
    /\ (CAM.res_contradictions r <> [] ->
        4#10 < CAM.res_contradiction_score r
        /\ forall (sm : SimDict) (ts : Q),
            (1 <= rank (SRE._determine_mode sm
                          (CAM.res_contradiction_score r) ts))%nat).
Proof.
  intros text ao ro self r.
  pose proof (analyze_severities text ao ro self) as Hall. fold r in Hall.
  apply score_bounds in Hall. destruct Hall as (_ & _ & Hlow).
  assert (E : CAM.res_contradiction_score r
              = CAM._calculate_score (CAM.res_contradictions r))
    by reflexivity.
  rewrite E. split.
  - split.
    + intro H0. destruct (CAM.res_contradictions r) as [| c l] eqn:El;
        [reflexivity |].
      assert (45#100 <= CAM._calculate_score (c :: l))
        by (apply Hlow; discriminate).
      lra.
    + intros ->. reflexivity.
  - intro Hne. specialize (Hlow Hne).
    split; [lra |]. intros sm ts.
    assert (Hgt : Qgtb (CAM._calculate_score (CAM.res_contradictions r))
                       (4#10) = true) by (apply Qgtb_true; lra).
    unfold SRE._determine_mode. cbv zeta.
    destruct (_ || _ || _ || Qltb ts (3#10)); [simpl; lia |].
    rewrite Hgt. destruct (Qgtb _ (5#10)); simpl; lia.
Qed.

(** X2: for each of the four word pairs, a text that has both words, in
    any letter case, gets the textual record of severity 0.5 for the pair;
    since "possible" is part of "impossible", a text that has "impossible"
    gets the record of the pair (impossible, possible) from that word
    alone. *)
Theorem text_patterns_detected :
  forall text : string,
    (forall neg pos,
        In (neg, pos)
           [("not", "but"); ("never", "always"); ("none", "all");
            ("impossible", "possible")]%string ->
        PyStr.contains neg (PyStr.lower text) = true ->
        PyStr.contains pos (PyStr.lower text) = true ->
        In (textual_record neg pos) (CAM._detect_text_contradictions text))
    /\ (PyStr.contains "impossible" (PyStr.lower text) = true ->
        In (textual_record "impossible" "possible")
           (CAM._detect_text_contradictions text)).
Proof.
  intro text. split.
  - intros neg pos Hin. apply text_pattern_found. exact Hin.
  - intro H. apply text_pattern_found; [simpl; tauto | exact H |].
    exact (contains_app_r "im" "possible" _ H).
Qed.

(** ** More on CTM *)

Section MoreCTM.

Lemma py_min_mono (a x y : Q) : x <= y -> py_min a x <= py_min a y.
Proof.
  intro H. apply py_min_glb.
  - apply py_min_le_l.
  - eapply Qle_trans; [apply py_min_le_r | exact H].
Qed.

Lemma py_max_glb_r (a b : Q) : b <= py_max a b.
Proof.
  unfold py_max. destruct (Qgtb_spec b a); [apply Qle_refl |].
  now apply Qnot_lt_le.
Qed.

Lemma py_max_mono (a x y : Q) : x <= y -> py_max a x <= py_max a y.
Proof.
  intro H. apply py_max_lub.
  - apply py_max_le_l.
  - eapply Qle_trans; [exact H | apply py_max_glb_r].
Qed.

(** The three weighted factors, read from the factors of a call: the
    entry of the penalty does not change them. *)
Lemma weighted_factor (k : string) (v : Q) (base : CTM.Factors) :
  k <> "contradiction_penalty"%string ->
  PyDict.get_default String.eqb k (5#10)
    (PyDict.set String.eqb "contradiction_penalty"%string v base)
  = PyDict.get_default String.eqb k (5#10) base.
Proof.
  intro H. unfold PyDict.get_default.
  now rewrite (get_set_other _ String.eqb_eq).
Qed.

End MoreCTM.

(** X3: all else equal, a larger contradiction score never gives a larger
    trust score. *)
Theorem trust_decreases_with_contradiction :
  forall (now1 now2 : string) (ao : option AnalystDict)
         (ro : option RelationalDict) (sm : option SimDict) (cs1 cs2 : Q)
         (self1 self2 : CTM.State),
    cs1 <= cs2 ->
    CTM.res_trust_score (fst (CTM.calculate_trust now2 ao ro sm cs2 self2))
    <= CTM.res_trust_score
         (fst (CTM.calculate_trust now1 ao ro sm cs1 self1)).
Proof.
  intros now1 now2 ao ro sm cs1 cs2 self1 self2 Hcs.
  unfold CTM.calculate_trust. cbn [fst CTM.res_trust_score].
  unfold CTM.weights. cbn [map].
  rewrite !weighted_factor by discriminate.
  apply py_max_mono, py_min_mono.
  set (w := py_sum _). lra.
Qed.

Lemma trust_decreases_with_contradiction_witness :
  0 <= 8#10
  /\ CTM.res_trust_score
       (fst (CTM.calculate_trust "t" None None None (8#10) CTM.init))
     <= CTM.res_trust_score
          (fst (CTM.calculate_trust "t" None None None 0 CTM.init)).
Proof.
  split; [discriminate |].
  apply (trust_decreases_with_contradiction "t" "t" None None None 0 (8#10)
           CTM.init CTM.init).
  discriminate.
Defined.

Section MoreCTMFactors.

Ltac read_factors ao ro sm :=
  unfold CTM.calculate_trust; cbn [fst CTM.res_factors];
  destruct ao as [?d |]; [destruct (analyst_truthy _) |];
  (destruct ro as [?d |]; [destruct (relational_truthy _) |]);
  (destruct sm as [?d |]; [destruct (sim_truthy _) |]);
  repeat rewrite (get_set _ String.eqb_eq);
  simpl (String.eqb _ _); cbn [PyDict.get]; reflexivity.

(** What the weighted sum reads for each of the three factors. *)
Lemma analyst_factor (now : string) (ao : option AnalystDict)
    (ro : option RelationalDict) (sm : option SimDict) (cs : Q)
    (self : CTM.State) :
  PyDict.get String.eqb "analyst"%string
    (CTM.res_factors (fst (CTM.calculate_trust now ao ro sm cs self)))
  = match ao with
    | Some d =>
        if analyst_truthy d then Some (CTM._calculate_analyst_trust d)
        else None
    | None => None
    end.
Proof.
  read_factors ao ro sm.
Qed.

Lemma relational_factor (now : string) (ao : option AnalystDict)
    (ro : option RelationalDict) (sm : option SimDict) (cs : Q)
    (self : CTM.State) :
  PyDict.get String.eqb "relational"%string
    (CTM.res_factors (fst (CTM.calculate_trust now ao ro sm cs self)))
  = match ro with
    | Some d =>
        if relational_truthy d then Some (CTM._calculate_relational_trust d)
        else None
    | None => None
    end.
Proof.
  read_factors ao ro sm.
Qed.

Lemma situational_factor (now : string) (ao : option AnalystDict)
    (ro : option RelationalDict) (sm : option SimDict) (cs : Q)
    (self : CTM.State) :
  PyDict.get String.eqb "situational"%string
    (CTM.res_factors (fst (CTM.calculate_trust now ao ro sm cs self)))
  = match sm with
    | Some d =>
        if sim_truthy d then Some (CTM._calculate_situational_trust d)
        else None
    | None => None
    end.
Proof.
  read_factors ao ro sm.
Qed.

Lemma factor_in_unit_interval (now : string) (ao : option AnalystDict)
    (ro : option RelationalDict) (sm : option SimDict) (cs : Q)
    (self : CTM.State) (k : string) :
  In k ["analyst"; "relational"; "situational"]%string ->
  unit_interval
    (PyDict.get_default String.eqb k (5#10)
       (CTM.res_factors (fst (CTM.calculate_trust now ao ro sm cs self)))).
Proof.
  intro Hk. unfold PyDict.get_default.
  destruct Hk as [<- | [<- | [<- | []]]].
  - rewrite analyst_factor.
    destruct ao as [d |]; [destruct (analyst_truthy d) |];
      try (split; discriminate). apply clamp01_bounds.
  - rewrite relational_factor.
    destruct ro as [d |]; [destruct (relational_truthy d) |];
      try (split; discriminate). apply clamp01_bounds.
  - rewrite situational_factor.
    destruct sm as [d |]; [destruct (sim_truthy d) |];
      try (split; discriminate). apply clamp01_bounds.
Qed.

End MoreCTMFactors.

(** X4: a factor is recorded exactly when its input is given and is not
    the empty dict; each of the three weighted factors (0.5 when absent)
    lies in [0, 1]; so, for a contradiction score that is not negative,
    the trust score never exceeds 0.85, the sum of the weights. *)
Theorem trust_score_at_most_sum_of_weights :
  forall (now : string) (ao : option AnalystDict)
         (ro : option RelationalDict) (sm : option SimDict) (cs : Q)
         (self : CTM.State),
    0 <= cs ->
    let r := fst (CTM.calculate_trust now ao ro sm cs self) in
    let f := CTM.res_factors r in
    CTM.res_trust_score r <= 85#100
    /\ (forall k : string,
           In k ["analyst"; "relational"; "situational"]%string ->
           unit_interval (PyDict.get_default String.eqb k (5#10) f))
    /\ is_some (PyDict.get String.eqb "analyst"%string f)
       = match ao with
         | Some d => is_some (ad_result d) || is_some (ad_confidence d)
                     || ad_other d
         | None => false
         end
    /\ is_some (PyDict.get String.eqb "relational"%string f)
       = match ro with
         | Some d => is_some (rd_result d) || is_some (rd_confidence d)
                     || rd_other d
         | None => false
         end
    /\ is_some (PyDict.get String.eqb "situational"%string f)
       = match sm with
         | Some d => is_some (sd_tension d) || is_some (sd_uncertainty d)
                     || is_some (sd_emotional_intensity d) || sd_other d
         | None => false
         end.
Proof.
  intros now ao ro sm cs self Hcs r f.
  assert (Hf : forall k : string,
             In k ["analyst"; "relational"; "situational"]%string ->
             unit_interval (PyDict.get_default String.eqb k (5#10) f)).
  { intros k Hk. now apply factor_in_unit_interval. }
  split; [| split; [exact Hf | split; [| split]]].
  - destruct (Hf "analyst"%string) as [Ha0 Ha1]; [simpl; tauto |].
    destruct (Hf "relational"%string) as [Hr0 Hr1]; [simpl; tauto |].
    destruct (Hf "situational"%string) as [Hs0 Hs1]; [simpl; tauto |].
    subst r. unfold CTM.calculate_trust. cbn [fst CTM.res_trust_score].
    unfold CTM.weights, py_sum. cbn [map fold_left].
    subst f. unfold CTM.calculate_trust in Ha0, Ha1, Hr0, Hr1, Hs0, Hs1.
    cbn [fst CTM.res_factors] in Ha0, Ha1, Hr0, Hr1, Hs0, Hs1.
    set (a := PyDict.get_default String.eqb "analyst"%string _ _) in *.
    set (b := PyDict.get_default String.eqb "relational"%string _ _) in *.
    set (c := PyDict.get_default String.eqb "situational"%string _ _) in *.
    apply py_max_lub; [discriminate |].
    eapply Qle_trans; [apply py_min_le_r |]. lra.
  - subst f r. rewrite analyst_factor.
    destruct ao as [d |]; [fold (analyst_truthy d) |]; [| reflexivity].
    destruct (analyst_truthy d); reflexivity.
  - subst f r. rewrite relational_factor.
    destruct ro as [d |]; [fold (relational_truthy d) |]; [| reflexivity].
    destruct (relational_truthy d); reflexivity.
  - subst f r. rewrite situational_factor.
    destruct sm as [d |]; [fold (sim_truthy d) |]; [| reflexivity].
    destruct (sim_truthy d); reflexivity.
Qed.

Lemma trust_score_at_most_sum_of_weights_witness :
  0 <= 2#10
  /\ CTM.res_trust_score
       (fst (CTM.calculate_trust "t" None None None (2#10) CTM.init))
     <= 85#100.
Proof.
  split; [discriminate |].
  apply (trust_score_at_most_sum_of_weights "t" None None None (2#10)
           CTM.init).
  discriminate.
Defined.

(** X5: a call appends exactly one entry to the trust history, holding
    the score, the time and the factors of the call, and that score becomes
    the current trust score.  The trend compares the new score with the
    score of the entry that was last before the call: stable when there was
    none, increasing when the score rose by more than 0.1, decreasing when
    it fell by more than 0.1, stable otherwise. *)
Theorem trust_history_and_trend :
  forall (now : string) (ao : option AnalystDict)
         (ro : option RelationalDict) (sm : option SimDict) (cs : Q)
         (self : CTM.State),
    let r := fst (CTM.calculate_trust now ao ro sm cs self) in
    let self' := snd (CTM.calculate_trust now ao ro sm cs self) in
    CTM.get_history self'
    = CTM.get_history self
      ++ [CTM.mkEntry (CTM.res_trust_score r) now (CTM.res_factors r)]
    /\ CTM.get_trust_score self' = CTM.res_trust_score r
    /\ (CTM.get_history self = [] -> CTM.res_trend r = "stable"%string)
    /\ (forall earlier previous,
           CTM.get_history self = earlier ++ [previous] ->
           let diff := CTM.res_trust_score r - CTM.he_score previous in
           (CTM.res_trend r = "increasing"%string <-> 1#10 < diff)
           /\ (CTM.res_trend r = "decreasing"%string <-> diff < -(1#10))
           /\ (CTM.res_trend r = "stable"%string
               <-> -(1#10) <= diff /\ diff <= 1#10)).
Proof.
  intros now ao ro sm cs self r self'. subst r self'.
  unfold CTM.calculate_trust, CTM.get_history, CTM.get_trust_score.
  cbn [fst snd CTM.trust_history CTM.trust_score CTM.res_trust_score
       CTM.res_factors CTM.res_trend].
  set (score := py_max 0 _).
  split; [reflexivity | split; [reflexivity | split]].
  - intros ->. reflexivity.
  - intros earlier previous ->. cbv zeta.
    unfold CTM._calculate_trend. rewrite !rev_unit. cbn [CTM.he_score].
    set (diff := score - CTM.he_score previous).
    destruct (Qgtb_spec diff (1#10)) as [Hi | Hi].
    + repeat split; intros; try discriminate; try reflexivity; try lra.
    + destruct (Qltb_spec diff (-(1#10))) as [Hd | Hd].
      * repeat split; intros; try discriminate; try reflexivity; try lra.
      * repeat split; intros; try discriminate; try reflexivity; try lra.
Qed.

(** ** More on SIM *)

Section MoreSIM.


Ltac cap n w c H :=
  let t := fresh "t" in
  pose proof (capped_term n w c ltac:(discriminate) ltac:(discriminate)) as H;
  set (t := py_min (of_nat n * w) c) in *; clearbody t.



End MoreSIM.


(** ** More on SRE *)

Section MoreSRE.

Lemma linked_snoc (m0 m m' : SRE.RegulationMode) (h : list SRE.Transition)
    (reason : string) :
  linked m0 h m -> m <> m' ->
  linked m0 (h ++ [SRE.mkTransition m m' reason]) m'.
Proof.
  revert m0. induction h as [| t h IH]; intros m0 H Hne; simpl in *.
  - subst m0. auto.
  - destruct H as (Hf & Hc & Hl). auto.
Qed.

Lemma regulate_linked (m0 : SRE.RegulationMode) (c : Call)
    (self : SRE.State) :
  linked m0 (SRE.mode_history self) (SRE.mode self) ->
  let '(sm, cs, ts) := c in
  let self' := snd (SRE.regulate sm cs ts self) in
  linked m0 (SRE.mode_history self') (SRE.mode self').
Proof.
  intro H. pose proof (regulate_step c self) as Hstep.
  destruct c as [[sm cs] ts]. cbv zeta in *.
  destruct Hstep as [Hmode [reason Hhist]]. rewrite Hmode, Hhist.
  destruct (mode_eqb_spec (computed_mode (sm, cs, ts)) (SRE.mode self))
    as [E | E].
  - rewrite app_nil_r, E. exact H.
  - apply linked_snoc; [exact H |]. intro E'. apply E. now symmetry.
Qed.

End MoreSRE.

(** X7: the mode history is a chain.  If it leads from some mode to the
    current mode, it still does after any sequence of calls: every
    transition starts from the mode the one before it ended in, changes
    the mode, and the last one ends in the current mode.  For a fresh
    engine the chain starts from normal. *)
Theorem mode_history_is_a_chain :
  forall (m0 : SRE.RegulationMode) (calls : list Call) (self : SRE.State),
    linked m0 (SRE.get_history self) (SRE.get_mode self) ->
    linked m0 (SRE.get_history (regulate_all calls self))
           (SRE.get_mode (regulate_all calls self)).
Proof.
  intros m0 calls. induction calls as [| c calls IH]; intros self H.
  - exact H.
  - rewrite regulate_all_cons. apply IH.
    pose proof (regulate_linked m0 c self H) as H'.
    destruct c as [[sm cs] ts]. exact H'.
Qed.

Lemma mode_history_is_a_chain_witness :
  linked SRE.normal (SRE.get_history SRE.init) (SRE.get_mode SRE.init)
  /\ linked SRE.normal
       (SRE.get_history
          (regulate_all
             [(mkSimDict None (Some (75#100)) None false, 0, 7#10);
              (mkSimDict None None None false, 0, 7#10)]
             SRE.init))
       (SRE.get_mode
          (regulate_all
             [(mkSimDict None (Some (75#100)) None false, 0, 7#10);
              (mkSimDict None None None false, 0, 7#10)]
             SRE.init)).
Proof.
  split; [reflexivity |].
  apply (mode_history_is_a_chain SRE.normal
           [(mkSimDict None (Some (75#100)) None false, 0, 7#10);
            (mkSimDict None None None false, 0, 7#10)]
           SRE.init).
  reflexivity.
Defined.

Section MoreSREReasons.

Lemma slow_down_has_a_reason (sm : SimDict) (cs ts : Q) :
  SRE._determine_mode sm cs ts = SRE.slow_down ->
  SRE._get_mode_change_reason sm cs ts <> "metrics stabilized"%string.
Proof.
  intro H. apply (proj1 (determine_mode_rules sm cs ts)) in H.
  unfold slow_down_rule in H. change metric with SRE.get_or_zero in H.
  unfold SRE._get_mode_change_reason.
  destruct (Qgtb_spec (SRE.get_or_zero (sd_uncertainty sm)) (6#10));
    destruct (Qgtb_spec cs (5#10));
    destruct (Qltb_spec ts (4#10));
    destruct (Qgtb_spec (SRE.get_or_zero (sd_tension sm)) (7#10));
    destruct (Qgtb_spec (SRE.get_or_zero (sd_emotional_intensity sm))
                (7#10));
    cbn; try discriminate.
  exfalso. lra.
Qed.

Lemma normal_reason (sm : SimDict) (cs ts : Q) :
  SRE._determine_mode sm cs ts = SRE.normal ->
  SRE._get_mode_change_reason sm cs ts = "metrics stabilized"%string
  \/ SRE._get_mode_change_reason sm cs ts
     = "high emotional intensity"%string.
Proof.
  intro H. destruct (determine_mode_rules sm cs ts) as (_ & _ & Hn).
  apply Hn in H. destruct H as [Hs Hc].
  unfold slow_down_rule in Hs. unfold clarify_rule in Hc.
  change metric with SRE.get_or_zero in *.
  unfold SRE._get_mode_change_reason.
  destruct (Qgtb_spec (SRE.get_or_zero (sd_uncertainty sm)) (6#10));
    [exfalso; apply Hc; lra |].
  destruct (Qgtb_spec cs (5#10)); [exfalso; apply Hc; lra |].
  destruct (Qltb_spec ts (4#10)); [exfalso; apply Hc; lra |].
  destruct (Qgtb_spec (SRE.get_or_zero (sd_tension sm)) (7#10));
    [exfalso; apply Hc; lra |].
  destruct (Qgtb_spec (SRE.get_or_zero (sd_emotional_intensity sm))
              (7#10)); cbn; auto.
Qed.

End MoreSREReasons.

(** X8: the reason recorded with a transition uses thresholds of its own.
    A change into slow_down always names at least one condition (its
    reason is never "metrics stabilized"); a change into normal is
    recorded with "metrics stabilized" or, for an emotional intensity
    between 0.7 and 0.8, with "high emotional intensity". *)
Theorem transition_reasons :
  forall (sm : SimDict) (cs ts : Q) (self : SRE.State),
    let self' := snd (SRE.regulate sm cs ts self) in
    SRE.get_mode self' <> SRE.get_mode self ->
    exists t,
      SRE.get_history self' = SRE.get_history self ++ [t]
      /\ SRE.tr_reason t = SRE._get_mode_change_reason sm cs ts
      /\ (SRE.tr_to t = SRE.slow_down ->
          SRE.tr_reason t <> "metrics stabilized"%string)
      /\ (SRE.tr_to t = SRE.normal ->
          SRE.tr_reason t = "metrics stabilized"%string
          \/ (SRE.tr_reason t = "high emotional intensity"%string
              /\ 7#10 < metric (sd_emotional_intensity sm)
              /\ metric (sd_emotional_intensity sm) <= 8#10)).
Proof.
  intros sm cs ts self self' Hne. subst self'.
  unfold SRE.regulate, SRE.get_mode, SRE.get_history in *.
  cbn [snd SRE.mode SRE.mode_history] in *.
  destruct (mode_eqb_spec (SRE._determine_mode sm cs ts) (SRE.mode self))
    as [E | E]; [contradiction |].
  cbn [negb]. eexists. split; [reflexivity |].
  cbn [SRE.tr_reason SRE.tr_to]. split; [reflexivity | split].
  - apply slow_down_has_a_reason.
  - intro Hn. destruct (normal_reason sm cs ts Hn) as [Hr | Hr]; [now left |].
    right. split; [exact Hr |].
    destruct (determine_mode_rules sm cs ts) as (_ & _ & Hnr).
    apply Hnr in Hn. destruct Hn as [Hs _]. unfold slow_down_rule in Hs.
    change metric with SRE.get_or_zero in *.
    split; [| lra].
    revert Hr. unfold SRE._get_mode_change_reason.
    destruct (Qgtb_spec (SRE.get_or_zero (sd_uncertainty sm)) (6#10));
      destruct (Qgtb_spec cs (5#10));
      destruct (Qltb_spec ts (4#10));
      destruct (Qgtb_spec (SRE.get_or_zero (sd_tension sm)) (7#10));
      destruct (Qgtb_spec (SRE.get_or_zero (sd_emotional_intensity sm))
                  (7#10));
      cbn; intro Hr; try discriminate; assumption.
Qed.

Lemma transition_reasons_witness :
  SRE.get_mode
    (snd (SRE.regulate (mkSimDict None (Some (75#100)) None false) 0 (7#10)
            SRE.init))
  = SRE.slow_down
  /\ exists t,
      SRE.get_history
        (snd (SRE.regulate (mkSimDict None (Some (75#100)) None false) 0
                (7#10) SRE.init))
      = SRE.get_history SRE.init ++ [t]
      /\ SRE.tr_reason t = "high uncertainty"%string.
Proof.
  split; [reflexivity |].
  destruct (transition_reasons (mkSimDict None (Some (75#100)) None false)
              0 (7#10) SRE.init) as (t & Hh & Hr & _).
  - discriminate.
  - exists t. split; [exact Hh | exact Hr].
Defined.

(** X9: the mode is monotone in its inputs: with no less uncertainty,
    tension, emotional intensity and contradiction and no more trust, the
    computed mode is the same or further from normal (normal, clarify,
    slow_down in this order). *)
Theorem mode_is_monotone :
  forall (sm sm' : SimDict) (cs cs' ts ts' : Q),
    no_better sm cs ts sm' cs' ts' ->
    (rank (SRE._determine_mode sm cs ts)
     <= rank (SRE._determine_mode sm' cs' ts'))%nat.
Proof.
  intros sm sm' cs cs' ts ts' (Hu & Ht & He & Hc & Htr).
  destruct (determine_mode_rules sm cs ts) as (Hs & Hcl & Hn).
  destruct (determine_mode_rules sm' cs' ts') as (Hs' & Hcl' & Hn').
  assert (Hslow : slow_down_rule sm cs ts -> slow_down_rule sm' cs' ts').
  { unfold slow_down_rule. intros [H | [H | [H | H]]];
      [left | right; left | right; right; left | right; right; right]; lra. }
  assert (Hclar : clarify_rule sm cs ts -> clarify_rule sm' cs' ts').
  { unfold clarify_rule. intros [H | [H | [H | H]]];
      [left | right; left | right; right; left | right; right; right]; lra. }
  destruct (SRE._determine_mode sm cs ts) eqn:E,
           (SRE._determine_mode sm' cs' ts') eqn:E'; simpl; try lia;
    exfalso.
  - (* clarify, then normal *)
    destruct (proj1 Hcl eq_refl) as [_ H1].
    destruct (proj1 Hn' eq_refl) as [_ H2]. auto.
  - (* slow_down, then normal *)
    destruct (proj1 Hn' eq_refl) as [H2 _]. apply H2, Hslow.
    now apply Hs.
  - (* slow_down, then clarify *)
    destruct (proj1 Hcl' eq_refl) as [H2 _]. apply H2, Hslow.
    now apply Hs.
Qed.

Lemma mode_is_monotone_witness :
  no_better (mkSimDict None (Some (3#10)) None false) (2#10) (7#10)
            (mkSimDict None (Some (6#10)) None false) (2#10) (7#10)
  /\ (rank (SRE._determine_mode
              (mkSimDict None (Some (3#10)) None false) (2#10) (7#10))
      <= rank (SRE._determine_mode
                 (mkSimDict None (Some (6#10)) None false) (2#10) (7#10)))%nat.
Proof.
  assert (H : no_better (mkSimDict None (Some (3#10)) None false) (2#10)
                (7#10) (mkSimDict None (Some (6#10)) None false) (2#10)
                (7#10)).
  { unfold no_better. simpl. repeat split; discriminate. }
  split; [exact H |].
  apply (mode_is_monotone _ _ _ _ _ _ H).
Defined.

(** ** The path search of RIL is sound *)

Section SearchSound.

Variable edges : RIL.Adjacency.

Lemma is_path_snoc (p : list string) (node t d : string) :
  p <> [] -> last p d = node -> is_path edges p -> has_edge edges node t ->
  is_path edges (p ++ [t]).
Proof.
  induction p as [| a p IH]; intros Hne Hlast Hp He; [contradiction |].
  destruct p as [| b p].
  - simpl in *. subst a. auto.
  - change ((a :: b :: p) ++ [t]) with (a :: ((b :: p) ++ [t])).
    destruct Hp as [Hab Hp].
    assert (Hrest : is_path edges ((b :: p) ++ [t])).
    { apply IH; [discriminate | exact Hlast | exact Hp | exact He]. }
    simpl. simpl in Hrest. auto.
Qed.

Lemma entry_ok_snoc (start node t : string) (path : list string) :
  entry_ok edges start (node, path) -> has_edge edges node t ->
  entry_ok edges start (t, path ++ [t]).
Proof.
  intros (Hhd & Hlast & Hp) He. simpl in *.
  assert (Hne : path <> []) by (destruct path; discriminate).
  repeat split; simpl.
  - destruct path; [contradiction | exact Hhd].
  - apply last_last.
  - eapply is_path_snoc; eauto.
Qed.

Lemma scan_edges_sound (start end_ node : string)
    (es node_edges : list RIL.Edge)
    (visited path : list string) (queue : list (string * list string)) :
  PyDict.get String.eqb node edges = Some es -> incl node_edges es ->
  entry_ok edges start (node, path) ->
  Forall (entry_ok edges start) queue ->
  match RIL.scan_edges node_edges end_ visited path queue with
  | inl found => entry_ok edges start (end_, found)
                 /\ List.length found = S (List.length path)
  | inr queue' => Forall (entry_ok edges start) queue'
  end.
Proof.
  intros Hget. revert queue.
  induction node_edges as [| e rest IH]; intros queue Hincl Hpath Hq; simpl.
  - exact Hq.
  - assert (He : has_edge edges node (RIL.e_target e)).
    { exists es, e. repeat split; [exact Hget |]. apply Hincl. now left. }
    assert (Hrest : incl rest es).
    { intros x Hx. apply Hincl. now right. }
    destruct (String.eqb (RIL.e_target e) end_) eqn:E.
    + apply String.eqb_eq in E. rewrite <- E. split.
      * now apply entry_ok_snoc with (node := node).
      * rewrite length_app. simpl. lia.
    + destruct (negb _); apply IH; auto.
      apply Forall_app. split; [exact Hq |]. constructor; [| constructor].
      now apply entry_ok_snoc with (node := node).
Qed.

Lemma search_loop_sound (fuel : nat) (start end_ : string) (max_depth : nat)
    (visited : list string) (queue : list (string * list string))
    (found : list string) :
  Forall (entry_ok edges start) queue ->
  RIL.search_loop fuel edges end_ max_depth visited queue = RIL.Found found ->
  entry_ok edges start (end_, found)
  /\ (2 <= List.length found <= S max_depth)%nat.
Proof.
  revert visited queue.
  induction fuel as [| fuel IH]; intros visited queue Hq H; [discriminate |].
  simpl in H. destruct queue as [| [node path] queue]; [discriminate |].
  inversion Hq as [| ? ? Hentry Hq']; subst.
  destruct (Nat.ltb_spec max_depth (List.length path)) as [Hd | Hd];
    [eapply IH; eauto |].
  destruct (existsb (String.eqb node) visited); [eapply IH; eauto |].
  destruct (PyDict.get String.eqb node edges) as [es |] eqn:Hget;
    [| eapply IH; eauto].
  pose proof (scan_edges_sound start end_ node es es (node :: visited) path
                queue Hget (incl_refl es) Hentry Hq') as Hscan.
  destruct (RIL.scan_edges es end_ (node :: visited) path queue)
    as [p | queue'].
  - inversion H; subst p. destruct Hscan as [Hok Hlen].
    split; [exact Hok |].
    assert (path <> []).
    { destruct Hentry as (Hhd & _). destruct path; discriminate. }
    destruct path; [contradiction | simpl in *; lia].
  - eapply IH; eauto.
Qed.

End SearchSound.

(** X10: a path returned by [_find_path] is a path of the graph: it starts
    at the start node, ends at the end node, every node but the last has
    an edge to the next one, and it has at most [max_depth] edges.  When
    the two nodes are the same it is the one-node path. *)
Theorem find_path_sound :
  forall (graph : RIL.Graph) (start end_ : string) (max_depth : nat)
         (path : list string),
    RIL._find_path graph start end_ max_depth = Some path ->
    hd_error path = Some start
    /\ last path start = end_
    /\ is_path (RIL.edges graph) path
    /\ (List.length path <= S max_depth)%nat
    /\ (start = end_ -> path = [start])
    /\ (start <> end_ -> (2 <= List.length path)%nat).
Proof.
  intros graph start end_ max_depth path H. unfold RIL._find_path in H.
  destruct (String.eqb start end_) eqn:E.
  - apply String.eqb_eq in E. subst end_. inversion H; subst path.
    simpl. repeat split; auto; try lia. intro Hne. contradiction.
  - apply String.eqb_neq in E.
    destruct (RIL.search (RIL.edges graph) start end_ max_depth)
      as [found | |] eqn:Hs; try discriminate.
    inversion H; subst found. unfold RIL.search in Hs.
    apply (search_loop_sound (RIL.edges graph)) with (start := start) in Hs.
    + destruct Hs as [(Hhd & Hlast & Hp) Hlen]. simpl in *.
      repeat split; auto; try lia. intro Heq. contradiction.
    + constructor; [| constructor]. repeat split; reflexivity.
Qed.

Lemma find_path_sound_witness :
  RIL._find_path one_edge "A" "B" 3 = Some ["A"; "B"]%string
  /\ is_path (RIL.edges one_edge) ["A"; "B"]%string.
Proof.
  split; [reflexivity |].
  apply (find_path_sound one_edge "A" "B" 3 ["A"; "B"]%string).
  reflexivity.
Defined.

(** ** The search is complete *)

Section SearchComplete.

Variable edges : RIL.Adjacency.
Variables start end_ : string.
Variable max_depth : nat.

Lemma levels_head (L : nat) (x : string) (p : list string)
    (rest : list (string * list string)) :
  levels L ((x, p) :: rest) ->
  levels (List.length p) ((x, p) :: rest) /\ (L <= List.length p)%nat.
Proof.
  intros (q1 & q2 & E & H1 & H2). destruct q1 as [| e q1].
  - simpl in E. subst q2. inversion H2 as [| ? ? Hp Hrest]; subst.
    cbn [snd] in Hp. split; [| lia].
    exists ((x, p) :: rest), []. rewrite app_nil_r.
    split; [reflexivity |]. split; [| constructor].
    rewrite Hp. exact H2.
  - simpl in E. injection E as <- ->.
    inversion H1 as [| ? ? Hp Hrest]; subst. cbn [snd] in *.
    split; [| lia].
    exists ((x, p) :: q1), q2. repeat split; assumption.
Qed.

Lemma levels_tail (x : string) (p : list string)
    (rest : list (string * list string)) :
  levels (List.length p) ((x, p) :: rest) -> levels (List.length p) rest.
Proof.
  intros (q1 & q2 & E & H1 & H2). destruct q1 as [| e q1].
  - simpl in E. subst q2. inversion H2 as [| ? ? Hp Hrest]; subst.
    cbn [snd] in Hp. lia.
  - simpl in E. injection E as <- ->.
    inversion H1; subst. exists q1, q2. repeat split; assumption.
Qed.

Lemma levels_app (L : nat) (queue new : list (string * list string)) :
  levels L queue ->
  Forall (fun entry => List.length (snd entry) = S L) new ->
  levels L (queue ++ new).
Proof.
  intros (q1 & q2 & -> & H1 & H2) Hnew.
  exists q1, (q2 ++ new). rewrite app_assoc.
  split; [reflexivity |]. split; [exact H1 |].
  apply Forall_app. split; assumption.
Qed.

Lemma levels_bounds (L : nat) (queue : list (string * list string))
    (x : string) (p : list string) :
  levels L queue -> In (x, p) queue ->
  (L <= List.length p <= S L)%nat.
Proof.
  intros (q1 & q2 & -> & H1 & H2) Hin.
  rewrite Forall_forall in H1, H2.
  apply in_app_or in Hin. destruct Hin as [Hin | Hin].
  - specialize (H1 _ Hin). cbn [snd] in H1. lia.
  - specialize (H2 _ Hin). cbn [snd] in H2. lia.
Qed.

Lemma levels_nil (L : nat) : levels L [].
Proof. exists [], []. repeat split; constructor. Qed.

Lemma in_visited (node : string) (visited : list string) :
  existsb (String.eqb node) visited = true <-> In node visited.
Proof.
  rewrite existsb_exists. split.
  - intros (x & Hx & E). apply String.eqb_eq in E. now subst x.
  - intro H. exists node. split; [exact H | apply String.eqb_refl].
Qed.

(** The loop over the edges of a node. *)
Lemma scan_edges_spec (es : list RIL.Edge) (visited path : list string) :
  forall queue,
    match RIL.scan_edges es end_ visited path queue with
    | inl found =>
        found = path ++ [end_]
        /\ exists e, In e es /\ RIL.e_target e = end_
    | inr queue' =>
        (forall e, In e es -> RIL.e_target e <> end_)
        /\ exists new,
            queue' = queue ++ new
            /\ Forall (fun entry =>
                         List.length (snd entry) = S (List.length path)) new
            /\ forall e,
                In e es ->
                In (RIL.e_target e) visited
                \/ In (RIL.e_target e, path ++ [RIL.e_target e]) new
    end.
Proof.
  induction es as [| e es IH]; intro queue; simpl.
  - split; [intros e [] |]. exists []. rewrite app_nil_r.
    repeat split; [constructor | intros e []].
  - destruct (String.eqb (RIL.e_target e) end_) eqn:E.
    + apply String.eqb_eq in E. rewrite E. split; [reflexivity |].
      exists e. split; [now left | exact E].
    + apply String.eqb_neq in E.
      destruct (existsb (String.eqb (RIL.e_target e)) visited) eqn:Hv;
        cbn [negb].
      * apply in_visited in Hv. specialize (IH queue).
        destruct (RIL.scan_edges es end_ visited path queue)
          as [found | queue'].
        -- destruct IH as [Hf (e' & He' & Ht)]. split; [exact Hf |].
           exists e'. split; [now right | exact Ht].
        -- destruct IH as [Hne (new & Hq & Hlen & Hcov)].
           split; [intros e' [<- | He']; auto |].
           exists new. repeat split; try assumption.
           intros e' [<- | He']; auto.
      * specialize (IH (queue ++ [(RIL.e_target e,
                                   path ++ [RIL.e_target e])])).
        destruct (RIL.scan_edges es end_ visited path _)
          as [found | queue'].
        -- destruct IH as [Hf (e' & He' & Ht)]. split; [exact Hf |].
           exists e'. split; [now right | exact Ht].
        -- destruct IH as [Hne (new & Hq & Hlen & Hcov)].
           split; [intros e' [<- | He']; auto |].
           exists ((RIL.e_target e, path ++ [RIL.e_target e]) :: new).
           split; [rewrite Hq, <- app_assoc; reflexivity |].
           split.
           ++ constructor; [| exact Hlen]. cbn [snd].
              rewrite length_app. simpl. lia.
           ++ intros e' [<- | He']; [right; now left |].
              destruct (Hcov e' He'); [now left | right; now right].
Qed.

(** Nodes nearer than the paths of the queue have been visited. *)
Lemma below_level (lvl : string -> nat) (visited : list string)
    (queue : list (string * list string)) (L j : nat) (w : string) :
  search_inv edges start end_ max_depth lvl visited queue L ->
  reach edges start j w -> (S j < L)%nat -> (S j <= max_depth)%nat ->
  In w visited /\ (lvl w <= S j)%nat.
Proof.
  intros Hinv Hreach. induction Hreach as [| j u w Hu IH He]; intros HL Hd.
  - destruct (inv_start _ _ _ _ _ _ _ _ Hinv) as [H | H]; [exact H |].
    pose proof (levels_bounds _ _ _ _
                  (inv_levels _ _ _ _ _ _ _ _ Hinv) H) as Hb.
    simpl in Hb. lia.
  - destruct IH as [Hvis Hlvl]; [lia | lia |].
    destruct (inv_closed _ _ _ _ _ _ _ _ Hinv u w Hvis ltac:(lia) He)
      as [[Hw Hl] | (p & Hp & Hl)].
    + split; [exact Hw | lia].
    + pose proof (levels_bounds _ _ _ _
                    (inv_levels _ _ _ _ _ _ _ _ Hinv) Hp) as Hb.
      lia.
Qed.

(** With the invariant, a node at [d - 1] edges from the start that has
    an edge to the end is not visited yet when the paths of the queue
    have more than [d] nodes. *)
Lemma not_beyond (lvl : string -> nat) (visited : list string)
    (queue : list (string * list string)) (L d : nat) (u : string) :
  search_inv edges start end_ max_depth lvl visited queue L ->
  reach edges start d u -> has_edge edges u end_ ->
  (S d <= max_depth)%nat -> (L <= S d)%nat.
Proof.
  intros Hinv Hu He Hd.
  destruct (Nat.le_gt_cases L (S d)) as [H | H]; [exact H |].
  destruct (below_level _ _ _ _ _ _ Hinv Hu H Hd) as [Hvis _].
  exfalso. exact (inv_no_end _ _ _ _ _ _ _ _ Hinv u end_ Hvis He eq_refl).
Qed.

Lemma has_edge_inv (node t : string) (es : list RIL.Edge) :
  PyDict.get String.eqb node edges = Some es -> has_edge edges node t ->
  exists e, In e es /\ RIL.e_target e = t.
Proof.
  intros Hget (es' & e & Hget' & Hin & Ht).
  rewrite Hget in Hget'. injection Hget' as <-. eauto.
Qed.

(** One turn of the loop keeps the invariant when it drops the head. *)
Lemma inv_drop (lvl : string -> nat) (visited : list string)
    (node : string) (path : list string)
    (rest : list (string * list string)) :
  (1 <= max_depth)%nat ->
  search_inv edges start end_ max_depth lvl visited ((node, path) :: rest)
             (List.length path) ->
  (max_depth < List.length path)%nat \/ In node visited ->
  search_inv edges start end_ max_depth lvl visited rest (List.length path).
Proof.
  intros Hdepth Hinv Hwhy.
  destruct Hinv as [K1 K2 J1 K3 K4]. constructor.
  - exact K1.
  - intros v t Hv Hl He.
    destruct (K2 v t Hv Hl He) as [H | (p & [E | Hp] & Hlen)];
      [now left | | right; eauto].
    injection E as <- <-.
    destruct Hwhy as [Hlong | Hvis]; [lia |].
    left. split; [exact Hvis |]. specialize (K1 _ Hvis). lia.
  - exact J1.
  - destruct K3 as [H | [E | H]]; [now left | | now right].
    injection E as -> ->. simpl in *.
    destruct Hwhy as [Hlong | Hvis]; [lia |].
    left. split; [exact Hvis | now apply K1].
  - now apply levels_tail in K4.
Qed.

(** One turn of the loop keeps the invariant when it visits the head. *)
Lemma inv_visit (lvl : string -> nat) (visited : list string)
    (node : string) (path : list string)
    (rest new : list (string * list string)) :
  search_inv edges start end_ max_depth lvl visited ((node, path) :: rest)
             (List.length path) ->
  ~ In node visited ->
  Forall (fun entry => List.length (snd entry) = S (List.length path)) new ->
  (forall t, has_edge edges node t ->
             t <> end_
             /\ (In t (node :: visited)
                 \/ In (t, path ++ [t]) new)) ->
  search_inv edges start end_ max_depth
      (fun x => if String.eqb x node then List.length path else lvl x)
      (node :: visited) (rest ++ new) (List.length path).
Proof.
  intros Hinv Hnew Hlen Hedges.
  destruct Hinv as [K1 K2 J1 K3 K4].
  assert (Hold : forall v, In v visited -> String.eqb v node = false).
  { intros v Hv. apply String.eqb_neq. intros ->. contradiction. }
  assert (Hlvl :
            forall t, In t (node :: visited) ->
                      ((if String.eqb t node then List.length path
                        else lvl t) <= List.length path)%nat).
  { intros t [<- | Ht].
    - rewrite String.eqb_refl. lia.
    - rewrite (Hold _ Ht). now apply K1. }
  constructor.
  - exact Hlvl.
  - intros v t [<- | Hv] Hl He.
    + rewrite String.eqb_refl in *.
      destruct (Hedges t He) as [_ [Ht | Ht]].
      * left. split; [exact Ht |]. specialize (Hlvl t Ht). lia.
      * right. exists (path ++ [t]). split.
        -- apply in_or_app. now right.
        -- rewrite length_app. simpl. lia.
    + rewrite (Hold _ Hv) in *.
      destruct (K2 v t Hv Hl He)
        as [[Ht Hlt] | (p & [E | Hp] & Hlp)].
      * left. split; [now right |]. now rewrite (Hold _ Ht).
      * injection E as <- <-. left. split; [now left |].
        rewrite String.eqb_refl. exact Hlp.
      * right. exists p. split; [apply in_or_app; now left | exact Hlp].
  - intros v t [<- | Hv] He.
    + now destruct (Hedges t He).
    + now apply (J1 v).
  - destruct K3 as [[Hs Hl] | [E | H]].
    + left. split; [now right |]. now rewrite (Hold _ Hs).
    + injection E as -> ->. left. split; [now left |].
      rewrite String.eqb_refl. simpl. lia.
    + right. apply in_or_app. now left.
  - apply levels_app; [| exact Hlen]. now apply levels_tail in K4.
Qed.

(** The search finds the end when a walk leads to it within the depth,
    and with a path that is not longer. *)
Lemma search_loop_complete (d : nat) (u : string) :
  (1 <= max_depth)%nat ->
  reach edges start d u -> has_edge edges u end_ ->
  (S d <= max_depth)%nat ->
  forall (fuel : nat) (lvl : string -> nat) (visited : list string)
         (queue : list (string * list string)) (L : nat),
    search_inv edges start end_ max_depth lvl visited queue L ->
    match RIL.search_loop fuel edges end_ max_depth visited queue with
    | RIL.Found found => (List.length found <= S (S d))%nat
    | RIL.NotFound => False
    | RIL.OutOfFuel => True
    end.
Proof.
  intros Hdepth Hu He Hd fuel.
  induction fuel as [| fuel IH]; intros lvl visited queue L Hinv;
    [exact I |].
  simpl. destruct queue as [| [node path] rest].
  - (* the queue is empty: every node within the depth is visited *)
    assert (Hinv' : search_inv edges start end_ max_depth lvl visited []
                               (Nat.max L (S (S max_depth)))).
    { destruct Hinv as [K1 K2 J1 K3 K4]. constructor; auto.
      - intros v Hv. specialize (K1 v Hv). lia.
      - apply levels_nil. }
    pose proof (not_beyond _ _ _ _ _ _ Hinv' Hu He Hd). lia.
  - destruct (levels_head _ _ _ _ (inv_levels _ _ _ _ _ _ _ _ Hinv))
      as [Hlv HL].
    assert (Hinv' : search_inv edges start end_ max_depth lvl visited
                               ((node, path) :: rest)
                        (List.length path)).
    { destruct Hinv as [K1 K2 J1 K3 K4]. constructor; auto.
      intros v Hv. specialize (K1 v Hv). lia. }
    clear Hinv.
    destruct (Nat.ltb_spec max_depth (List.length path)) as [Hlong | Hshort].
    { apply (IH lvl visited rest (List.length path)).
      apply (inv_drop lvl visited node path rest); auto. }
    destruct (existsb (String.eqb node) visited) eqn:Hv.
    { apply in_visited in Hv.
      apply (IH lvl visited rest (List.length path)).
      apply (inv_drop lvl visited node path rest); auto. }
    assert (Hnew : ~ In node visited).
    { intro H. apply in_visited in H. congruence. }
    pose proof (not_beyond _ _ _ _ _ _ Hinv' Hu He Hd) as Hlevel.
    destruct (PyDict.get String.eqb node edges) as [es |] eqn:Hget.
    + pose proof (scan_edges_spec es (node :: visited) path rest) as Hscan.
      destruct (RIL.scan_edges es end_ (node :: visited) path rest)
        as [found | queue'].
      * destruct Hscan as [-> _]. rewrite length_app. simpl. lia.
      * destruct Hscan as [Hne (new & -> & Hlen & Hcov)].
        apply (IH (fun x => if String.eqb x node then List.length path
                            else lvl x)
                  (node :: visited) (rest ++ new) (List.length path)).
        apply (inv_visit lvl visited node path rest new); auto.
        intros t Ht. destruct (has_edge_inv _ _ _ Hget Ht) as (e & Hin & <-).
        split; [now apply Hne | now apply Hcov].
    + apply (IH (fun x => if String.eqb x node then List.length path
                          else lvl x)
                (node :: visited) rest (List.length path)).
      rewrite <- (app_nil_r rest).
      apply (inv_visit lvl visited node path rest []); auto.
      intros t (es & e & Hget' & _). congruence.
Qed.

End SearchComplete.

Section PathsAndWalks.

Variable edges : RIL.Adjacency.

Lemma is_path_app_inv (q : list string) (x d : string) :
  q <> [] -> is_path edges (q ++ [x]) ->
  is_path edges q /\ has_edge edges (last q d) x.
Proof.
  induction q as [| a q IH]; intros Hne H; [contradiction |].
  destruct q as [| b q].
  - simpl in *. tauto.
  - change ((a :: b :: q) ++ [x]) with (a :: b :: (q ++ [x])) in H.
    destruct H as [Hab H].
    destruct (IH ltac:(discriminate) H) as [Hq Hlast].
    split; [split; assumption | exact Hlast].
Qed.

Lemma path_reach (start : string) (p : list string) :
  hd_error p = Some start -> is_path edges p ->
  reach edges start (List.length p - 1) (last p start).
Proof.
  induction p as [| x q IH] using rev_ind; intros Hhd Hp; [discriminate |].
  rewrite last_last, length_app. simpl.
  destruct q as [| a q].
  - simpl in *. injection Hhd as ->. constructor.
  - destruct (is_path_app_inv (a :: q) x start ltac:(discriminate) Hp)
      as [Hq He].
    replace (List.length (a :: q) + 1 - 1)%nat
      with (S (List.length (a :: q) - 1)) by (simpl; lia).
    apply reach_step with (u := last (a :: q) start); [| exact He].
    apply IH; [exact Hhd | exact Hq].
Qed.

End PathsAndWalks.

(** X25: [_find_path] is complete within its depth and returns a
    shortest path: when the graph has a path from the start node to the
    end node with at most [max_depth] edges, a path is returned, and it
    has no more nodes than that one. *)
Theorem find_path_complete :
  forall (graph : RIL.Graph) (start end_ : string) (max_depth : nat)
         (p : list string),
    hd_error p = Some start ->
    last p start = end_ ->
    is_path (RIL.edges graph) p ->
    (List.length p <= S max_depth)%nat ->
    exists found,
      RIL._find_path graph start end_ max_depth = Some found
      /\ (List.length found <= List.length p)%nat.
Proof.
  intros graph start end_ max_depth p Hhd Hlast Hp Hlen.
  unfold RIL._find_path.
  destruct (String.eqb start end_) eqn:E.
  - exists [start]. split; [reflexivity |].
    destruct p; [discriminate | simpl; lia].
  - apply String.eqb_neq in E.
    destruct p as [| x q] using rev_ind; [discriminate |]. clear IHq.
    rewrite last_last in Hlast. subst x.
    destruct q as [| a q].
    { simpl in Hhd. injection Hhd as ->. contradiction. }
    destruct (is_path_app_inv (RIL.edges graph) (a :: q) end_ start
                ltac:(discriminate) Hp) as [Hq He].
    pose proof (path_reach (RIL.edges graph) start (a :: q) Hhd Hq) as Hu.
    rewrite length_app in *. cbn [List.length] in *.
    pose proof (search_loop_complete (RIL.edges graph) start end_ max_depth
                  (S (List.length q) - 1) (last (a :: q) start)
                  ltac:(lia) Hu He ltac:(lia)
                  (RIL.search_fuel (RIL.edges graph)) (fun _ => 0%nat) []
                  [(start, [start])] 1%nat) as Hsearch.
    pose proof (search_ends (RIL.edges graph) start end_ max_depth) as Hends.
    unfold RIL.search in *.
    destruct (RIL.search_loop _ _ _ _ _ _) as [found | |].
    + exists found. split; [reflexivity |].
      assert (H : (List.length found <= S (S (S (List.length q) - 1)))%nat).
      { apply Hsearch. constructor.
        - intros v [].
        - intros v t [].
        - intros v t [].
        - right. now left.
        - exists [(start, [start])], []. repeat split; repeat constructor. }
      lia.
    + exfalso. apply Hsearch. constructor.
      * intros v [].
      * intros v t [].
      * intros v t [].
      * right. now left.
      * exists [(start, [start])], []. repeat split; repeat constructor.
    + contradiction.
Qed.

Lemma find_path_complete_witness :
  exists found,
    RIL._find_path one_edge "A" "B" 3 = Some found
    /\ (List.length found <= 2)%nat.
Proof.
  apply (find_path_complete one_edge "A" "B" 3 ["A"; "B"]%string).
  - reflexivity.
  - reflexivity.
  - split; [| exact I].
    exists [RIL.mkEdge "A" "B" (rel "A" "B")],
           (RIL.mkEdge "A" "B" (rel "A" "B")).
    repeat split. now left.
  - simpl. lia.
Defined.

(** ** The graph of RIL and the relationships *)

Section GraphFacts.

Lemma for_each_invariant {A S : Type} (P : S -> Prop) (l : list A)
    (body : S -> A -> Outcome S) (s s' : S) :
  P s ->
  (forall s a s1, In a l -> P s -> body s a = Return s1 -> P s1) ->
  for_each l body s = Return s' -> P s'.
Proof.
  revert s. induction l as [| a l IH]; intros s Hs Hbody H; simpl in H.
  - inversion H; subst. exact Hs.
  - destruct (body s a) as [s1 |] eqn:E; [| discriminate]. simpl in H.
    apply (IH s1); [| | exact H].
    + apply (Hbody s a); auto. now left.
    + intros s0 a0 s2 Hin. apply Hbody. now right.
Qed.

Lemma incoming_snoc (a : string) (done : list Relationship)
    (r : Relationship) :
  incoming a (done ++ [r]) = incoming a done ++ incoming a [r].
Proof. unfold incoming. now rewrite flat_map_app. Qed.

Lemma add_relationship_reverse (done : list Relationship)
    (r : Relationship) (acc acc' : RIL.Adjacency * RIL.Adjacency) :
  reverse_of done (snd acc) ->
  RIL.add_relationship acc r = Return acc' ->
  reverse_of (done ++ [r]) (snd acc').
Proof.
  intros Hget H. unfold RIL.add_relationship in H.
  destruct (r_source r) as [s |] eqn:Es; [| discriminate].
  destruct (r_target r) as [t |] eqn:Et; [| discriminate].
  simpl in H. inversion H; subst acc'. cbn [snd].
  intro a. rewrite get_adj_append, incoming_snoc.
  unfold incoming at 2. cbn [flat_map]. rewrite Es, Et, app_nil_r.
  rewrite (String.eqb_sym t a).
  destruct (String.eqb a t) eqn:E.
  - apply String.eqb_eq in E. subst a.
    unfold PyDict.get_default. rewrite Hget.
    destruct (incoming t done); reflexivity.
  - rewrite app_nil_r. apply Hget.
Qed.

Lemma for_each_reverse (rest done : list Relationship)
    (acc acc' : RIL.Adjacency * RIL.Adjacency) :
  reverse_of done (snd acc) ->
  for_each rest RIL.add_relationship acc = Return acc' ->
  reverse_of (done ++ rest) (snd acc').
Proof.
  revert done acc. induction rest as [| r rest IH]; intros done acc Hinv H.
  - simpl in H. inversion H; subst. now rewrite app_nil_r.
  - simpl in H.
    destruct (RIL.add_relationship acc r) as [acc1 |] eqn:E1;
      [| discriminate].
    simpl in H. change (r :: rest) with ([r] ++ rest). rewrite app_assoc.
    apply (IH _ acc1); [| exact H].
    eapply add_relationship_reverse; eauto.
Qed.

Lemma as_option_default (l : list RIL.Edge) (o : option (list RIL.Edge)) :
  o = as_option l -> match o with Some v => v | None => [] end = l.
Proof. intros ->. now destruct l. Qed.

(** The two adjacency maps and the node map of the graph built from
    [concepts] and [relationships]. *)
Lemma build_graph_reads (concepts : list Concept)
    (relationships : list Relationship) (graph : RIL.Graph) :
  RIL._build_graph concepts relationships = Return graph ->
  (forall a,
      PyDict.get_default String.eqb a [] (RIL.edges graph)
      = outgoing a relationships)
  /\ (forall a,
         PyDict.get_default String.eqb a [] (RIL.reverse_edges graph)
         = incoming a relationships)
  /\ (forall id c,
         In (id, c) (RIL.nodes graph) -> In c concepts /\ c_id c = Some id).
Proof.
  unfold RIL._build_graph. intro H.
  destruct (for_each concepts RIL.add_node []) as [nodes |] eqn:En;
    [| discriminate].
  cbn [bind] in H.
  destruct (for_each relationships RIL.add_relationship ([], []))
    as [adj |] eqn:E; [| discriminate].
  cbn [bind] in H. inversion H; subst graph.
  cbn [RIL.edges RIL.reverse_edges RIL.nodes].
  split; [| split].
  - intro a. unfold PyDict.get_default. apply as_option_default.
    apply (for_each_adjacency relationships [] ([], []) adj); [| exact E].
    split; [reflexivity | intro; reflexivity].
  - intro a. unfold PyDict.get_default. apply as_option_default.
    apply (for_each_reverse relationships [] ([], []) adj); [| exact E].
    intro; reflexivity.
  - apply (for_each_invariant
             (fun nodes : RIL.Nodes =>
                forall id c, In (id, c) nodes ->
                             In c concepts /\ c_id c = Some id)
             concepts RIL.add_node [] nodes); [| | exact En].
    + intros id c [].
    + intros nodes0 c0 nodes1 Hin HP Hadd id c Hc.
      unfold RIL.add_node in Hadd.
      destruct (c_id c0) as [id0 |] eqn:Eid; [| discriminate].
      simpl in Hadd. inversion Hadd; subst nodes1. clear Hadd.
      revert Hc.
      induction nodes0 as [| [k v] d IHd]; simpl.
      * intros [Hc | []]. inversion Hc; subst. auto.
      * destruct (String.eqb id0 k) eqn:Ek; simpl.
        -- apply String.eqb_eq in Ek. subst k.
           intros [Hc | Hc]; [inversion Hc; subst; auto |].
           apply HP. now right.
        -- intros [Hc | Hc]; [apply HP; now left |].
           apply IHd; [| exact Hc].
           intros id1 c1 H1. apply HP. now right.
Qed.

Lemma in_outgoing (a : string) (rels : list Relationship) (e : RIL.Edge) :
  In e (outgoing a rels)
  <-> exists r t,
        In r rels /\ r_source r = Some a /\ r_target r = Some t
        /\ e = RIL.mkEdge a t r.
Proof.
  unfold outgoing. rewrite in_flat_map. split.
  - intros [r [Hr He]].
    destruct (r_source r) as [s |] eqn:Es; [| destruct He].
    destruct (r_target r) as [t |] eqn:Et; [| destruct He].
    destruct (String.eqb s a) eqn:E; [| destruct He].
    apply String.eqb_eq in E. subst s. destruct He as [<- | []].
    exists r, t. auto.
  - intros (r & t & Hr & Es & Et & ->). exists r. split; [exact Hr |].
    rewrite Es, Et, String.eqb_refl. now left.
Qed.

Lemma has_edge_related (concepts : list Concept)
    (relationships : list Relationship) (graph : RIL.Graph) (a b : string) :
  RIL._build_graph concepts relationships = Return graph ->
  has_edge (RIL.edges graph) a b -> related relationships a b.
Proof.
  intros Hg (es & e & Hget & He & Ht).
  destruct (build_graph_reads _ _ _ Hg) as (Hout & _ & _).
  specialize (Hout a). unfold PyDict.get_default in Hout.
  rewrite Hget in Hout. subst es.
  apply in_outgoing in He. destruct He as (r & t & Hr & Es & Et & ->).
  simpl in Ht. subst t. exists r. auto.
Qed.

Lemma is_path_follows (concepts : list Concept)
    (relationships : list Relationship) (graph : RIL.Graph)
    (p : list string) :
  RIL._build_graph concepts relationships = Return graph ->
  is_path (RIL.edges graph) p -> follows relationships p.
Proof.
  intro Hg. induction p as [| a p IH]; [auto |].
  destruct p as [| b p]; [simpl; auto |].
  intros [Hab Hp]. split; [eapply has_edge_related; eauto | auto].
Qed.

End GraphFacts.

Section InferFacts.

Lemma infer_parts (concepts : list Concept)
    (relationships : list Relationship) (r : RIL.Result) :
  RIL.infer concepts relationships = Return r ->
  exists graph,
    RIL._build_graph concepts relationships = Return graph
    /\ RIL.inferred_relationships r = RIL._infer_transitive graph
    /\ RIL._find_reasoning_paths graph concepts
       = Return (RIL.reasoning_paths r)
    /\ RIL._identify_key_nodes graph = Return (RIL.key_concepts r)
    /\ RIL.graph_structure r
       = RIL.mkGraphStructure (List.length concepts)
           (List.length relationships)
           (List.length (RIL.inferred_relationships r)).
Proof.
  unfold RIL.infer. intro H.
  destruct (RIL._build_graph concepts relationships) as [graph |] eqn:Eg;
    [| discriminate].
  cbn [bind] in H.
  destruct (RIL._find_reasoning_paths graph concepts) as [paths |] eqn:Ep;
    [| discriminate].
  cbn [bind] in H.
  destruct (RIL._identify_key_nodes graph) as [key_nodes |] eqn:Ek;
    [| discriminate].
  cbn [bind] in H. injection H as <-. exists graph.
  repeat split; assumption || reflexivity.
Qed.

End InferFacts.

(** X11: every inferred relationship of [infer] is new and grounded in
    the input: it is no self-loop, no relationship of the input runs from
    its source to its target, and its path [source; B; target] follows two
    relationships of the input, source -> B and B -> target; its type is
    "transitive" and its confidence 0.6; at most 10 are returned. *)
Theorem inferred_relationships_are_new :
  forall (concepts : list Concept) (relationships : list Relationship)
         (r : RIL.Result),
    RIL.infer concepts relationships = Return r ->
    (List.length (RIL.inferred_relationships r) <= 10)%nat
    /\ Forall
         (fun x =>
            RIL.i_type x = "transitive"%string
            /\ RIL.i_confidence x = 6#10
            /\ RIL.i_source x <> RIL.i_target x
            /\ ~ related relationships (RIL.i_source x) (RIL.i_target x)
            /\ exists b,
                RIL.i_path x = [RIL.i_source x; b; RIL.i_target x]
                /\ related relationships (RIL.i_source x) b
                /\ related relationships b (RIL.i_target x))
         (RIL.inferred_relationships r).
Proof.
  intros concepts relationships r H.
  destruct (infer_parts _ _ _ H) as (graph & Hg & Hi & _).
  rewrite Hi. split.
  - unfold RIL._infer_transitive. apply firstn_le_length.
  - rewrite infer_transitive_candidates. apply Forall_forall.
    intros x Hx. apply in_firstn in Hx.
    apply transitive_candidates_spec in Hx.
    destruct Hx as (a & a_edges & ab & bc & Ha & Hab & Hbc & Hne & Hdir & ->).
    cbn [RIL.i_type RIL.i_confidence RIL.i_source RIL.i_target RIL.i_path].
    destruct (build_graph_adjacency _ _ _ Hg) as [_ Hadj].
    destruct (build_graph_reads _ _ _ Hg) as (Hout & _ & _).
    apply Hadj in Ha. destruct Ha as [-> _].
    rewrite Hout in Hbc.
    apply in_outgoing in Hab.
    destruct Hab as (r1 & t1 & Hr1 & Es1 & Et1 & ->).
    apply in_outgoing in Hbc.
    destruct Hbc as (r2 & t2 & Hr2 & Es2 & Et2 & ->).
    cbn [RIL.e_target] in *.
    repeat split; auto.
    + intros (r0 & Hr0 & Es0 & Et0).
      apply (Hdir (RIL.mkEdge a t2 r0)); [| reflexivity].
      apply in_outgoing. exists r0, t2. auto.
    + exists t1. repeat split.
      * exists r1. auto.
      * exists r2. auto.
Qed.

Lemma inferred_relationships_are_new_witness :
  returned (RIL.infer [concept "A"; concept "B"; concept "C"]
                      [rel "A" "B"; rel "B" "C"]) = true
  /\ (List.length
        (inferred_of (RIL.infer [concept "A"; concept "B"; concept "C"]
                                [rel "A" "B"; rel "B" "C"])) <= 10)%nat.
Proof.
  split; [reflexivity |].
  destruct (RIL.infer [concept "A"; concept "B"; concept "C"]
                      [rel "A" "B"; rel "B" "C"]) as [r |] eqn:E.
  - apply (inferred_relationships_are_new _ _ r E).
  - simpl. lia.
Defined.

(** ** The key nodes of RIL *)

Section KeyNodes.

Lemma insert_in (a x : RIL.KeyNode) (l : list RIL.KeyNode) :
  In x (RIL.insert_by_degree a l) <-> x = a \/ In x l.
Proof.
  induction l as [| y l IH]; simpl.
  - intuition.
  - destruct (RIL.k_degree a <? RIL.k_degree y)%nat; simpl.
    + rewrite IH. intuition.
    + intuition.
Qed.

Lemma insert_descending (a : RIL.KeyNode) (l : list RIL.KeyNode) :
  descending l -> descending (RIL.insert_by_degree a l).
Proof.
  induction l as [| y l IH]; simpl; [auto |].
  intros [Hy Hl].
  destruct (Nat.ltb_spec (RIL.k_degree a) (RIL.k_degree y)) as [Hlt | Hge];
    simpl.
  - split; [| auto]. apply Forall_forall. intros x Hx.
    apply insert_in in Hx. destruct Hx as [-> | Hx]; [lia |].
    rewrite Forall_forall in Hy. auto.
  - repeat split; auto. constructor; [exact Hge |].
    eapply Forall_impl; [| exact Hy]. simpl. intros; lia.
Qed.

Lemma sort_in (x : RIL.KeyNode) (l : list RIL.KeyNode) :
  In x (RIL.sort_by_degree l) <-> In x l.
Proof.
  induction l as [| a l IH]; simpl; [tauto |].
  rewrite insert_in, IH. intuition.
Qed.

Lemma sort_descending (l : list RIL.KeyNode) :
  descending (RIL.sort_by_degree l).
Proof.
  induction l as [| a l IH]; simpl; [auto |]. now apply insert_descending.
Qed.

Lemma firstn_descending (n : nat) (l : list RIL.KeyNode) :
  descending l -> descending (firstn n l).
Proof.
  revert l. induction n as [| n IH]; intros [| x l]; simpl; auto.
  intros [Hx Hl]. split; [| auto].
  apply Forall_forall. intros y Hy. apply in_firstn in Hy.
  rewrite Forall_forall in Hx. auto.
Qed.

Lemma importance_bounds (d : nat) :
  (1 <= d)%nat ->
  0 < py_min (of_nat d / 5) 1 /\ py_min (of_nat d / 5) 1 <= 1
  /\ ((5 <= d)%nat -> py_min (of_nat d / 5) 1 == 1).
Proof.
  intro Hd.
  assert (H1 : 1 <= of_nat d).
  { unfold of_nat. change 1 with (inject_Z 1). rewrite <- Zle_Qle. lia. }
  assert (Hdiv : of_nat d / 5 == of_nat d * (1#5)) by (field).
  split; [| split].
  - unfold py_min. destruct (Qltb_spec 1 (of_nat d / 5)); lra.
  - apply py_min_le_r.
  - intro H5.
    assert (5 <= of_nat d).
    { unfold of_nat. change 5 with (inject_Z 5). rewrite <- Zle_Qle. lia. }
    unfold py_min. destruct (Qltb_spec 1 (of_nat d / 5)); lra.
Qed.

Lemma identify_key_nodes_ok (concepts : list Concept)
    (relationships : list Relationship) (graph : RIL.Graph)
    (ks : list RIL.KeyNode) :
  RIL._build_graph concepts relationships = Return graph ->
  RIL._identify_key_nodes graph = Return ks ->
  (List.length ks <= 5)%nat /\ descending ks
  /\ Forall (key_node_ok concepts relationships) ks.
Proof.
  intros Hg H. unfold RIL._identify_key_nodes in H.
  destruct (for_each (RIL.nodes graph)
              (RIL.add_key_node (RIL.edges graph) (RIL.reverse_edges graph))
              []) as [key_nodes |] eqn:E; [| discriminate].
  assert (Hks : ks = firstn 5 (RIL.sort_by_degree key_nodes))
    by (cbn [bind] in H; congruence).
  clear H. subst ks.
  destruct (build_graph_reads _ _ _ Hg) as (Hout & Hin & Hnodes).
  assert (Hall : Forall (key_node_ok concepts relationships) key_nodes).
  { apply (for_each_invariant
             (Forall (key_node_ok concepts relationships))
             (RIL.nodes graph)
             (RIL.add_key_node (RIL.edges graph) (RIL.reverse_edges graph))
             [] key_nodes); [constructor | | exact E].
    intros acc [node_id node] acc' Hitem Hacc Hadd.
    unfold RIL.add_key_node in Hadd. cbn [fst snd] in Hadd.
    rewrite Hout, Hin in Hadd.
    destruct (Nat.ltb_spec 0
                (List.length (outgoing node_id relationships)
                 + List.length (incoming node_id relationships)))
      as [Hpos | Hzero].
    - destruct (c_name node) as [name |] eqn:En; [| discriminate].
      simpl in Hadd. injection Hadd as <-.
      apply Forall_app. split; [exact Hacc |]. constructor; [| constructor].
      destruct (Hnodes _ _ Hitem) as [Hc Hid].
      unfold key_node_ok. cbn [RIL.k_id RIL.k_name RIL.k_degree
                                 RIL.k_importance].
      split; [exists node; auto |].
      split; [reflexivity | split; [lia | reflexivity]].
    - injection Hadd as <-. exact Hacc. }
  split; [apply firstn_le_length | split].
  - apply firstn_descending, sort_descending.
  - apply Forall_forall. intros k Hk. apply in_firstn in Hk.
    apply (proj1 (sort_in _ _)) in Hk.
    rewrite Forall_forall in Hall. auto.
Qed.

End KeyNodes.

(** X12: the key concepts of [infer] are at most 5, in order of degree,
    largest first.  Each is a concept of the input, with its id and name;
    its degree counts the relationships that leave its id plus those that
    arrive at it (a self-loop counts twice) and is at least 1; its
    importance is min(degree / 5, 1), so it lies in (0, 1] and is 1 from
    degree 5 on. *)
Theorem key_concepts_ranked :
  forall (concepts : list Concept) (relationships : list Relationship)
         (r : RIL.Result),
    RIL.infer concepts relationships = Return r ->
    (List.length (RIL.key_concepts r) <= 5)%nat
    /\ descending (RIL.key_concepts r)
    /\ Forall
         (fun k =>
            key_node_ok concepts relationships k
            /\ 0 < RIL.k_importance k /\ RIL.k_importance k <= 1
            /\ ((5 <= RIL.k_degree k)%nat -> RIL.k_importance k == 1))
         (RIL.key_concepts r).
Proof.
  intros concepts relationships r H.
  destruct (infer_parts _ _ _ H) as (graph & Hg & _ & _ & Hk & _).
  destruct (identify_key_nodes_ok _ _ _ _ Hg Hk) as (Hlen & Hdesc & Hall).
  split; [exact Hlen | split; [exact Hdesc |]].
  eapply Forall_impl; [| exact Hall].
  intros k Hok. split; [exact Hok |].
  destruct Hok as (_ & _ & Hd & Hi). rewrite Hi.
  apply importance_bounds. exact Hd.
Qed.

Lemma key_concepts_ranked_witness :
  returned (RIL.infer [concept "A"; concept "B"; concept "C"]
                      [rel "A" "B"; rel "B" "C"]) = true
  /\ descending
       (match RIL.infer [concept "A"; concept "B"; concept "C"]
                        [rel "A" "B"; rel "B" "C"] with
        | Return r => RIL.key_concepts r
        | Raise _ => []
        end).
Proof.
  split; [reflexivity |].
  destruct (RIL.infer [concept "A"; concept "B"; concept "C"]
                      [rel "A" "B"; rel "B" "C"]) as [r |] eqn:E.
  - apply (key_concepts_ranked _ _ r E).
  - exact I.
Defined.

(** ** The reasoning paths of RIL *)

Section ReasoningPaths.

Lemma for_each_grows {A B : Type} (n : nat) (l : list A)
    (body : list B -> A -> Outcome (list B)) (s s' : list B) :
  (forall s a s1, body s a = Return s1 ->
                  (List.length s1 <= List.length s + n)%nat) ->
  for_each l body s = Return s' ->
  (List.length s' <= List.length s + n * List.length l)%nat.
Proof.
  intro Hbody. revert s.
  induction l as [| a l IH]; intros s H; simpl in H.
  - injection H as <-. lia.
  - destruct (body s a) as [s1 |] eqn:E; [| discriminate]. simpl in H.
    apply IH in H. apply Hbody in E. simpl. lia.
Qed.

Lemma enumerate_length {A : Type} (l : list A) :
  List.length (RIL.enumerate l) = List.length l.
Proof.
  unfold RIL.enumerate. rewrite length_combine, length_seq. lia.
Qed.

Lemma last_default {A : Type} (l : list A) (d d' : A) :
  l <> [] -> last l d = last l d'.
Proof.
  induction l as [| a l IH]; intro H; [contradiction |].
  destruct l as [| b l]; [reflexivity |].
  change (last (b :: l) d = last (b :: l) d'). apply IH. discriminate.
Qed.

(** One pair of concepts adds at most one entry, and a sound one. *)
Lemma try_pair_step (concepts : list Concept)
    (relationships : list Relationship) (graph : RIL.Graph)
    (start_concept end_concept : Concept)
    (paths paths' : list RIL.ReasoningPath) :
  RIL._build_graph concepts relationships = Return graph ->
  In start_concept concepts -> In end_concept concepts ->
  RIL.try_pair graph start_concept paths end_concept = Return paths' ->
  paths' = paths
  \/ exists entry,
      paths' = paths ++ [entry]
      /\ reasoning_path_ok concepts relationships entry.
Proof.
  intros Hg Hs He H. unfold RIL.try_pair in H.
  destruct (c_id start_concept) as [sid |] eqn:Esid; [| discriminate].
  destruct (c_id end_concept) as [eid |] eqn:Eeid; [| discriminate].
  cbn [index bind] in H.
  destruct (RIL._find_path graph sid eid 3) as [path |] eqn:Ep.
  - destruct (c_name start_concept) as [sname |] eqn:Esn; [| discriminate].
    destruct (c_name end_concept) as [ename |] eqn:Een; [| discriminate].
    cbn [index bind] in H. injection H as <-. right. eexists.
    split; [reflexivity |].
    apply find_path_sound in Ep.
    destruct Ep as (Hhd & Hlast & Hp & Hlen & _ & _).
    unfold reasoning_path_ok.
    cbn [RIL.rp_length RIL.rp_path RIL.rp_start RIL.rp_end].
    assert (Hne : path <> []) by (destruct path; discriminate).
    repeat split.
    + destruct path; [contradiction | simpl; lia].
    + exact Hlen.
    + eapply is_path_follows; eauto.
    + exists start_concept, end_concept, eid.
      repeat split; auto; try congruence.
      rewrite (last_default path eid sid Hne). exact Hlast.
  - injection H as <-. now left.
Qed.

Lemma find_reasoning_paths_ok (concepts : list Concept)
    (relationships : list Relationship) (graph : RIL.Graph)
    (paths : list RIL.ReasoningPath) :
  RIL._build_graph concepts relationships = Return graph ->
  RIL._find_reasoning_paths graph concepts = Return paths ->
  (List.length paths <= 6)%nat
  /\ ((List.length concepts < 2)%nat -> paths = [])
  /\ Forall (reasoning_path_ok concepts relationships) paths.
Proof.
  intros Hg H. unfold RIL._find_reasoning_paths in H.
  destruct (Nat.ltb_spec (List.length concepts) 2) as [Hlt | Hge].
  - injection H as <-. repeat split; auto. simpl. lia.
  - split; [| split; [intro; lia |]].
    + apply (for_each_grows 2) in H.
      * rewrite enumerate_length, length_firstn in H.
        cbn [List.length] in H. lia.
      * intros s [i sc] s1 Hs. unfold RIL.paths_from in Hs.
        apply (for_each_grows 1) in Hs.
        -- rewrite length_firstn in Hs. lia.
        -- intros s0 ec s2 Ht. unfold RIL.try_pair in Ht.
           cbn [snd] in Ht.
           destruct (index "id" (c_id sc)); [| discriminate].
           destruct (index "id" (c_id ec)); [| discriminate].
           cbn [bind] in Ht.
           destruct (RIL._find_path graph a a0 3).
           ++ destruct (index "name" (c_name sc)); [| discriminate].
              destruct (index "name" (c_name ec)); [| discriminate].
              cbn [bind] in Ht. injection Ht as <-.
              rewrite length_app. simpl. lia.
           ++ injection Ht as <-. lia.
    + apply (for_each_invariant
               (Forall (reasoning_path_ok concepts relationships))
               _ _ [] paths) in H; [exact H | constructor |].
      intros s [i sc] s1 Hin Hs Hbody. unfold RIL.paths_from in Hbody.
      cbn [fst snd] in Hbody.
      apply in_combine_r, in_firstn in Hin.
      apply (for_each_invariant
               (Forall (reasoning_path_ok concepts relationships))
               _ _ s s1) in Hbody; [exact Hbody | exact Hs |].
      intros s0 ec s2 Hin' Hs0 Ht.
      apply in_firstn, in_skipn in Hin'.
      destruct (try_pair_step _ _ _ _ _ _ _ Hg Hin Hin' Ht)
        as [-> | (entry & -> & Hok)]; [exact Hs0 |].
      apply Forall_app. split; [exact Hs0 |]. constructor; [exact Hok |].
      constructor.
Qed.

End ReasoningPaths.

(** X13: [infer] returns at most 6 reasoning paths, and none for fewer
    than two concepts.  Each joins two concepts of the input, named by
    their names, by a path of 1 to 4 nodes that starts at the id of the
    first, ends at the id of the second and follows relationships of the
    input from node to node; its length field is the number of nodes.  The
    graph structure reports the numbers of concepts, relationships and
    inferred relationships. *)
Theorem reasoning_paths_are_sound :
  forall (concepts : list Concept) (relationships : list Relationship)
         (r : RIL.Result),
    RIL.infer concepts relationships = Return r ->
    (List.length (RIL.reasoning_paths r) <= 6)%nat
    /\ ((List.length concepts < 2)%nat -> RIL.reasoning_paths r = [])
    /\ Forall (reasoning_path_ok concepts relationships)
              (RIL.reasoning_paths r)
    /\ RIL.graph_structure r
       = RIL.mkGraphStructure (List.length concepts)
           (List.length relationships)
           (List.length (RIL.inferred_relationships r)).
Proof.
  intros concepts relationships r H.
  destruct (infer_parts _ _ _ H) as (graph & Hg & _ & Hp & _ & Hs).
  destruct (find_reasoning_paths_ok _ _ _ _ Hg Hp) as (H1 & H2 & H3).
  auto.
Qed.

Lemma reasoning_paths_are_sound_witness :
  returned (RIL.infer [concept "A"; concept "B"; concept "C"]
                      [rel "A" "B"; rel "B" "C"]) = true
  /\ (List.length
        (match RIL.infer [concept "A"; concept "B"; concept "C"]
                         [rel "A" "B"; rel "B" "C"] with
         | Return r => RIL.reasoning_paths r
         | Raise _ => []
         end) <= 6)%nat.
Proof.
  split; [reflexivity |].
  destruct (RIL.infer [concept "A"; concept "B"; concept "C"]
                      [rel "A" "B"; rel "B" "C"]) as [r |] eqn:E.
  - apply (reasoning_paths_are_sound _ _ r E).
  - simpl. lia.
Defined.

(** ** More on the orchestrator *)

Section MoreRuns.

Lemma text_types (text : string) :
  Forall not_relational (CAM._detect_text_contradictions text).
Proof.
  unfold CAM._detect_text_contradictions.
  set (base := fold_left _ CAM.patterns []).
  assert (Hbase : Forall not_relational base).
  { apply fold_left_invariant; [| constructor].
    intros acc [neg pos] Hacc.
    destruct (_ && _); [| exact Hacc].
    apply Forall_snoc; [exact Hacc |]. now left. }
  destruct (2 <? _)%nat; [| exact Hbase].
  apply Forall_snoc; [exact Hbase |]. now left.
Qed.

Lemma logical_types (ao : AnalystDict) :
  Forall not_relational (CAM._detect_logical_contradictions ao).
Proof.
  unfold CAM._detect_logical_contradictions.
  apply fold_left_invariant.
  - intros acc f Hacc. destruct (existsb _ _); [| exact Hacc].
    apply Forall_snoc; [exact Hacc |]. right. now right.
  - destruct (opt_is _ "invalid"), (opt_is _ "unsound"); simpl;
      repeat constructor; right; now left.
Qed.

(** What a run leaves behind once the analyst producer has returned,
    whatever happens afterwards. *)
Lemma process_after_analyst (env : Orchestrator.Env) (text : string)
    (user_id session_id : option string)
    (self : Orchestrator.VCTTOrchestrator)
    (analyst_output : Orchestrator.AgentOutput AnalystResult) :
  Orchestrator.analyst_process env (analyst_input text user_id session_id)
  = Return analyst_output ->
  let ao := Orchestrator.analyst_to_dict analyst_output in
  let sim_run := SIM.analyze text (Some ao) (Orchestrator.sim self) in
  let cam_run := CAM.analyze text (Some ao) None (Orchestrator.cam self) in
  let ctm_run :=
    CTM.calculate_trust (Orchestrator.utcnow env) (Some ao) None
      (Some (SIM.to_dict (fst sim_run)))
      (CAM.res_contradiction_score (fst cam_run)) (Orchestrator.ctm self) in
  let sre_run :=
    SRE.regulate (SIM.to_dict (fst sim_run))
      (CAM.res_contradiction_score (fst cam_run))
      (CTM.res_trust_score (fst ctm_run)) (Orchestrator.sre self) in
  let run := Orchestrator.process env text user_id session_id self in
  snd run
  = Orchestrator.mkOrchestrator (snd sim_run) (snd cam_run) (snd sre_run)
      (snd ctm_run) (Orchestrator.model self)
      (Orchestrator.mkInternalState (fst sim_run)
         (CAM.res_contradiction_score (fst cam_run))
         (SRE.res_mode (fst sre_run)) (CTM.res_trust_score (fst ctm_run)))
  /\ (forall data,
         fst run = Orchestrator.Success data ->
         Orchestrator.d_module_details data
         = Orchestrator.mkModuleDetails (fst sim_run) (fst cam_run)
             (fst sre_run) (fst ctm_run)
             (Orchestrator.md_ril (Orchestrator.d_module_details data))
         /\ Orchestrator.d_internal_state data
            = Orchestrator.internal_state (snd run)).
Proof.
  intro Ha. unfold analyst_input in Ha. cbv zeta.
  unfold Orchestrator.process. rewrite Ha. cbv zeta.
  set (ao := Orchestrator.analyst_to_dict analyst_output).
  destruct (SIM.analyze text (Some ao) (Orchestrator.sim self))
    as [sim_metrics sim'].
  destruct (CAM.analyze text (Some ao) None (Orchestrator.cam self))
    as [cam_result cam'].
  cbv beta iota. cbn [fst snd].
  destruct (CTM.calculate_trust _ _ _ _ _ _) as [ctm_result ctm'].
  cbv beta iota. cbn [fst snd].
  destruct (SRE.regulate _ _ _ _) as [sre_result sre'].
  cbv beta iota. cbn [fst snd].
  destruct (Orchestrator.relational_process env _)
    as [relational_output | e];
    [destruct (RIL.infer _ _) as [ril_result | e];
     [destruct (Orchestrator.synthesiser_process env _)
        as [synthesiser_output | e] |] |];
    cbn [fst snd]; (split; [reflexivity |]);
    intros data Hd; try discriminate.
  injection Hd as <-. split; reflexivity.
Qed.

End MoreRuns.

(** X14: the internal state mirrors the modules.  It does for a new
    orchestrator; a run keeps it so, and a run whose analyst producer
    returns makes it so, whether the run then succeeds or fails:
    afterwards the internal state shows the metrics SIM holds, the score
    CAM holds, the trust score CTM holds and the mode SRE holds.
    [reset_state] resets the internal state alone: the modules keep their
    state and history. *)
Theorem internal_state_mirrors_modules :
  (forall model : string, in_sync (Orchestrator.new model))
  /\ (forall (env : Orchestrator.Env) (text : string)
             (user_id session_id : option string)
             (self : Orchestrator.VCTTOrchestrator),
         let self' :=
           snd (Orchestrator.process env text user_id session_id self) in
         (in_sync self -> in_sync self')
         /\ (returned
               (Orchestrator.analyst_process env
                  (analyst_input text user_id session_id)) = true ->
             in_sync self'))
  /\ (forall self : Orchestrator.VCTTOrchestrator,
         Orchestrator.get_internal_state (Orchestrator.reset_state self)
         = Orchestrator._init_internal_state
         /\ Orchestrator.sre (Orchestrator.reset_state self)
            = Orchestrator.sre self
         /\ Orchestrator.ctm (Orchestrator.reset_state self)
            = Orchestrator.ctm self
         /\ Orchestrator.cam (Orchestrator.reset_state self)
            = Orchestrator.cam self
         /\ Orchestrator.sim (Orchestrator.reset_state self)
            = Orchestrator.sim self).
Proof.
  split; [| split].
  - intro model. repeat split.
  - intros env text user_id session_id self self'.
    destruct (Orchestrator.analyst_process env
                (analyst_input text user_id session_id))
      as [analyst_output | e] eqn:Ha.
    + assert (Hs : in_sync self').
      { subst self'.
        rewrite (proj1 (process_after_analyst env text user_id session_id
                          self analyst_output Ha)).
        repeat split. }
      split; auto.
    + assert (E : self' = self).
      { subst self'. unfold Orchestrator.process.
        unfold analyst_input in Ha. rewrite Ha. reflexivity. }
      rewrite E. split; [auto | discriminate].
  - intro self. repeat split.
Qed.

(** X15: the pipeline gives neither CAM nor CTM the relational output.
    In the result of a successful run, every contradiction record is
    textual, logical or logical_fallacy, never relational, and the trust
    factors hold "analyst" and "situational" but no "relational": the
    relational weight always multiplies the default 0.5. *)
Theorem pipeline_never_uses_relational_output :
  forall (env : Orchestrator.Env) (text : string)
         (user_id session_id : option string)
         (self : Orchestrator.VCTTOrchestrator) (data : Orchestrator.Data),
    fst (Orchestrator.process env text user_id session_id self)
    = Orchestrator.Success data ->
    let details := Orchestrator.d_module_details data in
    let f := CTM.res_factors (Orchestrator.md_ctm details) in
    Forall not_relational
      (CAM.res_contradictions (Orchestrator.md_cam details))
    /\ PyDict.get String.eqb "relational"%string f = None
    /\ is_some (PyDict.get String.eqb "analyst"%string f) = true
    /\ is_some (PyDict.get String.eqb "situational"%string f) = true
    /\ PyDict.get_default String.eqb "relational"%string (5#10) f = 5#10.
Proof.
  intros env text user_id session_id self data H details f.
  destruct (Orchestrator.analyst_process env
              (analyst_input text user_id session_id))
    as [analyst_output | e] eqn:Ha.
  - destruct (process_after_analyst env text user_id session_id self
                analyst_output Ha) as [_ Hd].
    destruct (Hd data H) as [Hdet _]. subst f details. rewrite Hdet.
    cbn [Orchestrator.md_cam Orchestrator.md_ctm].
    split; [| split; [| split; [| split]]].
    + unfold CAM.analyze. cbn [fst CAM.res_contradictions].
      cbn [Orchestrator.analyst_to_dict analyst_truthy ad_result is_some
           orb app].
      apply Forall_app. split; [apply text_types | apply logical_types].
    + rewrite relational_factor. reflexivity.
    + rewrite analyst_factor. reflexivity.
    + rewrite situational_factor. reflexivity.
    + unfold PyDict.get_default. rewrite relational_factor. reflexivity.
  - exfalso. unfold Orchestrator.process in H.
    unfold analyst_input in Ha. rewrite Ha in H. discriminate.
Qed.

Lemma pipeline_never_uses_relational_output_witness :
  Orchestrator.is_error
    (fst (Orchestrator.process all_succeed "x" None None
            (Orchestrator.new "gpt-4"))) = false
  /\ match fst (Orchestrator.process all_succeed "x" None None
                  (Orchestrator.new "gpt-4")) with
     | Orchestrator.Success data =>
         Forall not_relational
           (CAM.res_contradictions
              (Orchestrator.md_cam (Orchestrator.d_module_details data)))
     | Orchestrator.Error _ _ => True
     end.
Proof.
  split; [reflexivity |].
  destruct (fst (Orchestrator.process all_succeed "x" None None
                   (Orchestrator.new "gpt-4"))) as [data | m t] eqn:E.
  - apply (pipeline_never_uses_relational_output all_succeed "x" None None
             (Orchestrator.new "gpt-4") data E).
  - exact I.
Defined.

(** X16: what a run does to the modules is decided by the analyst
    producer alone.  If it raises, the orchestrator is left exactly as it
    was.  If it returns, CTM's history has exactly one more entry and
    SRE's history at most one more transition, also when a later stage
    fails and the run ends in the error result. *)
Theorem run_effects_on_histories :
  forall (env : Orchestrator.Env) (text : string)
         (user_id session_id : option string)
         (self : Orchestrator.VCTTOrchestrator),
    let run := Orchestrator.process env text user_id session_id self in
    let self' := snd run in
    let analyst :=
      Orchestrator.analyst_process env
        (analyst_input text user_id session_id) in
    (returned analyst = false ->
     self' = self /\ Orchestrator.is_error (fst run) = true)
    /\ (returned analyst = true ->
        List.length (CTM.get_history (Orchestrator.ctm self'))
        = S (List.length (CTM.get_history (Orchestrator.ctm self)))
        /\ exists added,
            SRE.get_history (Orchestrator.sre self')
            = SRE.get_history (Orchestrator.sre self) ++ added
            /\ (List.length added <= 1)%nat).
Proof.
  intros env text user_id session_id self run self' analyst.
  subst analyst.
  destruct (Orchestrator.analyst_process env
              (analyst_input text user_id session_id))
    as [analyst_output | e] eqn:Ha.
  - split; [discriminate |]. intros _. subst self' run.
    rewrite (proj1 (process_after_analyst env text user_id session_id
                      self analyst_output Ha)).
    cbn [Orchestrator.ctm Orchestrator.sre]. split.
    + unfold CTM.calculate_trust, CTM.get_history.
      cbn [snd CTM.trust_history]. rewrite length_app. simpl. lia.
    + unfold SRE.regulate, SRE.get_history. cbn [snd SRE.mode_history].
      destruct (negb _).
      * eexists. split; [reflexivity | simpl; lia].
      * exists []. split; [now rewrite app_nil_r | simpl; lia].
  - split; [| discriminate]. intros _. subst self' run.
    unfold Orchestrator.process. unfold analyst_input in Ha. rewrite Ha.
    split; reflexivity.
Qed.

(** ** The analyst agent *)

Section AnalystFacts.

Local Open Scope string_scope.

Example split_on_example :
  PyStrMore.split_on "010"%char
    (String "a" (String "010" (String "010" (String "b" (String "010" "")))))
  = ["a"; ""; "b"; ""].
Proof. reflexivity. Qed.

Example strip_example : PyStrMore.strip "  a b  " = "a b".
Proof. reflexivity. Qed.

Example count_runs_example :
  PyStrMore.count_runs Analyst.is_terminator "Hi! Is it?! Yes." false = 3%nat.
Proof. reflexivity. Qed.

Lemma clamp_above (x c : Q) :
  0 <= c -> c < 1 -> (c < py_max 0 (py_min 1 x) <-> c < x).
Proof.
  intros H0 H1. unfold py_max, py_min.
  destruct (Qltb_spec x 1); destruct (Qgtb_spec x 0);
    try (destruct (Qgtb_spec 1 0)); split; intro; lra.
Qed.

Lemma of_nat_lt (a b : nat) : (a < b)%nat <-> of_nat a < of_nat b.
Proof. unfold of_nat. rewrite <- Zlt_Qlt. lia. Qed.

End AnalystFacts.

(** X17: the strength [_assess_strength] gives has a score between 0 and
    0.7 and is never rated "strong": the rating is "weak" exactly when
    the structure is valid with three or more fallacies or not valid with
    one or more, and "moderate" otherwise. *)
Theorem assessed_strength_is_never_strong :
  forall (structure : Analyst.Structure) (fallacies : list Analyst.Fallacy),
    let g := Analyst._assess_strength structure fallacies in
    let valid := String.eqb (Analyst.s_validity structure) "valid" in
    let n := List.length fallacies in
    (0 <= Analyst.g_score g /\ Analyst.g_score g <= 7#10)
    /\ String.eqb (Analyst.g_rating g) "strong" = false
    /\ (Analyst.g_rating g = "weak"%string
        <-> (valid = true /\ (3 <= n)%nat) \/ (valid = false /\ (1 <= n)%nat))
    /\ (Analyst.g_rating g = "moderate"%string
        <-> (valid = true /\ (n < 3)%nat) \/ (valid = false /\ n = 0%nat)).
Proof.
  intros structure fallacies g valid n. subst g.
  unfold Analyst._assess_strength. fold valid. fold n.
  cbn [Analyst.g_score Analyst.g_rating].
  set (x := (if valid then _ else _) - of_nat n * (1#10)).
  pose proof (of_nat_nonneg n) as Hn0.
  assert (Hx : x <= 7#10) by (subst x; destruct valid; lra).
  assert (Hs : py_max 0 (py_min 1 x) <= 7#10).
  { apply py_max_lub; [discriminate |].
    eapply Qle_trans; [apply py_min_le_r | exact Hx]. }
  assert (H4 : 4#10 < py_max 0 (py_min 1 x) <-> 4#10 < x)
    by (apply clamp_above; lra).
  assert (Hx4 : 4#10 < x
                <-> (valid = true /\ (n < 3)%nat)
                    \/ (valid = false /\ n = 0%nat)).
  { subst x. destruct valid.
    - rewrite (of_nat_lt n 3). change (of_nat 3) with 3.
      split; [intro; left; split; [reflexivity | lra]
             | intros [[_ H] | [H _]]; [lra | discriminate]].
    - assert (E : n = 0%nat <-> of_nat n < of_nat 1).
      { rewrite <- of_nat_lt. lia. }
      rewrite E. change (of_nat 1) with 1.
      split; [intro; right; split; [reflexivity | lra]
             | intros [[H _] | [_ H]]; [discriminate | lra]]. }
  split; [split; [apply py_max_le_l | exact Hs] |].
  destruct (Qgtb_spec (py_max 0 (py_min 1 x)) (7#10)) as [H7 | H7]; [lra |].
  destruct (Qgtb_spec (py_max 0 (py_min 1 x)) (4#10)) as [Hm | Hm].
  - apply H4, Hx4 in Hm. split; [reflexivity |]. split.
    + split; [discriminate |].
      destruct Hm as [[Hv Hl] | [Hv Hl]]; intros [[Hv' Hl'] | [Hv' Hl']];
        try congruence; lia.
    + split; auto.
  - assert (Hno : ~ ((valid = true /\ (n < 3)%nat)
                     \/ (valid = false /\ n = 0%nat))).
    { intro H. apply Hx4, H4 in H. contradiction. }
    split; [reflexivity |]. split.
    + split; [| reflexivity]. intros _.
      destruct valid; [left | right]; split; try reflexivity.
      * destruct (Nat.lt_ge_cases n 3); [| assumption].
        exfalso. apply Hno. auto.
      * destruct n; [| lia]. exfalso. apply Hno. auto.
    + split; [discriminate | intro H; contradiction].
Qed.

Section AnalystStructure.

Lemma structure_values (response : Outcome string) :
  (Analyst.s_validity (Analyst._analyze_structure response) = "valid"%string
   \/ Analyst.s_validity (Analyst._analyze_structure response)
      = "uncertain"%string)
  /\ (Analyst.s_soundness (Analyst._analyze_structure response)
      = "sound"%string
      \/ Analyst.s_soundness (Analyst._analyze_structure response)
         = "uncertain"%string).
Proof.
  destruct response as [content | e]; simpl.
  - destruct (PyStr.contains "valid" _), (PyStr.contains "sound" _); auto.
  - auto.
Qed.

(** The logical pass of CAM on an output of the analyst agent. *)
Lemma analyst_logical_records (replies : Analyst.Replies)
    (now text : string) :
  CAM._detect_logical_contradictions
    (Analyst.to_dict (Analyst.process replies now text)) = []
  \/ CAM._detect_logical_contradictions
       (Analyst.to_dict (Analyst.process replies now text))
     = [CAM.mkRecord "logical_fallacy"
          "Contradiction-related fallacy: circular reasoning" (65#100)].
Proof.
  destruct replies as [rs rf rp].
  unfold CAM._detect_logical_contradictions, Analyst.process,
    Analyst.to_dict, Base._create_output, Analyst.result_dict,
    Analyst.structure_dict.
  cbv zeta.
  cbn [Orchestrator.result Analyst.structure_reply Analyst.fallacies_reply
       Analyst.premises_reply Analyst.structure Analyst.fallacies
       Analyst.strength ad_result ar_structure ar_fallacies st_validity
       st_soundness].
  assert (Hv : opt_is (Some (Analyst.s_validity
                               (Analyst._analyze_structure rs))) "invalid"
               = false).
  { destruct (structure_values rs) as [[-> | ->] _]; reflexivity. }
  assert (Hs : opt_is (Some (Analyst.s_soundness
                               (Analyst._analyze_structure rs))) "unsound"
               = false).
  { destruct (structure_values rs) as [_ [-> | ->]]; reflexivity. }
  rewrite Hv, Hs.
  destruct rf as [content | e]; [| left; reflexivity].
  unfold Analyst._detect_fallacies, Analyst.common_fallacies.
  cbn [fold_left].
  repeat match goal with
         | |- context [PyStr.contains ?f (PyStr.lower content)] =>
             destruct (PyStr.contains f (PyStr.lower content))
         end;
    vm_compute; auto.
Qed.

End AnalystStructure.

(** X18: the analyst agent reports the validity "valid" or "uncertain"
    and the soundness "sound" or "uncertain", never "invalid" or
    "unsound": a reply that has "invalid" in it is read as "valid", since
    "valid" is part of it, and one that has "unsound" as "sound"; a failed
    model call gives "uncertain" twice, the type "unknown" and the error.
    So on an output of this agent the logical pass of CAM finds no invalid
    or unsound structure: it emits nothing, or the one record of the
    fallacy "circular reasoning". *)
Theorem analyst_never_reports_invalid :
  (forall response : Outcome string,
      let s := Analyst._analyze_structure response in
      (Analyst.s_validity s = "valid"%string
       \/ Analyst.s_validity s = "uncertain"%string)
      /\ (Analyst.s_soundness s = "sound"%string
          \/ Analyst.s_soundness s = "uncertain"%string)
      /\ (forall content,
             response = Return content ->
             (PyStr.contains "invalid" (PyStr.lower content) = true ->
              Analyst.s_validity s = "valid"%string)
             /\ (PyStr.contains "unsound" (PyStr.lower content) = true ->
                 Analyst.s_soundness s = "sound"%string))
      /\ (forall e,
             response = Raise e ->
             s = Analyst.mkStructure "unknown" "uncertain" "uncertain" None
                   (Some (exn_message e))))
  /\ (forall (replies : Analyst.Replies) (now text : string),
         let records :=
           CAM._detect_logical_contradictions
             (Analyst.to_dict (Analyst.process replies now text)) in
         records = []
         \/ records
            = [CAM.mkRecord "logical_fallacy"
                 "Contradiction-related fallacy: circular reasoning"
                 (65#100)]).
Proof.
  split.
  - intros response s.
    destruct (structure_values response) as [Hv Hs]. fold s in Hv, Hs.
    split; [exact Hv | split; [exact Hs | split]].
    + intros content ->. subst s. simpl. split; intro H.
      * now rewrite (contains_app_r "in" "valid" _ H).
      * now rewrite (contains_app_r "un" "sound" _ H).
    + intros e ->. reflexivity.
  - intros replies now text records. subst records.
    apply analyst_logical_records.
Qed.

Section AnalystOutput.

Lemma fold_left_length_bound {A B : Type} (step : list B -> A -> list B)
    (l : list A) (acc : list B) :
  (forall acc a, (List.length (step acc a) <= S (List.length acc))%nat) ->
  (List.length (fold_left step l acc) <= List.length acc + List.length l)%nat.
Proof.
  intro Hstep. revert acc. induction l as [| a l IH]; intro acc; simpl.
  - lia.
  - specialize (IH (step acc a)). specialize (Hstep acc a). lia.
Qed.

Lemma strength_rating_values (structure : Analyst.Structure)
    (fallacies : list Analyst.Fallacy) :
  Analyst.g_rating (Analyst._assess_strength structure fallacies)
  = "weak"%string
  \/ Analyst.g_rating (Analyst._assess_strength structure fallacies)
     = "moderate"%string.
Proof.
  unfold Analyst._assess_strength. cbv zeta. cbn [Analyst.g_rating].
  set (x := (if String.eqb _ _ then _ else _) - of_nat _ * (1#10)).
  assert (Hx : x <= 7#10).
  { subst x. pose proof (of_nat_nonneg (List.length fallacies)).
    destruct (String.eqb _ _); lra. }
  assert (Hs : py_max 0 (py_min 1 x) <= 7#10).
  { apply py_max_lub; [discriminate |].
    eapply Qle_trans; [apply py_min_le_r | exact Hx]. }
  destruct (Qgtb_spec (py_max 0 (py_min 1 x)) (7#10)); [lra |].
  destruct (Qgtb _ (4#10)); auto.
Qed.

(** A confidence between 0 and 1 goes through [_create_output] as it
    is. *)
Lemma create_output_keeps {R : Type} (agent_type : string) (result : R)
    (c : Q) (now : string) :
  0 <= c -> c <= 1 ->
  Orchestrator.confidence (Base._create_output agent_type result c now) = c.
Proof.
  intros H0 H1. unfold Base._create_output.
  cbn [Orchestrator.confidence]. unfold py_min, py_max.
  destruct (Qgtb_spec 0 c); [lra |].
  destruct (Qltb_spec 1 c); [lra | reflexivity].
Qed.

(** The confidence of the analyst by cases: on the type, on the premises
    and conclusions, on the error. *)
Lemma analyst_confidence_cases (result : Analyst.Result) :
  let c := Analyst._calculate_confidence result in
  (is_some (Analyst.s_error (Analyst.structure result)) = false ->
   7#10 <= c /\ c <= 9#10)
  /\ (String.eqb (Analyst.s_type (Analyst.structure result)) "unknown" = true
      -> is_some (Analyst.s_error (Analyst.structure result)) = true ->
      5#10 <= c /\ c <= 6#10).
Proof.
  unfold Analyst._calculate_confidence. cbv zeta.
  destruct (String.eqb _ "unknown"),
    (negb (Analyst.is_empty _) || negb (Analyst.is_empty _)),
    (is_some _); cbn [negb];
    split; intros; try discriminate;
    unfold py_max, py_min;
    repeat match goal with
           | |- context [Qltb ?a ?b] => destruct (Qltb_spec a b)
           end;
    repeat match goal with
           | |- context [Qgtb ?a ?b] => destruct (Qgtb_spec a b)
           end; lra.
Qed.

(** SIM adds the bonus of the rating for any output of the analyst. *)
Lemma analyst_uncertainty_floor (replies : Analyst.Replies)
    (now text analysed : string) :
  15#100
  <= SIM._calculate_uncertainty analysed
       (Some (Analyst.to_dict (Analyst.process replies now text))).
Proof.
  pose proof (strength_rating_values
                (Analyst._analyze_structure
                   (Analyst.structure_reply replies))
                (Analyst._detect_fallacies
                   (Analyst.fallacies_reply replies))) as Hrating.
  unfold Analyst.process, Analyst.to_dict, Base._create_output,
    Analyst.result_dict, Analyst.strength_dict.
  cbv zeta.
  cbn [Orchestrator.result Orchestrator.confidence Analyst.strength].
  unfold SIM._calculate_uncertainty. cbv zeta.
  cbn [SIM.truthy_result analyst_truthy ad_result ad_confidence ad_other
       is_some orb analyst_result_truthy ar_structure ar_fallacies
       ar_strength ar_other sg_rating].
  match goal with |- context [py_min (of_nat ?n * ?w) (5#10)] =>
    pose proof (capped_term n w (5#10) ltac:(discriminate)
                  ltac:(discriminate)) as H1;
    set (t1 := py_min (of_nat n * w) (5#10)) in *; clearbody t1 end.
  match goal with |- context [py_min (of_nat ?n * ?w) (2#10)] =>
    pose proof (capped_term n w (2#10) ltac:(discriminate)
                  ltac:(discriminate)) as H2;
    set (t2 := py_min (of_nat n * w) (2#10)) in *; clearbody t2 end.
  apply py_min_glb; [| discriminate].
  destruct Hrating as [-> | ->];
    cbn [opt_is String.eqb Ascii.eqb Bool.eqb andb]; lra.
Qed.

End AnalystOutput.

(** X19: whatever the model replies, even when every call fails, the
    output of the analyst agent has a confidence above 0 and at most 0.9,
    which the clamp of [_create_output] leaves as [_calculate_confidence]
    gave it, and which is below 0.7 exactly when the call that analyses
    the structure failed; it has at most 7 fallacies, 5 premises and 3
    conclusions, and a strength rated "weak" or "moderate", so that SIM
    adds a bonus for the rating to the uncertainty of any text analysed
    with this output: the uncertainty is at least 0.15. *)
Theorem analyst_output_bounds :
  forall (replies : Analyst.Replies) (now text analysed : string),
    let out := Analyst.process replies now text in
    let result := Orchestrator.result out in
    Orchestrator.confidence out = Analyst._calculate_confidence result
    /\ (0 < Orchestrator.confidence out
        /\ Orchestrator.confidence out <= 9#10)
    /\ (Orchestrator.confidence out < 7#10
        <-> exists e, Analyst.structure_reply replies = Raise e)
    /\ (List.length (Analyst.fallacies result) <= 7)%nat
    /\ (List.length (Analyst.premises result) <= 5)%nat
    /\ (List.length (Analyst.conclusions result) <= 3)%nat
    /\ (Analyst.g_rating (Analyst.strength result) = "weak"%string
        \/ Analyst.g_rating (Analyst.strength result) = "moderate"%string)
    /\ 15#100
       <= SIM._calculate_uncertainty analysed (Some (Analyst.to_dict out)).
Proof.
  intros replies now text analysed out result.
  pose proof (analyst_uncertainty_floor replies now text analysed) as Hfloor.
  fold out in Hfloor.
  assert (Hout : out = Base._create_output "analyst" result
                         (Analyst._calculate_confidence result) now).
  { reflexivity. }
  assert (Hstructure : Analyst.structure result
                       = Analyst._analyze_structure
                           (Analyst.structure_reply replies)).
  { reflexivity. }
  assert (Hfallacies : Analyst.fallacies result
                       = Analyst._detect_fallacies
                           (Analyst.fallacies_reply replies)).
  { reflexivity. }
  assert (Hstrength : Analyst.strength result
                      = Analyst._assess_strength
                          (Analyst.structure result)
                          (Analyst.fallacies result)).
  { reflexivity. }
  assert (Hpremises : Analyst.premises result
                      = fst (Analyst._extract_premises_conclusions
                               (Analyst.premises_reply replies))).
  { reflexivity. }
  assert (Hconclusions : Analyst.conclusions result
                         = snd (Analyst._extract_premises_conclusions
                                  (Analyst.premises_reply replies))).
  { reflexivity. }
  assert (Hrating :
            Analyst.g_rating (Analyst.strength result) = "weak"%string
            \/ Analyst.g_rating (Analyst.strength result)
               = "moderate"%string).
  { rewrite Hstrength. apply strength_rating_values. }
  destruct (analyst_confidence_cases result) as [Hok Hfailed].
  cbv zeta in Hok, Hfailed.
  assert (Hcases :
            (exists e, Analyst.structure_reply replies = Raise e)
            /\ 5#10 <= Analyst._calculate_confidence result
            /\ Analyst._calculate_confidence result <= 6#10
            \/ (forall e, Analyst.structure_reply replies <> Raise e)
               /\ 7#10 <= Analyst._calculate_confidence result
               /\ Analyst._calculate_confidence result <= 9#10).
  { rewrite Hstructure in Hok, Hfailed.
    destruct (Analyst.structure_reply replies) as [content | e].
    - right. split; [discriminate | apply Hok; reflexivity].
    - left. split; [eauto | apply Hfailed; reflexivity]. }
  clearbody result out.
  assert (Hconf : Orchestrator.confidence out
                  = Analyst._calculate_confidence result).
  { rewrite Hout. apply create_output_keeps;
      destruct Hcases as [(_ & H1 & H2) | (_ & H1 & H2)]; lra. }
  split; [exact Hconf |].
  rewrite Hconf.
  split; [destruct Hcases as [(_ & H1 & H2) | (_ & H1 & H2)]; lra |].
  split.
  { destruct Hcases as [(He & H1 & H2) | (He & H1 & H2)].
    - split; [intros _; exact He | intros _; lra].
    - split; [intro; lra | intros [e E]; destruct (He e E)]. }
  split.
  { rewrite Hfallacies. unfold Analyst._detect_fallacies.
    destruct (Analyst.fallacies_reply replies) as [content | e];
      [| simpl; lia].
    match goal with
    | |- (List.length (fold_left ?f ?l ?a) <= _)%nat =>
        pose proof (fold_left_length_bound f l a) as Hbound
    end.
    etransitivity; [apply Hbound | simpl; lia].
    intros acc x. cbv beta.
    destruct (PyStr.contains _ _); [rewrite length_app; simpl; lia | lia]. }
  split.
  { rewrite Hpremises. unfold Analyst._extract_premises_conclusions.
    destruct (Analyst.premises_reply replies); cbn [fst];
      [apply firstn_le_length | simpl; lia]. }
  split.
  { rewrite Hconclusions. unfold Analyst._extract_premises_conclusions.
    destruct (Analyst.premises_reply replies); cbn [snd];
      [apply firstn_le_length | simpl; lia]. }
  split; [exact Hrating |]. exact Hfloor.
Qed.

(** ** The relational agent *)

Section RelationalFacts.

Lemma enumerate_map_fst {A B : Type} (f : nat -> B) (l : list A) (s : nat) :
  map (fun entry => f (fst entry)) (combine (seq s (List.length l)) l)
  = map f (seq s (List.length l)).
Proof.
  revert s. induction l as [| a l IH]; intro s; simpl; [reflexivity |].
  now rewrite IH.
Qed.

Lemma enumerate_map_snd {A B : Type} (f : A -> B) (l : list A) (s : nat) :
  map (fun entry => f (snd entry)) (combine (seq s (List.length l)) l)
  = map f l.
Proof.
  revert s. induction l as [| a l IH]; intro s; simpl; [reflexivity |].
  now rewrite IH.
Qed.

Lemma item_in_range {A : Type} (l : list A) (i : nat) (d : A) :
  (i < List.length l)%nat -> Relational.item l i = Return (nth i l d).
Proof.
  intro H. unfold Relational.item. now rewrite (nth_error_nth' l d H).
Qed.

(** The loop of [_map_relationships] stays in range: it never raises. *)
Lemma links_loop (concepts : list Relational.Concept) (k : nat) :
  forall (s : nat) (acc : list Relational.Link),
    (s + k < List.length concepts)%nat ->
    for_each (seq s k) (Relational.add_link concepts) acc
    = Return (acc ++ map (fun i => Relational.link (concept_at concepts i)
                                     (concept_at concepts (i + 1)))
                         (seq s k)).
Proof.
  induction k as [| k IH]; intros s acc H; simpl.
  - now rewrite app_nil_r.
  - unfold Relational.add_link at 1.
    rewrite (item_in_range concepts s (Relational.mkConcept "" "" "" 0))
      by lia.
    rewrite (item_in_range concepts (s + 1)
               (Relational.mkConcept "" "" "" 0)) by lia.
    cbn [bind]. rewrite IH by lia. rewrite <- app_assoc. reflexivity.
Qed.

Lemma map_relationships_chain (concepts : list Relational.Concept)
    (response : Outcome string) :
  Relational._map_relationships concepts response
  = if (2 <=? List.length concepts)%nat && returned response
    then chain concepts (Nat.min (List.length concepts - 1) 5)
    else [].
Proof.
  unfold Relational._map_relationships.
  destruct (Nat.ltb_spec (List.length concepts) 2) as [H | H].
  - destruct (Nat.leb_spec 2 (List.length concepts)); [lia | reflexivity].
  - destruct (Nat.leb_spec 2 (List.length concepts)); [| lia].
    destruct response as [content | e]; cbn [bind returned andb];
      [| reflexivity].
    rewrite links_loop by lia. reflexivity.
Qed.

Lemma chain_length (concepts : list Relational.Concept) (k : nat) :
  List.length (chain concepts k) = k.
Proof. unfold chain. now rewrite length_map, length_seq. Qed.

Lemma density_bounds (n e : nat) :
  (e <= n - 1)%nat ->
  0 <= Relational._calculate_graph_density n e
  /\ Relational._calculate_graph_density n e <= 1.
Proof.
  intro H. unfold Relational._calculate_graph_density.
  destruct (Nat.ltb_spec n 2) as [Hn | Hn]; [split; discriminate |].
  cbv zeta.
  set (m := inject_Z (Z.of_nat n * (Z.of_nat n - 1))).
  assert (Hm : of_nat e * 2 <= m).
  { subst m. unfold of_nat. change 2 with (inject_Z 2).
    rewrite <- inject_Z_mult, <- Zle_Qle. nia. }
  assert (Hpos : 2 <= m).
  { subst m. change 2 with (inject_Z 2). rewrite <- Zle_Qle. nia. }
  pose proof (of_nat_nonneg e) as He.
  clearbody m. set (x := of_nat e) in *. clearbody x.
  destruct (Qgtb_spec (m / 2) 0) as [Hgt | Hgt]; [| split; discriminate].
  split.
  - apply Qle_shift_div_l; [exact Hgt |]. rewrite Qmult_0_l. exact He.
  - apply Qle_shift_div_r; [exact Hgt |]. rewrite Qmult_1_l.
    apply Qle_shift_div_l; [reflexivity | exact Hm].
Qed.

Lemma relational_confidence_bounds (result : Relational.Result) :
  6#10 <= Relational._calculate_confidence result
  /\ Relational._calculate_confidence result <= 1.
Proof.
  unfold Relational._calculate_confidence. cbv zeta.
  destruct (negb (Analyst.is_empty (Relational.concepts result))),
    (negb (Analyst.is_empty (Relational.relationships result))),
    (negb (Analyst.is_empty (Relational.implicit_relationships result)));
    unfold py_min;
    match goal with
    | |- context [Qltb ?a ?b] => destruct (Qltb_spec a b)
    end; split; lra.
Qed.

Lemma nodup_firstn {A : Type} (n : nat) (l : list A) :
  NoDup l -> NoDup (firstn n l).
Proof.
  revert l. induction n as [| n IH]; intros [| a l] H; simpl;
    try constructor.
  - inversion H as [| ? ? Hin Hl]; subst. intro Ha. apply Hin.
    eapply in_firstn. exact Ha.
  - inversion H; subst. now apply IH.
Qed.

End RelationalFacts.

(** X20: the output of the relational agent, whatever the model replies
    and in whatever order the set of words is listed.  The concepts are
    the first ten listed words at most, none when the first call fails,
    and the concept at place i has the id c_i.  The relationships form a
    chain: relationship i links concept i to concept i + 1 with the type
    "related_to"; there are min(n - 1, 5) of them for n >= 2 concepts,
    none when there are fewer or when the second call fails.  The graph
    metrics count both lists, the density lies between 0 and 1, and the
    confidence is between 0.6 and 1, unchanged by [_create_output].  When
    the listing is one of the set of words of a text, the names of the
    concepts are distinct words of that text: words longer than four
    characters, in lower case, without punctuation at their ends. *)
Theorem relational_output_is_a_chain :
  forall (replies : Relational.Replies) (unique_words : list string)
         (now : string),
    let out := Relational.process replies unique_words now in
    let r := Orchestrator.result out in
    let n := List.length (Relational.concepts r) in
    let k := List.length (Relational.relationships r) in
    (n <= 10)%nat
    /\ map Relational.n_name (Relational.concepts r)
       = (if returned (Relational.concepts_reply replies)
          then firstn 10 unique_words else [])
    /\ map Relational.n_id (Relational.concepts r)
       = map concept_id (seq 0 n)
    /\ Relational.relationships r = chain (Relational.concepts r) k
    /\ k = (if (2 <=? n)%nat
               && returned (Relational.relationships_reply replies)
            then Nat.min (n - 1) 5 else 0%nat)
    /\ Relational.node_count (Relational.graph_metrics r) = n
    /\ Relational.edge_count (Relational.graph_metrics r) = k
    /\ (0 <= Relational.density (Relational.graph_metrics r)
        /\ Relational.density (Relational.graph_metrics r) <= 1)
    /\ Orchestrator.confidence out = Relational._calculate_confidence r
    /\ (6#10 <= Orchestrator.confidence out
        /\ Orchestrator.confidence out <= 1)
    /\ (forall text,
           lists unique_words text ->
           NoDup (map Relational.n_name (Relational.concepts r))
           /\ forall c,
               In c (Relational.concepts r) ->
               exists w,
                 In w (PyStr.split text) /\ (4 < String.length w)%nat
                 /\ Relational.n_name c
                    = PyStrMore.strip_chars (PyStrMore.one_of ".,!?;:")
                                            (PyStr.lower w)).
Proof.
  intros replies unique_words now out r n k.
  assert (Hout : out = Base._create_output "relational" r
                         (Relational._calculate_confidence r) now).
  { reflexivity. }
  assert (Hconcepts : Relational.concepts r
                      = Relational._extract_concepts
                          (Relational.concepts_reply replies) unique_words).
  { reflexivity. }
  assert (Hrels : Relational.relationships r
                  = Relational._map_relationships (Relational.concepts r)
                      (Relational.relationships_reply replies)).
  { reflexivity. }
  assert (Hmetrics : Relational.graph_metrics r
                     = Relational.mkMetrics n k
                         (Relational._calculate_graph_density n k)).
  { reflexivity. }
  rewrite map_relationships_chain in Hrels. fold n in Hrels.
  assert (Hk : k = if (2 <=? n)%nat
                      && returned (Relational.relationships_reply replies)
                   then Nat.min (n - 1) 5 else 0%nat).
  { subst k. rewrite Hrels.
    destruct (_ && _); [apply chain_length | reflexivity]. }
  assert (Hle : (k <= n - 1)%nat).
  { rewrite Hk. destruct (_ && _); lia. }
  pose proof (relational_confidence_bounds r) as Hc.
  assert (Hconf : Orchestrator.confidence out
                  = Relational._calculate_confidence r).
  { rewrite Hout. apply create_output_keeps; lra. }
  assert (Hn : (n <= 10)%nat
               /\ map Relational.n_name (Relational.concepts r)
                  = (if returned (Relational.concepts_reply replies)
                     then firstn 10 unique_words else [])
               /\ map Relational.n_id (Relational.concepts r)
                  = map concept_id (seq 0 n)).
  { subst n. rewrite Hconcepts. unfold Relational._extract_concepts.
    destruct (Relational.concepts_reply replies) as [content | e];
      cbn [returned]; [| repeat split; simpl; lia].
    rewrite length_map, enumerate_length.
    split; [apply firstn_le_length |]. unfold RIL.enumerate.
    rewrite !map_map. split.
    - rewrite (enumerate_map_snd (fun w : string => w)). apply map_id.
    - apply (enumerate_map_fst concept_id). }
  clearbody r out.
  destruct Hn as (Hn1 & Hn2 & Hn3).
  split; [exact Hn1 |]. split; [exact Hn2 |]. split; [exact Hn3 |].
  split.
  { rewrite Hrels at 1. rewrite Hk. destruct (_ && _); reflexivity. }
  split; [exact Hk |].
  rewrite Hmetrics. cbn [Relational.node_count Relational.edge_count
                           Relational.density].
  split; [reflexivity |]. split; [reflexivity |].
  split; [apply density_bounds; exact Hle |].
  split; [exact Hconf |]. rewrite Hconf. split; [exact Hc |].
  intros text [Hnodup Hwords].
  assert (Hnames : forall w,
             In w (map Relational.n_name (Relational.concepts r)) ->
             In w unique_words).
  { intros w Hw. rewrite Hn2 in Hw.
    destruct (returned (Relational.concepts_reply replies));
      [eapply in_firstn; exact Hw | destruct Hw]. }
  split.
  - rewrite Hn2. destruct (returned (Relational.concepts_reply replies));
      [now apply nodup_firstn | constructor].
  - intros c Hin.
    assert (Hw : In (Relational.n_name c) (Relational.words text)).
    { apply Hwords, Hnames. now apply in_map. }
    unfold Relational.words in Hw. apply in_map_iff in Hw.
    destruct Hw as (w & Hname & Hw). apply filter_In in Hw.
    destruct Hw as [Hsplit Hlen]. apply Nat.ltb_lt in Hlen.
    exists w. split; [exact Hsplit |]. split; [exact Hlen |].
    symmetry. exact Hname.
Qed.

Section RelationalAndRIL.

Lemma concept_dicts_complete (concepts : list Relational.Concept) :
  forallb concept_complete (map Relational.concept_dict concepts) = true.
Proof. induction concepts as [| c l IH]; simpl; auto. Qed.

Lemma link_dicts_complete (relationships : list Relational.Link) :
  forallb relationship_complete (map Relational.link_dict relationships)
  = true.
Proof. induction relationships as [| r l IH]; simpl; auto. Qed.

(** What RIL infers from the concepts made of the words [ws], at most
    ten, and their chain. *)
Lemma chain_shortcuts (ws : list string) (response : Outcome string) :
  (List.length ws <= 10)%nat ->
  let concepts := map Relational.concept_of (RIL.enumerate ws) in
  let relationships := Relational._map_relationships concepts response in
  inferred_of (RIL.infer (map Relational.concept_dict concepts)
                         (map Relational.link_dict relationships))
  = shortcuts (List.length relationships).
Proof.
  intro H.
  do 11 (destruct ws as [| ? ws];
         [destruct response; vm_compute; reflexivity |]).
  simpl in H. lia.
Qed.

Lemma relational_inferred (replies : Relational.Replies)
    (unique_words : list string) (now : string) :
  let r := Orchestrator.result
             (Relational.process replies unique_words now) in
  inferred_of
    (RIL.infer (map Relational.concept_dict (Relational.concepts r))
               (map Relational.link_dict (Relational.relationships r)))
  = shortcuts (List.length (Relational.relationships r)).
Proof.
  unfold Relational.process, Base._create_output.
  cbv zeta.
  cbn [Orchestrator.result Relational.concepts Relational.relationships].
  unfold Relational._extract_concepts.
  destruct (Relational.concepts_reply replies) as [content | e].
  - apply chain_shortcuts. apply firstn_le_length.
  - destruct (Relational.relationships_reply replies); reflexivity.
Qed.

End RelationalAndRIL.

(** X21: RIL accepts what the relational agent produces.  On the concepts
    and relationships of its output, whatever the model replies, [infer]
    returns: every record has the keys RIL reads.  The graph it reports
    has as many nodes and edges as the graph metrics of the agent, and
    the inferred relationships are exactly the two-step shortcuts of the
    chain, from c_i to c_(i+2) through c_(i+1), in order. *)
Theorem ril_accepts_relational_output :
  forall (replies : Relational.Replies) (unique_words : list string)
         (now : string),
    let r := Orchestrator.result
               (Relational.process replies unique_words now) in
    let run :=
      RIL.infer (map Relational.concept_dict (Relational.concepts r))
                (map Relational.link_dict (Relational.relationships r)) in
    returned run = true
    /\ forall res,
        run = Return res ->
        RIL.inferred_relationships res
        = shortcuts (Relational.edge_count (Relational.graph_metrics r))
        /\ RIL.gs_nodes (RIL.graph_structure res)
           = Relational.node_count (Relational.graph_metrics r)
        /\ RIL.gs_edges (RIL.graph_structure res)
           = Relational.edge_count (Relational.graph_metrics r).
Proof.
  intros replies unique_words now r run.
  split.
  - apply infer_returns;
      [apply concept_dicts_complete | apply link_dicts_complete].
  - intros res Hres.
    destruct (infer_parts _ _ _ Hres) as (_ & _ & _ & _ & _ & Hgs).
    rewrite Hgs. cbn [RIL.gs_nodes RIL.gs_edges]. rewrite !length_map.
    split; [| split; reflexivity].
    change (RIL.inferred_relationships res) with (inferred_of (Return res)).
    rewrite <- Hres. subst run r.
    apply relational_inferred.
Qed.

Section ImplicitFacts.

Variable explicit : list Relational.Link.

Lemma joins_is_explicit (a b : string) :
  joins explicit a b = Relational.is_explicit explicit a b.
Proof. reflexivity. Qed.

Lemma joins_unjoined (a b : string) :
  joins explicit a b = false <-> unjoined explicit a b.
Proof.
  unfold joins, unjoined.
  rewrite <- Bool.not_true_iff_false, existsb_exists. split.
  - intros H r Hr [H1 H2]. apply H. exists r. split; [exact Hr |].
    apply andb_true_iff. now rewrite !String.eqb_eq.
  - intros H (r & Hr & Hb). apply andb_true_iff in Hb.
    rewrite !String.eqb_eq in Hb. exact (H r Hr Hb).
Qed.

Lemma implicit_inner_step (c1 c2 : Relational.Concept)
    (acc : list Relational.Implicit) :
  Relational.implicit_inner explicit c1 (loop_state acc) c2
  = loop_state (acc ++ emit explicit c1 c2).
Proof.
  unfold loop_state, emit. rewrite joins_is_explicit.
  destruct (Relational.is_explicit explicit (Relational.n_id c1)
              (Relational.n_id c2)) eqn:E.
  - rewrite app_nil_r.
    destruct (3 <=? List.length acc)%nat;
      cbn [Relational.implicit_inner]; [reflexivity |].
    rewrite E. reflexivity.
  - destruct (Nat.leb_spec 3 (List.length acc)) as [H | H];
      cbn [Relational.implicit_inner].
    + rewrite length_app.
      destruct (Nat.leb_spec 3 (List.length acc
                                + List.length [implicit_entry c1 c2]));
        [| lia].
      rewrite firstn_app.
      replace (3 - List.length acc)%nat with 0%nat by lia.
      now rewrite firstn_O, app_nil_r.
    + rewrite E. cbn [negb]. cbv zeta. fold (implicit_entry c1 c2).
      destruct (Nat.leb_spec 3 (List.length (acc ++ [implicit_entry c1 c2])))
        as [H3 | H3]; [| reflexivity].
      rewrite firstn_all2; [reflexivity |].
      rewrite length_app in *. simpl in *. lia.
Qed.

Lemma implicit_inner_loop (c1 : Relational.Concept)
    (l : list Relational.Concept) :
  forall acc,
    fold_left (Relational.implicit_inner explicit c1) l (loop_state acc)
    = loop_state (acc ++ flat_map (emit explicit c1) l).
Proof.
  induction l as [| c2 l IH]; intro acc; simpl.
  - now rewrite app_nil_r.
  - rewrite implicit_inner_step, IH, <- app_assoc. reflexivity.
Qed.

Lemma implicit_outer_loop (concepts : list Relational.Concept)
    (entries : list (nat * Relational.Concept)) :
  forall acc,
    fold_left (Relational.implicit_outer explicit concepts) entries
              (loop_state acc)
    = loop_state
        (acc ++ flat_map
                  (fun entry =>
                     flat_map (emit explicit (snd entry))
                              (skipn (fst entry + 1) concepts))
                  entries).
Proof.
  induction entries as [| entry entries IH]; intro acc; simpl.
  - now rewrite app_nil_r.
  - unfold Relational.implicit_outer at 2.
    rewrite implicit_inner_loop, IH, <- app_assoc. reflexivity.
Qed.

Lemma identify_implicit_closed_form (concepts : list Relational.Concept) :
  Relational._identify_implicit_relationships concepts explicit
  = firstn 3 (implicit_candidates concepts explicit).
Proof.
  unfold Relational._identify_implicit_relationships.
  change (@inr (list Relational.Implicit) _ [])
    with (loop_state []).
  rewrite implicit_outer_loop. cbn [app].
  fold (implicit_candidates concepts explicit).
  unfold loop_state.
  destruct (Nat.leb_spec 3 (List.length
                              (implicit_candidates concepts explicit)));
    [reflexivity |].
  symmetry. apply firstn_all2. lia.
Qed.

Lemma enumerate_in {A : Type} (l : list A) (s i : nat) (a : A) :
  In (i, a) (combine (seq s (List.length l)) l)
  <-> (s <= i)%nat /\ nth_error l (i - s) = Some a.
Proof.
  revert s. induction l as [| b l IH]; intro s; simpl.
  - split; [tauto |]. intros [_ H]. destruct (i - s)%nat; discriminate.
  - rewrite IH. split.
    + intros [E | [Hle Hn]].
      * injection E as <- <-. rewrite Nat.sub_diag. split; [lia | reflexivity].
      * split; [lia |].
        replace (i - s)%nat with (S (i - S s)) by lia. exact Hn.
    + intros [Hle Hn].
      destruct (Nat.eq_dec s i) as [<- | Hne].
      * rewrite Nat.sub_diag in Hn. injection Hn as <-. now left.
      * right. split; [lia |].
        replace (i - s)%nat with (S (i - S s)) in Hn by lia. exact Hn.
Qed.

Lemma skipn_in {A : Type} (l : list A) (k : nat) (a : A) :
  In a (skipn k l)
  <-> exists j, (k <= j)%nat /\ nth_error l j = Some a.
Proof.
  revert l. induction k as [| k IH]; intro l.
  - rewrite skipn_O. split.
    + intro H. apply In_nth_error in H. destruct H as [j Hj].
      exists j. split; [lia | exact Hj].
    + intros (j & _ & Hj). eapply nth_error_In. exact Hj.
  - destruct l as [| b l]; simpl.
    + split; [tauto |]. intros (j & _ & Hj). destruct j; discriminate.
    + rewrite IH. split.
      * intros (j & Hle & Hj). exists (S j). split; [lia | exact Hj].
      * intros (j & Hle & Hj). destruct j as [| j]; [lia |].
        exists j. split; [lia | exact Hj].
Qed.

Lemma concept_at_nth (concepts : list Relational.Concept) (i : nat)
    (c : Relational.Concept) :
  nth_error concepts i = Some c -> concept_at concepts i = c.
Proof. intro H. unfold concept_at. now apply nth_error_nth. Qed.

Lemma nth_concept_at (concepts : list Relational.Concept) (i : nat) :
  (i < List.length concepts)%nat ->
  nth_error concepts i = Some (concept_at concepts i).
Proof. intro H. unfold concept_at. now apply nth_error_nth'. Qed.

(** The candidates are the pairs of places i < j not joined. *)
Lemma in_implicit_candidates (concepts : list Relational.Concept)
    (m : Relational.Implicit) :
  In m (implicit_candidates concepts explicit)
  <-> exists i j,
      (i < j < List.length concepts)%nat
      /\ unjoined explicit (Relational.n_id (concept_at concepts i))
                           (Relational.n_id (concept_at concepts j))
      /\ m = implicit_entry (concept_at concepts i) (concept_at concepts j).
Proof.
  unfold implicit_candidates. rewrite in_flat_map. split.
  - intros ([i c1] & Hentry & Hm). cbn [fst snd] in Hm.
    apply enumerate_in in Hentry. destruct Hentry as [_ Hi].
    rewrite Nat.sub_0_r in Hi.
    apply in_flat_map in Hm. destruct Hm as (c2 & Hc2 & Hm).
    apply skipn_in in Hc2. destruct Hc2 as (j & Hij & Hj).
    unfold emit in Hm.
    destruct (joins explicit _ _) eqn:E; [destruct Hm |].
    destruct Hm as [<- | []]. apply joins_unjoined in E.
    exists i, j.
    rewrite (concept_at_nth _ _ _ Hi), (concept_at_nth _ _ _ Hj).
    split; [| split; [exact E | reflexivity]].
    split; [lia |]. apply nth_error_Some. congruence.
  - intros (i & j & Hij & E & ->).
    exists (i, concept_at concepts i). split.
    + apply enumerate_in. rewrite Nat.sub_0_r.
      split; [lia | apply nth_concept_at; lia].
    + cbn [fst snd]. apply in_flat_map.
      exists (concept_at concepts j). split.
      * apply skipn_in. exists j. split; [lia | apply nth_concept_at; lia].
      * unfold emit. apply joins_unjoined in E. rewrite E. now left.
Qed.

End ImplicitFacts.

(** X22: the implicit relationships are the first three pairs of concepts,
    in the order of the two loops, that no explicit relationship joins
    from the first to the second: each entry is such a pair, with the
    concept at place i as source and a concept at a later place j as
    target, the type "implicit" and the confidence 0.4; there are three
    at most, and when fewer than three are returned every such pair is
    among them. *)
Theorem implicit_relationships_are_unjoined_pairs :
  forall (concepts : list Relational.Concept)
         (explicit : list Relational.Link),
    let implicit :=
      Relational._identify_implicit_relationships concepts explicit in
    implicit = firstn 3 (implicit_candidates concepts explicit)
    /\ (List.length implicit <= 3)%nat
    /\ Forall
         (fun m =>
            Relational.m_type m = "implicit"%string
            /\ Relational.m_confidence m = 4#10
            /\ unjoined explicit (Relational.m_source m)
                                 (Relational.m_target m)
            /\ exists i j,
                (i < j < List.length concepts)%nat
                /\ m = implicit_entry (concept_at concepts i)
                                      (concept_at concepts j))
         implicit
    /\ ((List.length implicit < 3)%nat ->
        forall i j,
          (i < j < List.length concepts)%nat ->
          unjoined explicit (Relational.n_id (concept_at concepts i))
                            (Relational.n_id (concept_at concepts j)) ->
          In (implicit_entry (concept_at concepts i) (concept_at concepts j))
             implicit).
Proof.
  intros concepts explicit implicit.
  assert (E : implicit = firstn 3 (implicit_candidates concepts explicit)).
  { apply identify_implicit_closed_form. }
  clearbody implicit. subst implicit.
  split; [reflexivity |]. split; [apply firstn_le_length |]. split.
  - apply Forall_forall. intros m Hm. apply in_firstn in Hm.
    apply in_implicit_candidates in Hm.
    destruct Hm as (i & j & Hij & Hex & ->).
    cbn [implicit_entry Relational.m_type Relational.m_confidence
         Relational.m_source Relational.m_target].
    repeat split; try exact Hex; try reflexivity.
    exists i, j. split; [exact Hij | reflexivity].
  - intros Hlen i j Hij Hex.
    rewrite firstn_all2.
    + apply in_implicit_candidates. exists i, j. auto.
    + rewrite length_firstn in Hlen. lia.
Qed.

(** ** Runs with the agents of the repository *)

Section RepositoryRuns.

Lemma text_records_textual (text : string) :
  Forall textual_or_fallacy (CAM._detect_text_contradictions text).
Proof.
  unfold CAM._detect_text_contradictions.
  set (base := fold_left _ CAM.patterns []).
  assert (Hbase : Forall textual_or_fallacy base).
  { apply fold_left_invariant; [| constructor].
    intros acc [neg pos] Hacc.
    destruct (_ && _); [| exact Hacc].
    apply Forall_snoc; [exact Hacc |]. now left. }
  destruct (2 <? _)%nat; [| exact Hbase].
  apply Forall_snoc; [exact Hbase |]. now left.
Qed.

(** A run with the agents of the repository reaches the end. *)
Lemma repository_run (calls : Calls) (utcnow utcnow_end : string)
    (elapsed_ms : Z) (text : string) (user_id session_id : option string)
    (self : Orchestrator.VCTTOrchestrator) :
  let env := repository_env calls utcnow utcnow_end elapsed_ms in
  let r :=
    Orchestrator.result
      (Relational.process (relational_replies calls) (listing calls text)
                          (relational_now calls)) in
  exists data,
    fst (Orchestrator.process env text user_id session_id self)
    = Orchestrator.Success data
    /\ RIL.infer (map Relational.concept_dict (Relational.concepts r))
                 (map Relational.link_dict (Relational.relationships r))
       = Return (Orchestrator.md_ril (Orchestrator.d_module_details data)).
Proof.
  intros env r.
  pose proof (infer_returns
                (map Relational.concept_dict (Relational.concepts r))
                (map Relational.link_dict (Relational.relationships r))
                (concept_dicts_complete _) (link_dicts_complete _)) as Hril.
  unfold Orchestrator.process. subst env.
  unfold repository_env, analyst_agent, relational_agent, synthesiser_agent.
  cbv zeta.
  cbn [Orchestrator.analyst_process Orchestrator.relational_process
       Orchestrator.synthesiser_process Orchestrator.ai_text].
  destruct (SIM.analyze _ _ _) as [sim_metrics sim'].
  destruct (CAM.analyze _ _ _ _) as [cam_result cam'].
  cbv beta iota.
  destruct (CTM.calculate_trust _ _ _ _ _ _) as [ctm_result ctm'].
  cbv beta iota.
  destruct (SRE.regulate _ _ _ _) as [sre_result sre'].
  cbv beta iota.
  cbn [Orchestrator.result Relational.result_dict rr_concepts
       rr_relationships].
  fold r.
  destruct (RIL.infer _ _) as [ril_result | e]; [| discriminate].
  eexists. split; reflexivity.
Qed.

(** The run in which every model call fails. *)
Example failed_calls_run :
  Orchestrator.is_error
    (fst (Orchestrator.process (repository_env all_calls_fail "t1" "t4" 0)
            "Maybe. But why?" None None (Orchestrator.new "gpt-4")))
  = false.
Proof. vm_compute. reflexivity. Qed.

End RepositoryRuns.

(** X23: with the three agents of the repository as producers a run never
    ends in the error result, whatever the model calls give, a reply or
    an exception: the agents catch the failures of their calls, and RIL
    accepts every output of the relational agent.  In the result, no
    contradiction record says that the structure is invalid or unsound
    (the records are textual or fallacy records), the uncertainty of SIM
    is at least 0.15, and the relationships inferred by RIL are the
    two-step shortcuts of the chain of the relational agent. *)
Theorem run_with_repository_agents_succeeds :
  forall (calls : Calls) (utcnow utcnow_end : string) (elapsed_ms : Z)
         (text : string) (user_id session_id : option string)
         (self : Orchestrator.VCTTOrchestrator),
    let env := repository_env calls utcnow utcnow_end elapsed_ms in
    exists data,
      fst (Orchestrator.process env text user_id session_id self)
      = Orchestrator.Success data
      /\ Forall textual_or_fallacy
           (CAM.res_contradictions
              (Orchestrator.md_cam (Orchestrator.d_module_details data)))
      /\ 15#100
         <= SIM.uncertainty
              (Orchestrator.md_sim (Orchestrator.d_module_details data))
      /\ RIL.inferred_relationships
           (Orchestrator.md_ril (Orchestrator.d_module_details data))
         = shortcuts
             (RIL.gs_edges
                (RIL.graph_structure
                   (Orchestrator.md_ril
                      (Orchestrator.d_module_details data)))).
Proof.
  intros calls utcnow utcnow_end elapsed_ms text user_id session_id self env.
  destruct (repository_run calls utcnow utcnow_end elapsed_ms text user_id
              session_id self) as (data & Hdata & Hril).
  fold env in Hdata. exists data. split; [exact Hdata |].
  assert (Ha : Orchestrator.analyst_process env
                 (analyst_input text user_id session_id)
               = analyst_agent calls
                   (analyst_input text user_id session_id)).
  { reflexivity. }
  unfold analyst_agent in Ha. cbv zeta in Ha.
  destruct (process_after_analyst env text user_id session_id self _ Ha)
    as [_ Hd].
  destruct (Hd data Hdata) as [Hdet _]. clear Hd.
  split; [| split].
  - rewrite Hdet. cbn [Orchestrator.md_cam].
    unfold CAM.analyze. cbn [fst CAM.res_contradictions].
    cbn [Orchestrator.analyst_to_dict analyst_truthy ad_result is_some
         orb app].
    apply Forall_app. split; [apply text_records_textual |].
    match goal with
    | |- Forall _ (CAM._detect_logical_contradictions ?d) =>
        change d
          with (Analyst.to_dict
                  (Analyst.process (analyst_replies calls)
                     (analyst_now calls) text))
    end.
    destruct (analyst_logical_records (analyst_replies calls)
                (analyst_now calls) text) as [-> | ->];
      [constructor | constructor; [now right | constructor]].
  - rewrite Hdet. cbn [Orchestrator.md_sim].
    unfold SIM.analyze. cbn [fst SIM.uncertainty].
    apply (analyst_uncertainty_floor (analyst_replies calls)
             (analyst_now calls) text text).
  - destruct (infer_parts _ _ _ Hril) as (_ & _ & _ & _ & _ & Hgs).
    rewrite Hgs. cbn [RIL.gs_edges]. rewrite length_map.
    change (RIL.inferred_relationships
              (Orchestrator.md_ril (Orchestrator.d_module_details data)))
      with (inferred_of
              (Return (Orchestrator.md_ril
                         (Orchestrator.d_module_details data)))).
    rewrite <- Hril. apply relational_inferred.
Qed.

Section SynthesiserFacts.

Lemma init_regulated : regulated Orchestrator._init_internal_state.
Proof. reflexivity. Qed.

Lemma normal_thresholds (sm : SimDict) (cs ts : Q) :
  SRE._determine_mode sm cs ts = SRE.normal ->
  cs <= 4#10 /\ 5#10 <= ts /\ metric (sd_tension sm) <= 6#10.
Proof.
  intro H.
  destruct (determine_mode_rules sm cs ts) as (_ & _ & Hn).
  apply Hn in H. destruct H as [_ Hc]. unfold clarify_rule in Hc.
  repeat split; apply Qnot_lt_le; intro; apply Hc; auto.
Qed.

End SynthesiserFacts.

(** X24: the synthesiser agrees with the regulation.  The internal state
    an orchestrator holds is regulated (its mode is the one SRE computes
    from its other values): a new orchestrator's is, and a run keeps it
    so.  On a regulated state that the synthesiser reads from its
    context, the recommendations are empty exactly when the mode is
    normal; in normal mode no contradiction is put up for resolution and
    the state adds no insight.  There are never more than two
    recommendations. *)
Theorem synthesiser_follows_regulation :
  (forall model : string,
      regulated (Orchestrator.internal_state (Orchestrator.new model)))
  /\ (forall (env : Orchestrator.Env) (text : string)
             (user_id session_id : option string)
             (self : Orchestrator.VCTTOrchestrator),
         regulated (Orchestrator.internal_state self) ->
         regulated
           (Orchestrator.internal_state
              (snd (Orchestrator.process env text user_id session_id
                      self))))
  /\ (forall (state : Orchestrator.InternalState)
             (analyst_output : AnalystDict)
             (relational_output : RelationalDict),
         regulated state ->
         (Synthesiser._generate_recommendations (Some state) = []
          <-> Orchestrator.is_regulation_mode state = SRE.normal)
         /\ (Orchestrator.is_regulation_mode state = SRE.normal ->
             Synthesiser._resolve_contradictions (Some state) = []
             /\ Synthesiser._generate_insights analyst_output
                  relational_output (Some state)
                = Synthesiser._generate_insights analyst_output
                    relational_output None))
  /\ (forall state : option Orchestrator.InternalState,
         (List.length (Synthesiser._generate_recommendations state) <= 2)%nat).
Proof.
  split; [| split; [| split]].
  - intro model. apply init_regulated.
  - intros env text user_id session_id self Hself.
    destruct (Orchestrator.analyst_process env
                (analyst_input text user_id session_id))
      as [analyst_output | e] eqn:Ha.
    + rewrite (proj1 (process_after_analyst env text user_id session_id
                        self analyst_output Ha)).
      reflexivity.
    + unfold Orchestrator.process. unfold analyst_input in Ha.
      rewrite Ha. exact Hself.
  - intros state analyst_output relational_output Hreg.
    unfold regulated in Hreg.
    assert (Hnormal :
              Orchestrator.is_regulation_mode state = SRE.normal ->
              Orchestrator.is_contradiction state <= 4#10
              /\ 5#10 <= Orchestrator.is_trust state
              /\ SIM.tension (Orchestrator.is_sim state) <= 6#10).
    { intro H. rewrite Hreg in H. apply normal_thresholds in H.
      exact H. }
    split; [split |].
    + unfold Synthesiser._generate_recommendations. cbv zeta.
      destruct (Orchestrator.is_regulation_mode state);
        [reflexivity | |];
        destruct (Qltb _ _); discriminate.
    + intro H. destruct (Hnormal H) as (_ & Ht & _).
      unfold Synthesiser._generate_recommendations. cbv zeta.
      rewrite H.
      destruct (Qltb_spec (Orchestrator.is_trust state) (5#10));
        [lra | reflexivity].
    + intro H. destruct (Hnormal H) as (Hc & _ & Hs). split.
      * unfold Synthesiser._resolve_contradictions. cbv zeta.
        destruct (Qgtb_spec (Orchestrator.is_contradiction state) (5#10));
          [lra | reflexivity].
      * unfold Synthesiser._generate_insights. cbv zeta.
        destruct (Qgtb_spec (SIM.tension (Orchestrator.is_sim state))
                    (6#10)); [lra | reflexivity].
  - intro state. unfold Synthesiser._generate_recommendations. cbv zeta.
    destruct state as [state |];
      [destruct (Orchestrator.is_regulation_mode state) |];
      destruct (Qltb _ _); simpl; lia.
Qed.

(** * Errors: the stages of a run and the records of RIL *)

Section Stages.

(** The result and the orchestrator of a run, stage by stage. *)
Lemma process_stages (env : Orchestrator.Env) (text : string)
    (user_id session_id : option string)
    (self : Orchestrator.VCTTOrchestrator) :
  let run := Orchestrator.process env text user_id session_id self in
  match Orchestrator.analyst_process env
          (analyst_input text user_id session_id) with
  | Raise e => run = (Orchestrator.error_result e, self)
  | Return a =>
      snd run = after_modules env text self a
      /\ match Orchestrator.relational_process env
                 (relational_input text user_id session_id a) with
         | Raise e => fst run = Orchestrator.error_result e
         | Return r =>
             match ril_run r with
             | Raise e => fst run = Orchestrator.error_result e
             | Return ril =>
                 match Orchestrator.synthesiser_process env
                         (synthesiser_input env text user_id session_id
                            self a r) with
                 | Raise e => fst run = Orchestrator.error_result e
                 | Return s => Orchestrator.is_error (fst run) = false
                 end
             end
         end
  end.
Proof.
  cbv zeta.
  unfold Orchestrator.process, analyst_input, relational_input,
    synthesiser_input, after_modules, ril_run.
  destruct (Orchestrator.analyst_process env _) as [a | e];
    [| reflexivity].
  cbv zeta.
  set (ao := Orchestrator.analyst_to_dict a).
  destruct (SIM.analyze text (Some ao) (Orchestrator.sim self))
    as [sim_metrics sim'].
  destruct (CAM.analyze text (Some ao) None (Orchestrator.cam self))
    as [cam_result cam'].
  cbv beta iota. cbn [fst snd].
  destruct (CTM.calculate_trust _ _ _ _ _ _) as [ctm_result ctm'].
  cbv beta iota. cbn [fst snd].
  destruct (SRE.regulate _ _ _ _) as [sre_result sre'].
  cbv beta iota. cbn [fst snd Orchestrator.internal_state].
  destruct (Orchestrator.relational_process env _) as [r | e];
    [| split; reflexivity].
  destruct (RIL.infer _ _) as [ril | e]; [| split; reflexivity].
  destruct (Orchestrator.synthesiser_process env _) as [s | e];
    split; reflexivity.
Qed.

End Stages.

(** C1 (as the code has it): when a stage of a run fails, [process]
    returns the structured error result of the exception the stage
    raised, and only then does it return an error result.  If the analyst
    producer failed, [get_internal_state] is unchanged; once it has
    returned, [get_internal_state] holds what SIM, CAM, CTM and SRE
    computed in the run, also when a later stage (the relationship
    producer, RIL or the synthesis producer) fails: nothing is rolled
    back. *)
Theorem failed_run_keeps_stage_two_state :
  forall (env : Orchestrator.Env) (text : string)
         (user_id session_id : option string)
         (self : Orchestrator.VCTTOrchestrator),
    let run := Orchestrator.process env text user_id session_id self in
    let before := Orchestrator.get_internal_state self in
    let after := Orchestrator.get_internal_state (snd run) in
    (forall e,
        Orchestrator.analyst_process env
          (analyst_input text user_id session_id) = Raise e ->
        fst run = Orchestrator.Error (exn_message e) (exn_type e)
        /\ after = before)
    /\ (forall analyst_output,
           Orchestrator.analyst_process env
             (analyst_input text user_id session_id)
           = Return analyst_output ->
           let ao := Orchestrator.analyst_to_dict analyst_output in
           let m :=
             fst (SIM.analyze text (Some ao) (Orchestrator.sim self)) in
           let c :=
             CAM.res_contradiction_score
               (fst (CAM.analyze text (Some ao) None
                       (Orchestrator.cam self))) in
           let t :=
             CTM.res_trust_score
               (fst (CTM.calculate_trust (Orchestrator.utcnow env)
                       (Some ao) None (Some (SIM.to_dict m)) c
                       (Orchestrator.ctm self))) in
           let mode :=
             SRE.res_mode
               (fst (SRE.regulate (SIM.to_dict m) c t
                       (Orchestrator.sre self))) in
           after = Orchestrator.mkInternalState m c mode t
           /\ (forall e,
                  Orchestrator.relational_process env
                    (relational_input text user_id session_id
                       analyst_output) = Raise e ->
                  fst run = Orchestrator.Error (exn_message e) (exn_type e))
           /\ (forall relational_output,
                  Orchestrator.relational_process env
                    (relational_input text user_id session_id
                       analyst_output) = Return relational_output ->
                  (forall e,
                      ril_run relational_output = Raise e ->
                      fst run
                      = Orchestrator.Error (exn_message e) (exn_type e))
                  /\ (forall ril_result,
                         ril_run relational_output = Return ril_result ->
                         (forall e,
                             Orchestrator.synthesiser_process env
                               (synthesiser_input env text user_id
                                  session_id self analyst_output
                                  relational_output) = Raise e ->
                             fst run
                             = Orchestrator.Error (exn_message e)
                                 (exn_type e))
                         /\ (forall synthesis,
                                Orchestrator.synthesiser_process env
                                  (synthesiser_input env text user_id
                                     session_id self analyst_output
                                     relational_output)
                                = Return synthesis ->
                                Orchestrator.is_error (fst run) = false)))).
Proof.
  intros env text user_id session_id self run before after.
  pose proof (process_stages env text user_id session_id self) as H.
  cbv zeta in H. fold run in H. subst before after.
  unfold Orchestrator.get_internal_state.
  split.
  - intros e Ha. rewrite Ha in H. rewrite H. split; reflexivity.
  - intros analyst_output Ha. rewrite Ha in H. destruct H as [Hself H].
    cbv zeta. split; [rewrite Hself; reflexivity |]. split.
    + intros e Hr. rewrite Hr in H. exact H.
    + intros relational_output Hr. rewrite Hr in H. split.
      * intros e Hi. rewrite Hi in H. exact H.
      * intros ril_result Hi. rewrite Hi in H. split.
        -- intros e Hs. rewrite Hs in H. exact H.
        -- intros synthesis Hs. rewrite Hs in H. exact H.
Qed.

(** The run in which the relationship producer raises. *)
Lemma failed_run_keeps_stage_two_state_witness :
  Orchestrator.relational_process relational_fails
    (relational_input "x" None None invalid_analysis)
  = Raise (mkExn "RuntimeError" "relational agent failed")
  /\ fst (Orchestrator.process relational_fails "x" None None
            (Orchestrator.new "gpt-4"))
     = Orchestrator.Error "relational agent failed" "RuntimeError".
Proof.
  split; [reflexivity |].
  apply (proj1 (proj2 (proj2 (failed_run_keeps_stage_two_state
                                relational_fails "x" None None
                                (Orchestrator.new "gpt-4"))
                         invalid_analysis eq_refl))
           (mkExn "RuntimeError" "relational agent failed")).
  reflexivity.
Defined.

(** ** Names that [infer] reads *)

Section MissingNames.










End MissingNames.



